(** * Bounded-context history manager of the Socratic tutor

    A shallow embedding of [socratic_tutor_v6.py]: the token counter, the
    summarizer wrapper, the context formatter and
    [manage_history_and_get_context], together with the start-up routine
    [configure_gemini].  The generative-model client is an external
    collaborator; it is taken as an interface whose calls may raise, whose
    answers may change from call to call, and whose invocations are
    recorded in a trace next to everything the program prints.  The
    question bank, the console and the session loops of [run_tutor]
    follow.  The manager is embedded a second time over a store of
    objects, for what depends on the list of the session being shared
    with its caller. *)

From Stdlib Require Import ZArith Ascii String DecimalString.
From stdpp Require Import base list strings.

Local Open Scope Z_scope.

(** ** Python text primitives

    Text is a sequence of 8-bit characters.  [is_space] is Python's
    [str.isspace] on that range; case mapping acts on the ASCII letters,
    which covers the role tags the program writes. *)
Module PyStr.

Definition nl_char : ascii := "010"%char.
Definition nl : string := String nl_char "".

Definition is_space (c : ascii) : bool :=
  let n := nat_of_ascii c in
  ((9 <=? n) && (n <=? 13) || (28 <=? n) && (n <=? 32)
   || (n =? 133) || (n =? 160))%nat.

Fixpoint lstrip (s : string) : string :=
  match s with
  | String c s' => if is_space c then lstrip s' else s
  | EmptyString => EmptyString
  end.

Definition rstrip (s : string) : string :=
  String.rev (lstrip (String.rev s)).

(** [s.strip()] *)
Definition strip (s : string) : string := rstrip (lstrip s).

(** [s.split(sep)] for a one-character separator. *)
Fixpoint split (sep : ascii) (s : string) : list string :=
  match s with
  | EmptyString => [EmptyString]
  | String c s' =>
      if Ascii.eqb c sep then EmptyString :: split sep s'
      else match split sep s' with
           | h :: t => String c h :: t
           | [] => [String c EmptyString]
           end
  end.

(** [sep.join(parts)] *)
Fixpoint join (sep : string) (parts : list string) : string :=
  match parts with
  | [] => EmptyString
  | [x] => x
  | x :: rest => x +:+ sep +:+ join sep rest
  end.

Definition upper_char (c : ascii) : ascii :=
  let n := nat_of_ascii c in
  if ((97 <=? n) && (n <=? 122))%nat then ascii_of_nat (n - 32) else c.

Definition lower_char (c : ascii) : ascii :=
  let n := nat_of_ascii c in
  if ((65 <=? n) && (n <=? 90))%nat then ascii_of_nat (n + 32) else c.

Fixpoint lower (s : string) : string :=
  match s with
  | String c s' => String (lower_char c) (lower s')
  | EmptyString => EmptyString
  end.

(** [s.capitalize()] *)
Definition capitalize (s : string) : string :=
  match s with
  | String c s' => String (upper_char c) (lower s')
  | EmptyString => EmptyString
  end.

(** Truth value of a string: non-empty. *)
Definition truthy (s : string) : bool :=
  match s with EmptyString => false | _ => true end.

(** [f"{n}"] for an integer. *)
Definition of_int (n : Z) : string := NilZero.string_of_int (Z.to_int n).

(** [s.startswith(p)] and [s.endswith(p)] *)
Fixpoint starts_with (p s : string) : bool :=
  match p, s with
  | EmptyString, _ => true
  | String a p', String b s' => Ascii.eqb a b && starts_with p' s'
  | String _ _, EmptyString => false
  end.

Definition ends_with (p s : string) : bool :=
  starts_with (String.rev p) (String.rev s).

(** [needle in s] *)
Fixpoint contains (needle s : string) : bool :=
  starts_with needle s ||
  match s with
  | String _ s' => contains needle s'
  | EmptyString => false
  end.

End PyStr.

(** ** Python floats

    The two float expressions of the program, [int(MAX_CONTEXT_WINDOW *
    HISTORY_TOKEN_BUDGET_RATIO)] and [int(target_tokens * 0.7)], multiply
    an integer by a binary64 constant and truncate.  A float is kept as
    [mant * 2 ^ expo]; products are rounded to 53 significant bits, ties
    to even.  Overflow and subnormals are out of reach of the operands the
    program forms and are not represented. *)
Module PyFloat.

Record t := mk { mant : Z; expo : Z }.

Definition round53 (m e : Z) : t :=
  let a := Z.abs m in
  if a <? 2 ^ 53 then mk m e
  else
    let k := Z.log2 a + 1 - 53 in
    let q := a / 2 ^ k in
    let r := a mod 2 ^ k in
    let half := 2 ^ (k - 1) in
    let q' := if (half <? r) || ((r =? half) && Z.odd q) then q + 1 else q in
    mk (Z.sgn m * q') (e + k).

(** [float(n)] *)
Definition of_int (n : Z) : t := round53 n 0.

(** [x * y] *)
Definition mul (x y : t) : t := round53 (mant x * mant y) (expo x + expo y).

(** [int(x)]: truncation towards zero. *)
Definition to_int (x : t) : Z :=
  if 0 <=? expo x then mant x * 2 ^ expo x
  else Z.quot (mant x) (2 ^ (- expo x)).

(** The literals [0.7] and [0.80] as binary64 values. *)
Definition lit_0_7 : t := mk 6305039478318694 (-53).
Definition lit_0_80 : t := mk 7205759403792794 (-53).

End PyFloat.

Import PyStr.

(** ** Data model *)

(** A turn of the log, [{'role': ..., 'content': ...}].  Every turn the
    program appends carries both keys, so the dictionary is a record and
    the defaults of [turn.get] never fire. *)
Record Turn := mkTurn { role : string; content : string }.

(** The module-level constants.  [API_KEY] is [None] when the environment
    variable is unset. *)
Record Config := mkConfig {
  API_KEY : option string;
  MODEL_NAME : string;
  MAX_CONTEXT_WINDOW : Z;
  HISTORY_TOKEN_BUDGET_RATIO : PyFloat.t;
  LAST_VERBATIM_TURNS : Z;
  PROMPT_OVERHEAD_ESTIMATE : Z
}.

(** ** Exceptions, results and the client interface *)

(** The [Exception] subclasses the client can raise.  [PermissionDenied]
    is a subclass of [GoogleAPIError]; each carries the text [f"{e}"]
    prints. *)
Inductive error :=
| PermissionDenied (msg : string)
| GoogleAPIError (msg : string)
| OtherError (msg : string).

Definition is_GoogleAPIError (e : error) : bool :=
  match e with
  | PermissionDenied _ | GoogleAPIError _ => true
  | OtherError _ => false
  end.

Definition is_PermissionDenied (e : error) : bool :=
  match e with PermissionDenied _ => true | _ => false end.

Definition error_text (e : error) : string :=
  match e with
  | PermissionDenied msg | GoogleAPIError msg | OtherError msg => msg
  end.

(** What a call of the client gives back. *)
Inductive result (A : Type) :=
| Ok (a : A)
| Raises (e : error).
Arguments Ok {A} a.
Arguments Raises {A} e.

(** The handle returned by [genai.GenerativeModel(name)]. *)
Record GenerativeModel := mkModel { model_name : string }.

(** One part of a response; [part_text] is [None] when the part has no
    [text] attribute. *)
Record part := mkPart { part_text : option string }.

(** The fields of a [generate_content] response that the program reads:
    the number of candidates, the parts, and the [text] accessor, which
    can raise. *)
Record response := mkResponse {
  candidates : nat;
  parts : list part;
  text : result string
}.

(** The client library.  [S] is whatever the remote side remembers; every
    call may change it, so two calls with the same argument need not agree. *)
Record GenAI (S : Type) := mkGenAI {
  genai_configure : string -> S -> result unit * S;
  genai_GenerativeModel : string -> S -> result GenerativeModel * S;
  genai_count_tokens : GenerativeModel -> string -> S -> result Z * S;
  genai_generate_content : GenerativeModel -> string -> S -> result response * S
}.
Arguments genai_configure {S} _ _ _.
Arguments genai_GenerativeModel {S} _ _ _.
Arguments genai_count_tokens {S} _ _ _ _.
Arguments genai_generate_content {S} _ _ _ _.

(** What an observer of a run sees, in order: lines printed to the two
    streams and the calls made to the client. *)
Inductive event :=
| Stdout (line : string)
| Stderr (line : string)
| CallConfigure (api_key : string)
| CallGenerativeModel (name : string)
| CallCountTokens (txt : string)
| CallGenerateContent (prompt : string).

(** The state a run threads: the remote side, the global [model_instance]
    and the trace so far. *)
Record world (S : Type) := mkWorld {
  remote : S;
  model_instance : option GenerativeModel;
  trace : list event
}.
Arguments mkWorld {S} _ _ _.
Arguments remote {S} _.
Arguments model_instance {S} _.
Arguments trace {S} _.

(** How a Python call ends: with a value, with an [Exception], or with
    [SystemExit] from [sys.exit]. *)
Inductive outcome (A : Type) :=
| Ret (a : A)
| Raise (e : error)
| SystemExit (code : Z).
Arguments Ret {A} a.
Arguments Raise {A} e.
Arguments SystemExit {A} code.

Definition M (S A : Type) : Type := world S -> outcome A * world S.

Definition ret {S A} (a : A) : M S A := fun w => (Ret a, w).

Definition bind {S A B} (m : M S A) (k : A -> M S B) : M S B :=
  fun w =>
    match m w with
    | (Ret a, w') => k a w'
    | (Raise e, w') => (Raise e, w')
    | (SystemExit c, w') => (SystemExit c, w')
    end.

Notation "x <- c1 ;; c2" := (bind c1 (fun x => c2))
  (at level 100, c1 at next level, right associativity).
Notation "c1 ;;; c2" := (bind c1 (fun _ => c2))
  (at level 100, right associativity).

(** [try: body except Exception as e: handler(e)].  [SystemExit] is not an
    [Exception] and passes through. *)
Definition try_except {S A} (body : M S A) (handler : error -> M S A) : M S A :=
  fun w =>
    match body w with
    | (Raise e, w') => handler e w'
    | r => r
    end.

Definition emit {S} (e : event) : M S unit :=
  fun w => (Ret tt, mkWorld (remote w) (model_instance w) (trace w ++ [e])).

(** [print(line)] and [print(line, file=sys.stderr)] *)
Definition print {S} (line : string) : M S unit := emit (Stdout line).
Definition eprint {S} (line : string) : M S unit := emit (Stderr line).

(** [sys.exit(code)] *)
Definition sys_exit {S A} (code : Z) : M S A := fun w => (SystemExit code, w).

Definition get_model_instance {S} : M S (option GenerativeModel) :=
  fun w => (Ret (model_instance w), w).

Definition set_model_instance {S} (m : GenerativeModel) : M S unit :=
  fun w => (Ret tt, mkWorld (remote w) (Some m) (trace w)).

(** A call of the client: recorded in the trace, run on the remote side,
    its exception raised in the program. *)
Definition call {S A} (e : event) (f : S -> result A * S) : M S A :=
  fun w =>
    let '(r, s') := f (remote w) in
    let w' := mkWorld s' (model_instance w) (trace w ++ [e]) in
    match r with
    | Ok a => (Ret a, w')
    | Raises err => (Raise err, w')
    end.

(** Reading an attribute whose accessor can raise. *)
Definition access {S A} (r : result A) : M S A :=
  fun w => match r with Ok a => (Ret a, w) | Raises e => (Raise e, w) end.

(** ** The program *)

Section Program.

Context {S : Type} (api : GenAI S) (cfg : Config).

(** [count_tokens(text)] *)
Definition count_tokens (text : string) : M S Z :=
  mi <- get_model_instance ;;
  match mi with
  | None =>
      eprint "Error: Model not configured for token counting." ;;; ret 0
  | Some m =>
      if negb (truthy text) then ret 0
      else
        try_except
          (call (CallCountTokens text) (genai_count_tokens api m text))
          (fun e =>
             if is_GoogleAPIError e then
               eprint (nl +:+ "Warning: API error during token counting: "
                          +:+ error_text e +:+ ". Returning 0.") ;;; ret 0
             else
               eprint (nl +:+ "Warning: Unexpected error during token counting: "
                          +:+ error_text e +:+ ". Returning 0.") ;;; ret 0)
  end.

(** [content_lines = content.split('\n'); "\n  ".join(content_lines)] *)
Definition indent (s : string) : string :=
  join (nl +:+ "  ") (split nl_char s).

(** One entry of the recent-turns listing,
    [f"- {role}:\n  {indented_content}"]. *)
Definition format_turn (turn : Turn) : string :=
  "- " +:+ capitalize (role turn) +:+ ":" +:+ nl +:+ "  "
       +:+ indent (strip (content turn)).

(** [format_history_for_prompt(summary, verbatim_turns)] *)
Definition format_history_for_prompt
    (summary : string) (verbatim_turns : list Turn) : string :=
  let history_parts :=
    if truthy summary then
      [ "Summary of Older Conversation Turns:";
        "  " +:+ indent summary;
        nl +:+ "Recent Verbatim Conversation Turns:" ]
    else
      [ "Conversation History (Recent Turns Only):" ] in
  match verbatim_turns with
  | [] =>
      if negb (truthy summary) then
        "No conversation history for this concept yet."
      else
        join nl (history_parts ++ ["  (No recent verbatim turns available)"])
  | _ :: _ =>
      join nl (history_parts ++ map format_turn verbatim_turns)
  end.

(** The words-per-token estimate, [int(target_tokens * 0.7)]. *)
Definition estimated_words (target_tokens : Z) : Z :=
  PyFloat.to_int (PyFloat.mul (PyFloat.of_int target_tokens) PyFloat.lit_0_7).

(** [f"Aim for a concise summary, ideally around {estimated_words} words
    (approx. {target_tokens} tokens)."] *)
Definition length_guidance_for (target_tokens : Z) : string :=
  "Aim for a concise summary, ideally around "
    +:+ of_int (estimated_words target_tokens)
    +:+ " words (approx. " +:+ of_int target_tokens +:+ " tokens).".

(** The text block handed to the summarizer:
    [f"{role.capitalize()}: {content.strip()}"] per turn, one per line. *)
Definition turns_text (turns_to_summarize : list Turn) : string :=
  join nl (map (fun t => capitalize (role t) +:+ ": " +:+ strip (content t))
               turns_to_summarize).

(** The summarization prompt (the triple-quoted f-string). *)
Definition summary_prompt
    (discipline turns_txt length_guidance : string) : string :=
  join nl
    [ "";
      "    Context:";
      "    You are an AI assistant condensing a conversation history for an ongoing tutoring session with a "
        +:+ discipline +:+ " student.";
      "    Create a concise summary of the following turns, retaining essential information: key concepts, student misunderstandings, tutor clarifications, and significant examples.";
      "";
      "    Conversation Turns to Summarize:";
      "    ---";
      "    " +:+ turns_txt;
      "    ---";
      "";
      "    Task:";
      "    Generate a concise summary focusing on:";
      "    - Main economic topics covered.";
      "    - Recurring student misconceptions or difficulties, especially those contrasting with "
        +:+ discipline +:+ " intuition.";
      "    - Key clarifications, insights, or corrections provided by the tutor.";
      "    - Important examples/analogies used.";
      "    - Maintain a neutral, objective tone.";
      "    " +:+ length_guidance;
      "";
      "    Concise Summary:";
      "    " ].

(** The lines [summarize_history] prints before it calls the model. *)
Definition msg_summarizing (turns_to_summarize : list Turn) : string :=
  nl +:+ "Summarizing " +:+ of_int (Z.of_nat (length turns_to_summarize))
     +:+ " older conversation turn(s)...".

Definition msg_attempting (target_tokens : Z) : string :=
  "(Attempting to limit summary to ~" +:+ of_int target_tokens
    +:+ " tokens)".

(** [not response._result.candidates or not response.parts or
    not hasattr(response.parts[0], 'text')] *)
Definition unusable (r : response) : bool :=
  (Nat.eqb (candidates r) 0)
  || match parts r with
     | [] => true
     | p :: _ => match part_text p with None => true | Some _ => false end
     end.

(** The [try] block of [summarize_history] with its handlers: the call
    of the model on [prompt] and the reading of its response. *)
Definition request_summary
    (model : GenerativeModel) (prompt : string) : M S string :=
  try_except
    (response <- call (CallGenerateContent prompt)
                      (genai_generate_content api model prompt) ;;
     if unusable response then
       eprint (nl +:+ "Warning: AI summarization failed. Summary may be incomplete.") ;;;
       ret "[Summarization failed]"
     else
       txt <- access (text response) ;;
       let new_summary := strip txt in
       summary_tokens <- count_tokens new_summary ;;
       print ("Summarization complete (" +:+ of_int summary_tokens
                +:+ " tokens).") ;;;
       ret new_summary)
    (fun e =>
       if is_GoogleAPIError e then
         eprint (nl +:+ "Warning: API error during summarization: "
                    +:+ error_text e +:+ ". Summary may be incomplete.") ;;;
         ret "[Summarization failed due to API error]"
       else
         eprint (nl +:+ "Warning: Unexpected error during summarization: "
                    +:+ error_text e +:+ ". Summary may be incomplete.") ;;;
         ret "[Summarization failed due to unexpected error]").

(** [summarize_history(model, turns_to_summarize, discipline, target_tokens)];
    [target_tokens] is [None] when the argument is left out. *)
Definition summarize_history
    (model : GenerativeModel) (turns_to_summarize : list Turn)
    (discipline : string) (target_tokens : option Z) : M S string :=
  match turns_to_summarize with
  | [] => ret ""
  | _ :: _ =>
      print (msg_summarizing turns_to_summarize) ;;;
      length_guidance <-
        match target_tokens with
        | Some n =>
            if negb (n =? 0) && (0 <? n) then
              print (msg_attempting n) ;;;
              ret (length_guidance_for n)
            else ret ""
        | None => ret ""
        end ;;
      request_summary model
        (summary_prompt discipline (turns_text turns_to_summarize)
                        length_guidance)
  end.

(** [int(MAX_CONTEXT_WINDOW * HISTORY_TOKEN_BUDGET_RATIO)] *)
Definition history_token_budget : Z :=
  PyFloat.to_int
    (PyFloat.mul (PyFloat.of_int (MAX_CONTEXT_WINDOW cfg))
                 (HISTORY_TOKEN_BUDGET_RATIO cfg)).

(** Step 1 of [manage_history_and_get_context]:
    [verbatim_cutoff = max(0, len(chat_history) - LAST_VERBATIM_TURNS)],
    [chat_history[verbatim_cutoff:]] and [chat_history[:verbatim_cutoff]]. *)
Definition verbatim_cutoff (chat_history : list Turn) : Z :=
  Z.max 0 (Z.of_nat (length chat_history) - LAST_VERBATIM_TURNS cfg).

Definition verbatim_of (chat_history : list Turn) : list Turn :=
  drop (Z.to_nat (verbatim_cutoff chat_history)) chat_history.

Definition older_of (chat_history : list Turn) : list Turn :=
  take (Z.to_nat (verbatim_cutoff chat_history)) chat_history.

(** ["\n".join([f"{t['role']}: {t['content']}" for t in verbatim_turns])] *)
Definition verbatim_turns_text (verbatim_turns : list Turn) : string :=
  join nl (map (fun t => role t +:+ ": " +:+ content t) verbatim_turns).

Definition history_discarded : string :=
  "[History discarded due to excessive verbatim length]".

(** The lines step 4 prints. *)
Definition msg_over_budget (total_tokens : Z) : string :=
  nl +:+ "Warning: Combined history (" +:+ of_int total_tokens
     +:+ " tokens) exceeds budget (" +:+ of_int history_token_budget
     +:+ "). Re-summarizing older turns...".

Definition msg_discard (verbatim_tokens : Z) : string :=
  "ERROR: Verbatim turns (" +:+ of_int verbatim_tokens
    +:+ " tokens) alone exceed budget (" +:+ of_int history_token_budget
    +:+ "). Discarding history.".

Definition msg_targeting (allowed_summary_tokens : Z) : string :=
  "Targeting summary size: ~" +:+ of_int allowed_summary_tokens
    +:+ " tokens.".

Definition msg_still_over (total_tokens : Z) : string :=
  "Warning: Re-summarization still resulted in " +:+ of_int total_tokens
    +:+ " tokens (budget " +:+ of_int history_token_budget
    +:+ "). Summary might be truncated by model.".

(** Steps 2 and 3: summarize the older turns, then measure the summary
    and the verbatim text.  Gives [(current_summary, summary_tokens,
    verbatim_tokens)]. *)
Definition measure_history
    (model : GenerativeModel) (older_turns verbatim_turns : list Turn)
    (discipline : string) : M S (string * Z * Z) :=
  current_summary <-
    match older_turns with
    | _ :: _ => summarize_history model older_turns discipline None
    | [] => ret ""
    end ;;
  summary_tokens <- count_tokens current_summary ;;
  verbatim_tokens <- count_tokens (verbatim_turns_text verbatim_turns) ;;
  ret (current_summary, summary_tokens, verbatim_tokens).

(** Step 4: the overflow handling.  Gives the final
    [(current_summary, verbatim_turns)]. *)
Definition enforce_budget
    (model : GenerativeModel) (older_turns verbatim_turns : list Turn)
    (discipline current_summary : string)
    (summary_tokens verbatim_tokens : Z) : M S (string * list Turn) :=
  let total_tokens := summary_tokens + verbatim_tokens in
  if history_token_budget <? total_tokens then
    print (msg_over_budget total_tokens) ;;;
    let allowed_summary_tokens := history_token_budget - verbatim_tokens in
    if allowed_summary_tokens <? 0 then
      eprint (msg_discard verbatim_tokens) ;;;
      ret (history_discarded, [])
    else if (allowed_summary_tokens <? summary_tokens)
            && match older_turns with [] => false | _ :: _ => true end then
      print (msg_targeting allowed_summary_tokens) ;;;
      current_summary <-
        summarize_history model older_turns discipline
                          (Some allowed_summary_tokens) ;;
      summary_tokens <- count_tokens current_summary ;;
      let total_tokens := summary_tokens + verbatim_tokens in
      (if history_token_budget <? total_tokens then
         print (msg_still_over total_tokens)
       else ret tt) ;;;
      ret (current_summary, verbatim_turns)
    else
      match older_turns with
      | [] => ret ("", verbatim_turns)
      | _ :: _ => ret (current_summary, verbatim_turns)
      end
  else ret (current_summary, verbatim_turns).

(** Steps 1 to 4 together: the summary and the verbatim turns that go
    into the context block. *)
Definition fit_history
    (model : GenerativeModel) (chat_history : list Turn)
    (discipline : string) : M S (string * list Turn) :=
  let verbatim_turns := verbatim_of chat_history in
  let older_turns := older_of chat_history in
  m <- measure_history model older_turns verbatim_turns discipline ;;
  let '(current_summary, summary_tokens, verbatim_tokens) := m in
  enforce_budget model older_turns verbatim_turns discipline
                 current_summary summary_tokens verbatim_tokens.

(** [manage_history_and_get_context(model, current_summary, chat_history,
    discipline)].  The incoming [current_summary] is overwritten in step 2
    before it is read. *)
Definition manage_history_and_get_context
    (model : GenerativeModel) (current_summary : string)
    (chat_history : list Turn) (discipline : string)
  : M S (string * string) :=
  r <- fit_history model chat_history discipline ;;
  let '(current_summary, verbatim_turns) := r in
  let history_context_string :=
    format_history_for_prompt current_summary verbatim_turns in
  ret (history_context_string, current_summary).

(** [configure_gemini()] *)
Definition configure_gemini : M S GenerativeModel :=
  match API_KEY cfg with
  | None | Some EmptyString =>
      eprint "Error: GOOGLE_API_KEY not found." ;;; sys_exit 1
  | Some key =>
      try_except
        (call (CallConfigure key) (genai_configure api key) ;;;
         m <- call (CallGenerativeModel (MODEL_NAME cfg))
                   (genai_GenerativeModel api (MODEL_NAME cfg)) ;;
         set_model_instance m ;;;
         print ("Successfully configured Gemini model: " +:+ MODEL_NAME cfg) ;;;
         call (CallCountTokens "test") (genai_count_tokens api m "test") ;;;
         print "Token counting capability verified." ;;;
         ret m)
        (fun e =>
           if is_PermissionDenied e then
             eprint ("Error: Permission denied configuring Gemini API. Check API key/permissions. Details: "
                       +:+ error_text e) ;;; sys_exit 1
           else if is_GoogleAPIError e then
             eprint ("Error configuring Gemini API or loading model: "
                       +:+ error_text e) ;;; sys_exit 1
           else
             eprint ("An unexpected error occurred during Gemini configuration: "
                       +:+ error_text e) ;;; sys_exit 1)
  end.

(** The caller's state for one concept, the locals [chat_history] and
    [current_summary] of [run_tutor]. *)
Record Session := mkSession {
  chat_history : list Turn;
  current_summary : string
}.

End Program.

(** ** The manager over a store of objects *)

(** [manage_history_and_get_context] is handed a reference to the list
    of the session, the list [run_tutor] appends to, and the turns in it
    are dictionaries that other lists share.  Here the function is
    embedded once more, statement by statement, over a store in which
    lists and dictionaries are objects with an address: a slice makes a
    new list of the same dictionaries, [[]] makes a new list, and
    [append] changes a list in place.  The parameter [current_summary],
    the one variable the body assigns to before it reads it, is kept in
    the frame of the call. *)
Declare Scope store_scope.

Module Store.

Definition ref := nat.

Inductive object :=
| PyList (items : list ref)
| PyDict (turn : Turn).

(** The objects by address; a new object takes the next address. *)
Definition memory := list object.

(** The frame of a call of the manager. *)
Record Frame := mkFrame { current_summary : string }.

Section Program.

Context {S : Type} (api : GenAI S) (cfg : Config).

(** A statement: it may read and assign the frame, read, extend and
    change the memory, and do what a computation of [M] does. *)
Definition P (A : Type) : Type :=
  Frame -> memory -> world S -> outcome A * Frame * memory * world S.

Definition ret {A} (a : A) : P A := fun f mem w => (Ret a, f, mem, w).

Definition bind {A B} (c : P A) (k : A -> P B) : P B :=
  fun f mem w =>
    match c f mem w with
    | (Ret a, f', mem', w') => k a f' mem' w'
    | (Raise e, f', mem', w') => (Raise e, f', mem', w')
    | (SystemExit code, f', mem', w') => (SystemExit code, f', mem', w')
    end.

Notation "x <- c1 ;; c2" := (bind c1 (fun x => c2))
  (at level 100, c1 at next level, right associativity) : store_scope.
Notation "c1 ;;; c2" := (bind c1 (fun _ => c2))
  (at level 100, right associativity) : store_scope.

Local Open Scope store_scope.

(** A computation that touches neither the frame nor the memory. *)
Definition lift {A} (c : M S A) : P A :=
  fun f mem w => let '(o, w') := c w in (o, f, mem, w').

Definition raise {A} (e : error) : P A := fun f mem w => (Raise e, f, mem, w).

(** Reading and assigning [current_summary]. *)
Definition get_current_summary : P string :=
  fun f mem w => (Ret (current_summary f), f, mem, w).

Definition set_current_summary (s : string) : P unit :=
  fun _ mem w => (Ret tt, mkFrame s, mem, w).

(** A new object. *)
Definition new (o : object) : P ref :=
  fun f mem w => (Ret (length mem), f, mem ++ [o], w).

(** The object at an address.  In a run of the program a reference
    always leads to an object. *)
Definition load (x : ref) : P object :=
  fun f mem w =>
    match mem !! x with
    | Some o => (Ret o, f, mem, w)
    | None => (Raise (OtherError "no such object"), f, mem, w)
    end.

(** Changing the object at an address. *)
Definition store (x : ref) (o : object) : P unit :=
  fun f mem w => (Ret tt, f, <[x := o]> mem, w).

Definition type_error {A} : P A := raise (OtherError "TypeError").

(** [len(x)]; a turn has its two keys. *)
Definition len (x : ref) : P Z :=
  o <- load x ;;
  match o with
  | PyList items => ret (Z.of_nat (length items))
  | PyDict _ => ret 2
  end.

(** The truth value of [x], as in [if older_turns]. *)
Definition truth (x : ref) : P bool :=
  o <- load x ;;
  match o with
  | PyList items => ret (match items with [] => false | _ :: _ => true end)
  | PyDict _ => ret true
  end.

(** Where a slice bound [i] falls in a list of [n] items. *)
Definition clip (i n : Z) : nat :=
  Z.to_nat (if i <? 0 then Z.max 0 (i + n) else Z.min i n).

(** [x[i:]] and [x[:i]]: a new list, of the same items. *)
Definition slice_from (x : ref) (i : Z) : P ref :=
  o <- load x ;;
  match o with
  | PyList items =>
      new (PyList (drop (clip i (Z.of_nat (length items))) items))
  | PyDict _ => type_error
  end.

Definition slice_to (x : ref) (i : Z) : P ref :=
  o <- load x ;;
  match o with
  | PyList items =>
      new (PyList (take (clip i (Z.of_nat (length items))) items))
  | PyDict _ => type_error
  end.

(** [x.append({"role": ..., "content": ...})], what [run_tutor] does to
    the list between two calls of the manager. *)
Definition append (x : ref) (turn : Turn) : P unit :=
  d <- new (PyDict turn) ;;
  o <- load x ;;
  match o with
  | PyList items => store x (PyList (items ++ [d]))
  | PyDict _ => type_error
  end.

(** The turns a loop over the list reads, [for t in x] with
    [t.get('role', ...)], [t['content']] and the like in its body. *)
Fixpoint read_dicts (items : list ref) : P (list Turn) :=
  match items with
  | [] => ret []
  | i :: rest =>
      o <- load i ;;
      match o with
      | PyDict turn => turns <- read_dicts rest ;; ret (turn :: turns)
      | PyList _ => type_error
      end
  end.

Definition read_turns (x : ref) : P (list Turn) :=
  o <- load x ;;
  match o with
  | PyList items => read_dicts items
  | PyDict _ => type_error
  end.

(** The functions the manager calls with a list: each reads the list
    and does with its turns what the function of the same name does. *)
Definition summarize_history (model : GenerativeModel)
    (turns_to_summarize : ref) (discipline : string)
    (target_tokens : option Z) : P string :=
  turns <- read_turns turns_to_summarize ;;
  lift (summarize_history api model turns discipline target_tokens).

Definition verbatim_turns_text (verbatim_turns : ref) : P string :=
  turns <- read_turns verbatim_turns ;;
  ret (verbatim_turns_text turns).

Definition format_history_for_prompt (summary : string)
    (verbatim_turns : ref) : P string :=
  turns <- read_turns verbatim_turns ;;
  ret (format_history_for_prompt summary turns).

(** The body of [manage_history_and_get_context], from step 1 to the
    [return]. *)
Definition body (model : GenerativeModel) (chat_history : ref)
    (discipline : string) : P (string * string) :=
  let history_token_budget := history_token_budget cfg in
  (* 1 *)
  n <- len chat_history ;;
  let verbatim_cutoff := Z.max 0 (n - LAST_VERBATIM_TURNS cfg) in
  verbatim_turns <- slice_from chat_history verbatim_cutoff ;;
  older_turns <- slice_to chat_history verbatim_cutoff ;;
  (* 2 *)
  some_older <- truth older_turns ;;
  (if some_older : bool then
     s <- summarize_history model older_turns discipline None ;;
     set_current_summary s
   else set_current_summary "") ;;;
  (* 3 *)
  s <- get_current_summary ;;
  summary_tokens <- lift (count_tokens api s) ;;
  text <- verbatim_turns_text verbatim_turns ;;
  verbatim_tokens <- lift (count_tokens api text) ;;
  let total_tokens := summary_tokens + verbatim_tokens in
  (* 4 *)
  verbatim_turns <-
    (if history_token_budget <? total_tokens then
       lift (print (msg_over_budget cfg total_tokens)) ;;;
       let allowed_summary_tokens := history_token_budget - verbatim_tokens in
       if allowed_summary_tokens <? 0 then
         lift (eprint (msg_discard cfg verbatim_tokens)) ;;;
         set_current_summary history_discarded ;;;
         new (PyList [])
       else
         too_long <- (if allowed_summary_tokens <? summary_tokens
                      then truth older_turns else ret false) ;;
         if too_long : bool then
           lift (print (msg_targeting allowed_summary_tokens)) ;;;
           s <- summarize_history model older_turns discipline
                                  (Some allowed_summary_tokens) ;;
           set_current_summary s ;;;
           s <- get_current_summary ;;
           summary_tokens <- lift (count_tokens api s) ;;
           let total_tokens := summary_tokens + verbatim_tokens in
           (if history_token_budget <? total_tokens then
              lift (print (msg_still_over cfg total_tokens))
            else ret tt) ;;;
           ret verbatim_turns
         else
           some_older <- truth older_turns ;;
           (if negb some_older then set_current_summary "" else ret tt) ;;;
           ret verbatim_turns
     else ret verbatim_turns) ;;
  (* 5 *)
  s <- get_current_summary ;;
  history_context_string <- format_history_for_prompt s verbatim_turns ;;
  s <- get_current_summary ;;
  ret (history_context_string, s).

(** [manage_history_and_get_context(model, current_summary, chat_history,
    discipline)]: the body runs in a frame that holds the argument, and
    the frame is gone when the call ends. *)
Definition manage_history_and_get_context
    (model : GenerativeModel) (current_summary : string)
    (chat_history : ref) (discipline : string)
    (mem : memory) (w : world S)
  : outcome (string * string) * memory * world S :=
  let '(o, _, mem', w') :=
    body model chat_history discipline (mkFrame current_summary) mem w in
  (o, mem', w').

End Program.

End Store.

(** ** The rest of the program: question bank, console, tutor calls *)

(** The double-quote character, for the texts that carry it. *)
Definition dquote : string := String (ascii_of_nat 34) EmptyString.

(** ["=" * 60] and ["-" * 60] *)
Definition rule (c : ascii) : string :=
  string_of_list_ascii (repeat c 60).

(** What [json.load] builds.  An object keeps its fields in insertion
    order; the keys of an object that comes out of the parser are
    distinct. *)
Unset Elimination Schemes.
Inductive json :=
| JNull
| JBool (b : bool)
| JInt (n : Z)
| JFloat (x : PyFloat.t)
| JString (s : string)
| JArray (items : list json)
| JObject (fields : list (string * json)).
Set Elimination Schemes.

(** [d.get(key)] on the fields of a dictionary. *)
Fixpoint dict_lookup (key : string) (fields : list (string * json))
  : option json :=
  match fields with
  | [] => None
  | (k, v) :: rest => if String.eqb k key then Some v else dict_lookup key rest
  end.

(** Truth value of a parsed value. *)
Definition json_truthy (v : json) : bool :=
  match v with
  | JNull => false
  | JBool b => b
  | JInt n => negb (n =? 0)
  | JFloat x => negb (PyFloat.mant x =? 0)
  | JString s => truthy s
  | JArray items => match items with [] => false | _ :: _ => true end
  | JObject fields => match fields with [] => false | _ :: _ => true end
  end.

(** The exceptions the interpreter raises on a value of the wrong shape:
    [x in v] or [for x in v] on a value that is not iterable, [v[key]] on
    a value that cannot be indexed by a string, [v[key]] on a dictionary
    without the key, [v.get] on a value that is not a dictionary, [len(v)]
    on a value without length. *)
Inductive runtime_error :=
| NotIterable (v : json)
| BadIndex (v : json)
| KeyError (key : string)
| NoGet (v : json)
| NoLen (v : json).

(** What the embedding leaves to the interpreter and to the client
    library: the wording of a runtime error, [str(v)] for a value inside
    an f-string, the text of
    [response.prompt_feedback.block_reason], [None] when the response has
    no prompt feedback, and [sys.get_int_max_str_digits()], the longest
    text [int] converts, 0 when the interpreter sets no limit (4300
    unless it was started otherwise). *)
Record Runtime := mkRuntime {
  error_wording : runtime_error -> string;
  str_of : json -> string;
  block_reason : response -> option string;
  int_max_str_digits : nat
}.

(** What opening and parsing the bank file gives: [FileNotFoundError],
    [json.JSONDecodeError], another exception, or the parsed value. *)
Inductive file_read :=
| FileNotFound
| DecodeError
| ReadFailed (msg : string)
| Parsed (data : json).

(** [s.isdigit()]: the ASCII digits and the superscripts one, two and
    three. *)
Definition is_digit_char (c : ascii) : bool :=
  let n := nat_of_ascii c in
  ((48 <=? n) && (n <=? 57) || (n =? 178) || (n =? 179) || (n =? 185))%nat.

Fixpoint all_chars (p : ascii -> bool) (s : string) : bool :=
  match s with
  | EmptyString => true
  | String c s' => p c && all_chars p s'
  end.

Definition isdigit (s : string) : bool := truthy s && all_chars is_digit_char s.

(** The value in base ten of a text of ASCII digits, [None] when a
    character is not one. *)
Fixpoint int_of_digits (acc : Z) (s : string) : option Z :=
  match s with
  | EmptyString => Some acc
  | String c s' =>
      let n := nat_of_ascii c in
      if ((48 <=? n) && (n <=? 57))%nat
      then int_of_digits (10 * acc + Z.of_nat (n - 48)) s'
      else None
  end.

(** [int(s)] for a text that passed [isdigit], in an interpreter whose
    limit is [max_str_digits]: [None] ([ValueError]) when a character is
    not an ASCII digit, and when there is a limit and the text has more
    digits than it, leading zeros counted. *)
Definition int_of_string (max_str_digits : nat) (s : string) : option Z :=
  match s with
  | EmptyString => None
  | _ =>
      if ((0 <? max_str_digits) && (max_str_digits <? String.length s))%nat
      then None
      else int_of_digits 0 s
  end.

(** The words of a text, cut at runs of white space. *)
Fixpoint words_go (cur : string) (s : string) : list string :=
  match s with
  | EmptyString =>
      match cur with EmptyString => [] | _ => [String.rev cur] end
  | String c s' =>
      if is_space c then
        match cur with
        | EmptyString => words_go EmptyString s'
        | _ => String.rev cur :: words_go EmptyString s'
        end
      else words_go (String c cur) s'
  end.

Definition words (s : string) : list string := words_go EmptyString s.

(** [i_dont_know_pattern.match(lower_input)], for the pattern
    [^\s*(i\s+don'?t\s+know|no\s+idea|not\s+sure|confused|clueless|stuck|help|guide\s+me)\s*$]:
    the text is one of the phrases, its words set apart by any white
    space. *)
Definition i_dont_know (lower_input : string) : bool :=
  bool_decide (words lower_input ∈
    [ ["i"; "don't"; "know"]; ["i"; "dont"; "know"];
      ["no"; "idea"]; ["not"; "sure"];
      ["confused"]; ["clueless"]; ["stuck"]; ["help"];
      ["guide"; "me"] ]).

Section Tutor.

Context {S : Type} (api : GenAI S) (cfg : Config) (rt : Runtime).

(** A value inside an f-string. *)
Definition fstr (v : json) : string :=
  match v with
  | JString s => s
  | other => str_of rt other
  end.

(** [needle in data] *)
Definition py_in (needle : string) (data : json) : result bool :=
  match data with
  | JObject fields =>
      Ok (match dict_lookup needle fields with Some _ => true | None => false end)
  | JArray items =>
      Ok (existsb (fun v => match v with
                            | JString s => String.eqb s needle
                            | _ => false
                            end) items)
  | JString s => Ok (contains needle s)
  | other => Raises (OtherError (error_wording rt (NotIterable other)))
  end.

(** [data[key]] for a text key *)
Definition py_index (data : json) (key : string) : result json :=
  match data with
  | JObject fields =>
      match dict_lookup key fields with
      | Some v => Ok v
      | None => Raises (OtherError (error_wording rt (KeyError key)))
      end
  | other => Raises (OtherError (error_wording rt (BadIndex other)))
  end.

(** [v.get(key, default)] *)
Definition py_get (v : json) (key : string) (default : json) : result json :=
  match v with
  | JObject fields =>
      Ok (match dict_lookup key fields with Some x => x | None => default end)
  | other => Raises (OtherError (error_wording rt (NoGet other)))
  end.

(** [len(v)] *)
Definition py_len (v : json) : result Z :=
  match v with
  | JArray items => Ok (Z.of_nat (length items))
  | JString s => Ok (Z.of_nat (String.length s))
  | JObject fields => Ok (Z.of_nat (length fields))
  | other => Raises (OtherError (error_wording rt (NoLen other)))
  end.

(** The items [for x in v] goes through: the items of a list, the
    characters of a text, the keys of a dictionary. *)
Definition py_iter (v : json) : result (list json) :=
  match v with
  | JArray items => Ok items
  | JString s =>
      Ok (map (fun c => JString (String c EmptyString)) (list_ascii_of_string s))
  | JObject fields => Ok (map (fun kv => JString (fst kv)) fields)
  | other => Raises (OtherError (error_wording rt (NotIterable other)))
  end.

(** [print(line, file=sys.stderr); sys.exit(1)] *)
Definition fail_with {A} (line : string) : M S A := eprint line ;;; sys_exit 1.

(** The place of a concept in an error line, [f"{i+1} (index {i})"]. *)
Definition place (i : Z) : string :=
  of_int (i + 1) +:+ " (index " +:+ of_int i +:+ ")".

(** [for key in required_keys: if key not in concept: ...] *)
Fixpoint check_required_keys (i : Z) (concept : json) (keys : list string)
  : M S unit :=
  match keys with
  | [] => ret tt
  | key :: rest =>
      present <- access (py_in key concept) ;;
      if negb present then
        fail_with ("Error: Concept " +:+ place i
                     +:+ " is missing required key '" +:+ key +:+ "'.")
      else check_required_keys i concept rest
  end.

(** [for j, question in enumerate(concept["socratic_questions"]): ...] *)
Fixpoint check_questions (name : json) (i j : Z) (questions : list json)
  : M S unit :=
  match questions with
  | [] => ret tt
  | question :: rest =>
      if match question with
         | JString q => truthy (strip q)
         | _ => false
         end
      then check_questions name i (j + 1) rest
      else
        fail_with ("Error: Question " +:+ place j +:+ " in Concept '"
                     +:+ fstr name +:+ "' (index " +:+ of_int i
                     +:+ ")'s 'socratic_questions' is invalid or empty.")
  end.

(** [isinstance(v, str) and v.strip()], the test on the two names. *)
Definition filled_text (v : json) : bool :=
  match v with
  | JString s => truthy (strip s)
  | _ => false
  end.

(** The body of [for i, concept in enumerate(concepts)]. *)
Definition check_concept (i : Z) (concept : json) : M S unit :=
  match concept with
  | JObject _ =>
      check_required_keys i concept
        ["concept_name"; "stem_misperception"; "socratic_questions"] ;;;
      name <- access (py_index concept "concept_name") ;;
      if negb (filled_text name) then
        fail_with ("Error: Concept " +:+ place i
                     +:+ " has an invalid or empty 'concept_name'.")
      else
      misperception <- access (py_index concept "stem_misperception") ;;
      if negb (filled_text misperception) then
        fail_with ("Error: Concept " +:+ place i
                     +:+ " has an invalid or empty 'stem_misperception'.")
      else
      questions <- access (py_index concept "socratic_questions") ;;
      match questions with
      | JArray qs =>
          match qs with
          | [] =>
              eprint ("Warning: Concept '" +:+ fstr name +:+ "' (index "
                        +:+ of_int i
                        +:+ ") has an empty 'socratic_questions' list. It will be skipped.")
          | _ :: _ => ret tt
          end ;;;
          check_questions name i 0 qs
      | _ =>
          fail_with ("Error: Concept " +:+ place i
                       +:+ "'s 'socratic_questions' is not a list.")
      end
  | _ =>
      fail_with ("Error: Item " +:+ of_int (i + 1)
                   +:+ " in 'concepts' list is not a dictionary.")
  end.

Fixpoint check_concepts (i : Z) (concepts : list json) : M S unit :=
  match concepts with
  | [] => ret tt
  | concept :: rest =>
      check_concept i concept ;;; check_concepts (i + 1) rest
  end.

(** The [try] block of [load_qa_bank] after the file is parsed. *)
Definition validate_bank (filename : string) (data : json)
  : M S (list json) :=
  present <- access (py_in "concepts" data) ;;
  if negb present then
    fail_with ("Error: JSON file '" +:+ filename
                 +:+ "' must contain a top-level key 'concepts' which is a list.")
  else
  found <- access (py_index data "concepts") ;;
  match found with
  | JArray concepts =>
      match concepts with
      | [] =>
          fail_with ("Error: 'concepts' list in '" +:+ filename
                       +:+ "' is empty.")
      | _ :: _ =>
          check_concepts 0 concepts ;;;
          print ("Successfully loaded "
                   +:+ of_int (Z.of_nat (length concepts))
                   +:+ " concepts from '" +:+ filename +:+ "'.") ;;;
          ret concepts
      end
  | _ =>
      fail_with ("Error: JSON file '" +:+ filename
                   +:+ "' must contain a top-level key 'concepts' which is a list.")
  end.

(** [load_qa_bank(filename)]; [file] is what opening and parsing the
    file gives. *)
Definition load_qa_bank (filename : string) (file : file_read)
  : M S (list json) :=
  match file with
  | FileNotFound =>
      fail_with ("Error: QA Bank file '" +:+ filename +:+ "' not found.")
  | DecodeError =>
      fail_with ("Error: Could not decode JSON from file '" +:+ filename
                   +:+ "'. Check its format.")
  | ReadFailed msg =>
      fail_with ("An unexpected error occurred while loading '" +:+ filename
                   +:+ "': " +:+ msg)
  | Parsed data =>
      try_except (validate_bank filename data)
        (fun e =>
           fail_with ("An unexpected error occurred while loading '"
                        +:+ filename +:+ "': " +:+ error_text e))
  end.

(** The console.  The lines the user will type are a list; [input(prompt)]
    writes the prompt, then takes the first line, and raises [EOFError]
    when none is left.  The loops below read with a [match] on that list,
    after printing the prompt. *)
Definition disciplines : list string :=
  ["Mathematics"; "Engineering"; "Physics"; "Other STEM"].

Definition discipline_prompt : string :=
  "Discipline (" +:+ join "/" disciplines +:+ " number, or 'quit'): ".

(** [for i, discipline in enumerate(disciplines): print(f"{i + 1}. {discipline}")] *)
Fixpoint print_numbered (i : Z) (items : list string) : M S unit :=
  match items with
  | [] => ret tt
  | item :: rest =>
      print (of_int (i + 1) +:+ ". " +:+ item) ;;; print_numbered (i + 1) rest
  end.

(** The [while True] loop of [get_student_discipline]; gives the
    discipline and the lines not yet read. *)
Fixpoint choose_discipline (stdin : list string) : M S (string * list string) :=
  print discipline_prompt ;;;
  match stdin with
  | [] => print (nl +:+ "Exiting tutor session. Goodbye!") ;;; sys_exit 0
  | line :: rest =>
      let choice := lower (strip line) in
      if String.eqb choice "quit" then
        print "Exiting tutor session. Goodbye!" ;;; sys_exit 0
      else if negb (isdigit choice) then
        print "Invalid input." ;;; choose_discipline rest
      else
        match int_of_string (int_max_str_digits rt) choice with
        | None => print "Invalid input." ;;; choose_discipline rest
        | Some n =>
            let idx := n - 1 in
            if (0 <=? idx) && (idx <? Z.of_nat (length disciplines)) then
              let chosen := nth (Z.to_nat idx) disciplines EmptyString in
              print ("Selected: " +:+ chosen) ;;; ret (chosen, rest)
            else
              print ("Invalid number (1-"
                       +:+ of_int (Z.of_nat (length disciplines)) +:+ ").") ;;;
              choose_discipline rest
        end
  end.

(** [get_student_discipline()] *)
Definition get_student_discipline (stdin : list string)
  : M S (string * list string) :=
  print (nl +:+ "Select your primary STEM discipline:") ;;;
  print_numbered 0 disciplines ;;;
  choose_discipline stdin.

(** The guidance inserted in the three prompts: the same text in every
    branch. *)
Definition discipline_guidance (discipline : string) : string :=
  if String.eqb discipline "Mathematics" then "..."
  else if String.eqb discipline "Engineering" then "..."
  else if String.eqb discipline "Physics" then "..."
  else "...".

(** The line of the three prompts that names the concept; reading the
    concept raises when it is not a dictionary. *)
Definition concept_line (concept : json) : M S string :=
  name <- access (py_get concept "concept_name" (JString "N/A")) ;;
  misperception <-
    access (py_get concept "stem_misperception" (JString "N/A")) ;;
  ret ("    Concept: " +:+ dquote +:+ fstr name +:+ dquote
         +:+ " (Potential STEM Misconception: " +:+ dquote
         +:+ fstr misperception +:+ dquote +:+ ")").

(** The [try] block the three tutor calls share, with its handlers.
    [kind] and [activity] are the words that differ ("Feedback" and
    "feedback", ...), [advice] the end of the line for a blocked prompt. *)
Definition consult (model : GenerativeModel) (prompt : string)
    (kind activity advice : string) : M S string :=
  try_except
    (response <- call (CallGenerateContent prompt)
                      (genai_generate_content api model prompt) ;;
     if Nat.eqb (candidates response) 0 then
       let reason :=
         match block_reason rt response with
         | Some r => r
         | None => "Unknown"
         end in
       ret ("[AI " +:+ kind +:+ " Blocked: " +:+ reason +:+ "] " +:+ advice)
     else if match parts response with
             | [] => true
             | p :: _ => match part_text p with None => true | Some _ => false end
             end then
       ret ("[AI " +:+ kind +:+ " Unavailable: No text content]")
     else
       txt <- access (text response) ;;
       ret (strip txt))
    (fun e =>
       if is_GoogleAPIError e then
         eprint (nl +:+ "Error during " +:+ activity +:+ ": " +:+ error_text e) ;;;
         ret ("[AI " +:+ kind +:+ " Error: API error.]")
       else
         eprint (nl +:+ "Unexpected error during " +:+ activity +:+ ": "
                    +:+ error_text e) ;;;
         ret ("[AI " +:+ kind +:+ " Error: Unexpected issue.]")).

(** The prompt of [get_ai_feedback]. *)
Definition feedback_prompt (concept_text : string)
    (question user_answer discipline history_context_string : string) : string :=
  join nl
    [ "";
      "    Context:";
      "    You are an AI Economics Tutor interacting with a " +:+ discipline
        +:+ " student. Use the conversation history for context.";
      "";
      "    " +:+ history_context_string;
      "";
      concept_text;
      "";
      "    Task:";
      "    Analyze the student's response below. Provide encouraging feedback (2-6 sentences) tailored to "
        +:+ discipline +:+ ".";
      "    1. CRITICAL: Analyze ALL parts of the student's answer methodically. Address every substantive point.";
      "    2. Validate ONLY explicitly correct points using their wording. If none, just acknowledge.";
      "    3. Gently identify gaps/misunderstandings, contrasting with "
        +:+ discipline +:+ " intuition if applicable.";
      "    4. Provide at least one CONCRETE example with numbers/quantities.";
      "    5. Draw explicit connections/contrasts to " +:+ discipline
        +:+ " concepts/terminology.";
      "    6. Include a relevant mathematical/visual representation (equation for Math students).";
      "    7. IMPORTANT: Use diverse economic principles, avoid overusing "
        +:+ dquote +:+ "subjective value" +:+ dquote
        +:+ ". Emphasize different principles per question.";
      "    " +:+ discipline_guidance discipline;
      "";
      "    Constraint: Do NOT ask follow-up questions. Focus on feedback for the given answer. Do NOT infer understanding.";
      "";
      "    Socratic Question Asked: " +:+ dquote +:+ question +:+ dquote;
      "    Student's Answer: " +:+ dquote +:+ user_answer +:+ dquote;
      "";
      "    Your Feedback (as Economics Tutor, tailored for " +:+ discipline
        +:+ " student):";
      "    " ].

(** [get_ai_feedback(model, concept, question, user_answer, discipline,
    history_context_string)] *)
Definition get_ai_feedback (model : GenerativeModel) (concept : json)
    (question user_answer discipline history_context_string : string)
  : M S string :=
  concept_text <- concept_line concept ;;
  consult model
    (feedback_prompt concept_text question user_answer discipline
                     history_context_string)
    "Feedback" "feedback" "Please rephrase.".

(** The prompt of [get_ai_hint]. *)
Definition hint_prompt (concept_text : string)
    (question discipline history_context_string : string) : string :=
  join nl
    [ "";
      "    Context:";
      "    AI Economics Tutor providing a hint to a " +:+ discipline
        +:+ " student stuck on a question (no answer given yet). Use conversation history.";
      "";
      "    " +:+ history_context_string;
      "";
      concept_text;
      "";
      "    Task:";
      "    Provide a brief (2-4 sentences) hint for the question below.";
      "    - CRITICAL: Start with neutral openers (" +:+ dquote
        +:+ "Consider..." +:+ dquote +:+ ", " +:+ dquote +:+ "Think about..."
        +:+ dquote +:+ "), NEVER validating language.";
      "    - Nudge towards the correct economic perspective.";
      "    - Suggest a related concept/framework from " +:+ discipline
        +:+ " and contrast it with economics.";
      "    - Provide a CONCRETE EXAMPLE with specific numbers/values.";
      "    - Avoid the direct answer. Be encouraging without false validation.";
      "    " +:+ discipline_guidance discipline;
      "";
      "    Socratic Question: " +:+ dquote +:+ question +:+ dquote;
      "";
      "    Your Hint (as Economics Tutor, tailored for " +:+ discipline
        +:+ " student):";
      "    " ].

(** [get_ai_hint(model, concept, question, discipline,
    history_context_string)] *)
Definition get_ai_hint (model : GenerativeModel) (concept : json)
    (question discipline history_context_string : string) : M S string :=
  concept_text <- concept_line concept ;;
  consult model
    (hint_prompt concept_text question discipline history_context_string)
    "Hint" "hint" "Could not generate hint.".

(** The prompt of [get_ai_scaffolded_explanation]. *)
Definition explanation_prompt (concept_text : string)
    (question discipline history_context_string : string) : string :=
  join nl
    [ "";
      "    Context:";
      "    AI Economics Tutor helping a stuck/confused " +:+ discipline
        +:+ " student. Use conversation history.";
      "";
      "    " +:+ history_context_string;
      "";
      concept_text;
      "";
      "    Task:";
      "    Provide a scaffolded explanation (5-8 sentences) for the question below.";
      "    1. Acknowledge difficulty encouragingly.";
      "    2. Use THREE TIERS: Basic definition (" +:+ discipline
        +:+ " terms), CONCRETE example (numbers), Connect to the question.";
      "    3. Draw parallel to " +:+ discipline
        +:+ " concept (similarity & difference, using " +:+ discipline
        +:+ " terms).";
      "    4. Suggest a first step leveraging their background.";
      "    5. Avoid the direct answer. Use diverse economic principles.";
      "    " +:+ discipline_guidance discipline;
      "";
      "    Socratic Question stuck on: " +:+ dquote +:+ question +:+ dquote;
      "";
      "    Your Scaffolded Explanation (as Economics Tutor, tailored for "
        +:+ discipline +:+ " student):";
      "    " ].

(** [get_ai_scaffolded_explanation(model, concept, question, discipline,
    history_context_string)] *)
Definition get_ai_scaffolded_explanation (model : GenerativeModel)
    (concept : json) (question discipline history_context_string : string)
  : M S string :=
  concept_text <- concept_line concept ;;
  consult model
    (explanation_prompt concept_text question discipline
                        history_context_string)
    "Explanation" "explanation" "Could not generate explanation.".

(** ** The session loops of [run_tutor] *)

Definition answer_prompt : string :=
  "Your Answer ('hint', 'menu', 'quit', or answer): ".

(** The inner [while True] loop on one question.  Gives whether the user
    asked for the menu, the session and the lines not yet read. *)
Fixpoint answer_loop (model : GenerativeModel) (selected_concept : json)
    (question_text : json) (discipline : string)
    (ss : Session) (stdin : list string)
  : M S (bool * Session * list string) :=
  r <- manage_history_and_get_context api cfg model (current_summary ss)
                                      (chat_history ss) discipline ;;
  let '(history_context_string, summary) := r in
  print answer_prompt ;;;
  match stdin with
  | [] => print (nl +:+ "Exiting. Goodbye!") ;;; sys_exit 0
  | line :: rest =>
      let user_input := strip line in
      let lower_input := lower user_input in
      if String.eqb lower_input "quit" then
        print (nl +:+ "Exiting. Goodbye!") ;;; sys_exit 0
      else if String.eqb lower_input "menu" then
        print (nl +:+ "Returning to menu...") ;;;
        ret (true, mkSession (chat_history ss) summary, rest)
      else if String.eqb lower_input "hint" then
        print "Generating hint..." ;;;
        hint <- get_ai_hint model selected_concept (fstr question_text)
                            discipline history_context_string ;;
        print (nl +:+ "AI Tutor Hint:" +:+ nl +:+ hint +:+ nl) ;;;
        answer_loop model selected_concept question_text discipline
          (mkSession (chat_history ss
                        ++ [mkTurn "user" "(Requested a hint)";
                            mkTurn "assistant" hint])
                     summary)
          rest
      else if i_dont_know lower_input then
        print "Okay, let's break that down..." ;;;
        explanation <-
          get_ai_scaffolded_explanation model selected_concept
            (fstr question_text) discipline history_context_string ;;
        print (nl +:+ "AI Tutor Explanation:" +:+ nl +:+ explanation +:+ nl) ;;;
        answer_loop model selected_concept question_text discipline
          (mkSession (chat_history ss
                        ++ [mkTurn "user" user_input;
                            mkTurn "assistant" explanation])
                     summary)
          rest
      else if negb (truthy user_input) then
        print "Please enter an answer or use a command." ;;;
        answer_loop model selected_concept question_text discipline
          (mkSession (chat_history ss) summary) rest
      else
        let user_answer := user_input in
        let history := chat_history ss ++ [mkTurn "user" user_answer] in
        r2 <- manage_history_and_get_context api cfg model summary history
                                             discipline ;;
        let '(history_context_string2, summary2) := r2 in
        print "Analyzing answer..." ;;;
        feedback <- get_ai_feedback model selected_concept (fstr question_text)
                                    user_answer discipline
                                    history_context_string2 ;;
        print (nl +:+ "AI Tutor Feedback:" +:+ nl +:+ feedback +:+ nl) ;;;
        print (rule "-") ;;;
        ret (false,
             mkSession (history ++ [mkTurn "assistant" feedback]) summary2,
             rest)
  end.

(** [for j, question_text in enumerate(questions)], left early when the
    user asks for the menu. *)
Fixpoint question_loop (model : GenerativeModel) (selected_concept : json)
    (discipline : string) (total_questions j : Z) (questions : list json)
    (ss : Session) (stdin : list string)
  : M S (bool * Session * list string) :=
  match questions with
  | [] => ret (false, ss, stdin)
  | question_text :: later =>
      print (nl +:+ "-- Question " +:+ of_int (j + 1) +:+ "/"
                +:+ of_int total_questions +:+ " --") ;;;
      print ("Q: " +:+ fstr question_text) ;;;
      r <- answer_loop model selected_concept question_text discipline
                       ss stdin ;;
      let '(return_to_menu, ss', stdin') := r in
      if return_to_menu : bool then ret (true, ss', stdin')
      else question_loop model selected_concept discipline total_questions
                         (j + 1) later ss' stdin'
  end.

(** The session for the selected concept: a new, empty history, the
    questions in order, the closing banner unless the user left for the
    menu.  Gives the session at its end and the lines not yet read. *)
Definition concept_session (model : GenerativeModel) (discipline : string)
    (selected_concept : json) (stdin : list string)
  : M S (Session * list string) :=
  let ss := mkSession [] "" in
  print (nl +:+ rule "=") ;;;
  name <- access (py_get selected_concept "concept_name" (JString "N/A")) ;;
  print ("Concept: " +:+ fstr name) ;;;
  misperception <-
    access (py_get selected_concept "stem_misperception" (JString "N/A")) ;;
  print ("STEM Misconception Focus: " +:+ fstr misperception) ;;;
  print (rule "=" +:+ nl) ;;;
  questions <- access (py_get selected_concept "socratic_questions" (JArray [])) ;;
  total_questions <- access (py_len questions) ;;
  items <- access (py_iter questions) ;;
  r <- question_loop model selected_concept discipline total_questions 0
                     items ss stdin ;;
  let '(return_to_menu, ss', stdin') := r in
  (if return_to_menu : bool then ret tt
   else
     name' <- access (py_get selected_concept "concept_name" (JString "N/A")) ;;
     print (nl +:+ rule "=" +:+ nl +:+ "Completed Concept: " +:+ fstr name'
               +:+ nl +:+ rule "=" +:+ nl)) ;;;
  ret (ss', stdin').

(** [[c for c in concepts if c.get("socratic_questions") and
    c.get("concept_name")]] *)
Fixpoint valid_concepts_of (concepts : list json) : M S (list json) :=
  match concepts with
  | [] => ret []
  | c :: rest =>
      questions <- access (py_get c "socratic_questions" JNull) ;;
      keep <- (if json_truthy questions then
                 name <- access (py_get c "concept_name" JNull) ;;
                 ret (json_truthy name)
               else ret false) ;;
      kept <- valid_concepts_of rest ;;
      ret (if keep : bool then c :: kept else kept)
  end.

(** [for i, concept in enumerate(valid_concepts): print(...)] *)
Fixpoint print_concepts (i : Z) (valid_concepts : list json) : M S unit :=
  match valid_concepts with
  | [] => ret tt
  | concept :: rest =>
      name <- access (py_get concept "concept_name"
                        (JString ("Concept " +:+ of_int (i + 1)))) ;;
      print (of_int (i + 1) +:+ ". " +:+ fstr name) ;;;
      print_concepts (i + 1) rest
  end.

(** The input loop for the choice of a concept; gives the concept and
    the lines not yet read. *)
Fixpoint choose_concept (valid_concepts : list json) (stdin : list string)
  : M S (json * list string) :=
  print "Choice: " ;;;
  match stdin with
  | [] => print (nl +:+ "Exiting. Goodbye!") ;;; sys_exit 0
  | line :: rest =>
      let choice := lower (strip line) in
      if String.eqb choice "quit" then
        print "Exiting. Goodbye!" ;;; sys_exit 0
      else if negb (isdigit choice) then
        print "Invalid input." ;;; choose_concept valid_concepts rest
      else
        match int_of_string (int_max_str_digits rt) choice with
        | None => print "Invalid input." ;;; choose_concept valid_concepts rest
        | Some n =>
            let idx := n - 1 in
            if (0 <=? idx) && (idx <? Z.of_nat (length valid_concepts)) then
              ret (nth (Z.to_nat idx) valid_concepts JNull, rest)
            else
              print ("Invalid number (1-"
                       +:+ of_int (Z.of_nat (length valid_concepts)) +:+ ").") ;;;
              choose_concept valid_concepts rest
        end
  end.

(** What the menu loop gives when it is cut short: the loop itself never
    returns. *)
Inductive cut_short := CutShort.

(** The outer [while True] loop, run for at most [rounds] rounds. *)
Fixpoint menu_loop (rounds : nat) (model : GenerativeModel)
    (discipline : string) (concepts : list json) (stdin : list string)
  : M S cut_short :=
  match rounds with
  | O => ret CutShort
  | Datatypes.S rounds' =>
      print (nl +:+ rule "=" +:+ nl +:+ "Choose a concept:") ;;;
      valid_concepts <- valid_concepts_of concepts ;;
      match valid_concepts with
      | [] => print "No concepts available. Exiting." ;;; sys_exit 0
      | _ :: _ =>
          print_concepts 0 valid_concepts ;;;
          print (nl +:+ "Type number or 'quit'.") ;;;
          c <- choose_concept valid_concepts stdin ;;
          let '(selected_concept, stdin1) := c in
          r <- concept_session model discipline selected_concept stdin1 ;;
          let '(_, stdin2) := r in
          menu_loop rounds' model discipline concepts stdin2
      end
  end.

Definition QA_BANK_FILE : string := "qa_bank.json".

(** [run_tutor()], with the menu loop run for at most [rounds] rounds;
    [file] is what reading the bank gives and [stdin] what the user
    types. *)
Definition run_tutor (rounds : nat) (file : file_read) (stdin : list string)
  : M S cut_short :=
  concepts <- load_qa_bank QA_BANK_FILE file ;;
  model <- configure_gemini api cfg ;;
  d <- get_student_discipline stdin ;;
  let '(discipline, stdin1) := d in
  print (nl +:+ "--- Socratic Economics Tutor for STEM ---") ;;;
  print ("Discipline: " +:+ discipline +:+ ". History Strategy: Last "
           +:+ of_int (LAST_VERBATIM_TURNS cfg)
           +:+ " verbatim, older summarized.") ;;;
  print ("Managing history within ~" +:+ of_int (history_token_budget cfg)
           +:+ " token budget.") ;;;
  print "'quit', 'menu', 'hint'" ;;;
  print ("-----------------------------------------" +:+ nl) ;;;
  menu_loop rounds model discipline concepts stdin1.

End Tutor.

(** ** Configurations and scripted clients for running the program *)

(** The constants as the source sets them, with a key in the environment. *)
Definition default_config : Config :=
  mkConfig (Some "key") "gemini-1.5-flash-latest" 32000 PyFloat.lit_0_80 10 500.

(** A configuration whose history budget, [int(400 * 0.80) = 320], is
    below the reserved overhead of 500. *)
Definition tight_config : Config :=
  mkConfig (Some "key") "gemini-1.5-flash-latest" 400 PyFloat.lit_0_80 10 500.

(** A response carrying [s] as its text. *)
Definition reply (s : string) : result response :=
  Ok (mkResponse 1 [mkPart (Some s)] (Ok s)).

(** A client whose token counter is the function [count] and whose
    [generate_content] plays back a list of prepared answers. *)
Definition scripted (count : string -> result Z)
  : GenAI (list (result response)) :=
  mkGenAI (list (result response))
    (fun _ s => (Ok tt, s))
    (fun name s => (Ok (mkModel name), s))
    (fun _ txt s => (count txt, s))
    (fun _ _ s =>
       match s with
       | r :: s' => (r, s')
       | [] => (Raises (OtherError "no answer left"), [])
       end).

Definition gemini : GenerativeModel := mkModel "gemini-1.5-flash-latest".

(** A world with the model configured, nothing printed yet. *)
Definition ready {S} (s : S) : world S := mkWorld s (Some gemini) [].

(** A world before [configure_gemini] has run. *)
Definition fresh {S} (s : S) : world S := mkWorld s None [].

(** Token counters for the runs below. *)
Definition count_len (txt : string) : result Z :=
  Ok (Z.of_nat (String.length txt)).

Definition count_const (n : Z) (txt : string) : result Z := Ok n.

(** 20000 tokens for every text. *)
Definition count_heavy : string -> result Z := count_const 20000.

(** 30000 tokens for every text. *)
Definition count_huge : string -> result Z := count_const 30000.

(** The whole budget of [default_config], 25600 tokens, for a verbatim
    listing that opens with a tutor turn, and 7 for anything else. *)
Definition count_exact (txt : string) : result Z :=
  if starts_with "assistant: " txt then Ok 25600 else Ok 7.

Definition count_down (txt : string) : result Z :=
  Raises (GoogleAPIError "503 unavailable").

Definition user_says (s : string) : Turn := mkTurn "user" s.
Definition tutor_says (s : string) : Turn := mkTurn "assistant" s.

(** A log of one turn, a log of eleven turns (one older than the window
    of ten), and a log of two turns with a padded, two-line content. *)
Definition log1 : list Turn := [user_says "hello"].

Definition log11 : list Turn :=
  user_says "first" ::
  flat_map (fun n => [tutor_says ("reply " +:+ of_int n);
                      user_says ("answer " +:+ of_int n)])
           [1; 2; 3; 4; 5].

Definition log2_multiline : list Turn :=
  [user_says "why?"; tutor_says (" line one" +:+ nl +:+ "line two ")].

(** A runtime whose wordings are fixed texts, whose responses carry no
    block reason and whose [int] has the usual limit of 4300 digits. *)
Definition plain_runtime : Runtime :=
  mkRuntime (fun _ => "runtime error") (fun _ => "<value>") (fun _ => None)
            4300.

(** A concept as the bank file has it. *)
Definition concept_of (name misperception : string) (questions : list string)
  : json :=
  JObject [ ("concept_name", JString name);
            ("stem_misperception", JString misperception);
            ("socratic_questions", JArray (map JString questions)) ].

Definition scarcity : json :=
  concept_of "Scarcity" "resources are fixed"
             ["What is scarce?"; "Why do prices move?"].

Definition empty_concept : json := concept_of "Trade" "zero sum" [].

(** A bank of two concepts, the second without questions. *)
Definition small_bank : json :=
  JObject [("concepts", JArray [scarcity; empty_concept])].

(** A bank whose second concept has a blank question. *)
Definition blank_question_bank : json :=
  JObject [("concepts",
            JArray [scarcity; concept_of "Trade" "zero sum" ["ok"; "   "]])].


(** A memory with a list of one turn: the dictionary at address 0, the
    list at address 1. *)
Definition memory1 : Store.memory :=
  [Store.PyDict (user_says "hello"); Store.PyList [0%nat]].

(** A line of 4300 zeros followed by a 2. *)
Definition padded_two : string :=
  string_of_list_ascii (repeat "0"%char 4300) +:+ "2".

(** ** Vocabulary of the statements *)

(** [w] with [evs] appended to its trace. *)
Definition record {S} (w : world S) (evs : list event) : world S :=
  mkWorld (remote w) (model_instance w) (trace w ++ evs).

(** [w'] comes after [w]: same [model_instance], a longer trace. *)
Definition steady {S} (w w' : world S) : Prop :=
  model_instance w' = model_instance w /\
  exists evs, trace w' = trace w ++ evs.

(** [m] returns a value from every world: no exception, no exit. *)
Definition runs {S A} (m : M S A) : Prop :=
  forall w, exists a w', m w = (Ret a, w') /\ steady w w'.

(** [m] returns or raises an [Exception], but never exits. *)
Definition settles {S A} (m : M S A) : Prop :=
  forall w, exists w', steady w w' /\
    ((exists a, m w = (Ret a, w')) \/ (exists e, m w = (Raise e, w'))).

(** The contract of the token oracle: counts are not negative. *)
Definition counts_nonneg {S} (api : GenAI S) : Prop :=
  forall m txt s n s', genai_count_tokens api m txt s = (Ok n, s') -> 0 <= n.

(** A token oracle that returns consistent counts: it never fails and the
    count of a text is [tok] of that text, whatever happened before. *)
Definition consistent {S} (api : GenAI S) (tok : string -> Z) : Prop :=
  forall m txt s, exists s', genai_count_tokens api m txt s = (Ok (tok txt), s').

(** What [count_tokens] measures with such an oracle. *)
Definition tokens_of (tok : string -> Z) (txt : string) : Z :=
  if truthy txt then tok txt else 0.


(** Whether [summarize_history] adds length guidance for this argument. *)
Definition hinted (target_tokens : option Z) : option Z :=
  match target_tokens with
  | Some n => if negb (n =? 0) && (0 <? n) then Some n else None
  | None => None
  end.

(** The prompt [summarize_history] sends for these arguments. *)
Definition prompt_of (turns : list Turn) (discipline : string)
    (target_tokens : option Z) : string :=
  summary_prompt discipline (turns_text turns)
    match hinted target_tokens with
    | Some n => length_guidance_for n
    | None => ""
    end.

(** What [summarize_history] prints before it calls the model, and its
    trace up to and including that call. *)
Definition summarizer_prints (turns : list Turn)
    (target_tokens : option Z) : list event :=
  Stdout (msg_summarizing turns)
  :: match hinted target_tokens with
     | Some n => [Stdout (msg_attempting n)]
     | None => []
     end.

Definition summarizer_prelude (turns : list Turn) (discipline : string)
    (target_tokens : option Z) : list event :=
  summarizer_prints turns target_tokens
  ++ [CallGenerateContent (prompt_of turns discipline target_tokens)].


(** The lines of a context block that precede the listing of the recent
    turns ([history_parts] before the loop). *)
Definition heading (summary : string) : list string :=
  if truthy summary then
    [ "Summary of Older Conversation Turns:";
      "  " +:+ indent summary;
      nl +:+ "Recent Verbatim Conversation Turns:" ]
  else
    [ "Conversation History (Recent Turns Only):" ].


(** A turn as its content would appear if it were copied unchanged. *)
Definition plain_entry (turn : Turn) : string :=
  "- " +:+ capitalize (role turn) +:+ ":" +:+ nl +:+ "  " +:+ content turn.


(** The head of a context block whose summary is the one-line text
    [summary]. *)
Definition summary_section (summary : string) : list string :=
  [ "Summary of Older Conversation Turns:";
    "  " +:+ summary;
    nl +:+ "Recent Verbatim Conversation Turns:" ].

(** The block returned when the history is discarded. *)
Definition discarded_block : string :=
  join nl (summary_section history_discarded
             ++ ["  (No recent verbatim turns available)"]).

(** The block for an empty history. *)
Definition no_history_block : string :=
  "No conversation history for this concept yet.".

(** The [CallGenerateContent] prompts of a trace, in order. *)
Definition prompts_sent (evs : list event) : list string :=
  flat_map (fun e => match e with CallGenerateContent p => [p] | _ => [] end) evs.

(** A call that [configure_gemini] makes to the client raises: the
    configuration with the key, the creation of the model after it, or
    the count of "test" after both. *)
Definition a_client_call_raises {S} (api : GenAI S) (key name : string) (s : S)
  : Prop :=
  (exists e s1, genai_configure api key s = (Raises e, s1)) \/
  (exists s1 e s2,
     genai_configure api key s = (Ok tt, s1) /\
     genai_GenerativeModel api name s1 = (Raises e, s2)) \/
  (exists s1 m s2 e s3,
     genai_configure api key s = (Ok tt, s1) /\
     genai_GenerativeModel api name s1 = (Ok m, s2) /\
     genai_count_tokens api m "test" s2 = (Raises e, s3)).

(** The texts of the [CallCountTokens] events of a trace, in order. *)
Definition token_calls (evs : list event) : list string :=
  flat_map (fun e => match e with CallCountTokens t => [t] | _ => [] end) evs.

(** A text without line break. *)
Definition one_line (s : string) : bool :=
  all_chars (fun c => negb (Ascii.eqb c nl_char)) s.

(** The lines of a text. *)
Definition lines (s : string) : list string := split nl_char s.

(** The first line of the entry of a turn, [f"- {role}:"]. *)
Definition entry_header (turn : Turn) : string :=
  "- " +:+ capitalize (role turn) +:+ ":".

(** The lines of a block that open an entry. *)
Definition entry_headers (block : string) : list string :=
  List.filter (starts_with "- ") (lines block).

(** The lines a run wrote to standard output. *)
Definition stdout_lines (evs : list event) : list string :=
  flat_map (fun e => match e with Stdout l => [l] | _ => [] end) evs.

(** A question the bank loader lets through: a text that is not blank. *)
Definition valid_question (q : json) : Prop :=
  exists s, q = JString s /\ truthy (strip s) = true.

(** A concept the bank loader lets through: a dictionary whose name and
    misperception are texts that are not blank and whose questions are a
    list of valid questions. *)
Definition valid_concept (c : json) : Prop :=
  exists fields name misperception questions,
    c = JObject fields /\
    dict_lookup "concept_name" fields = Some (JString name) /\
    truthy (strip name) = true /\
    dict_lookup "stem_misperception" fields = Some (JString misperception) /\
    truthy (strip misperception) = true /\
    dict_lookup "socratic_questions" fields = Some (JArray questions) /\
    Forall valid_question questions.

(** A bank the loader lets through, with its concepts. *)
Definition valid_bank (data : json) (concepts : list json) : Prop :=
  exists fields,
    data = JObject fields /\
    dict_lookup "concepts" fields = Some (JArray concepts) /\
    concepts <> [] /\
    Forall valid_concept concepts.

(** What a line typed at the discipline prompt stands for: [picks line d]
    when, stripped and lowered, it is the number of the discipline [d] in
    the list, in a text [int] converts; [quits line] when it is the word
    quit; noise otherwise. *)
Definition picks (rt : Runtime) (line d : string) : Prop :=
  exists n, int_of_string (int_max_str_digits rt) (lower (strip line)) = Some n /\
            1 <= n <= Z.of_nat (length disciplines) /\
            nth (Z.to_nat (n - 1)) disciplines EmptyString = d.

Definition quits (line : string) : Prop := lower (strip line) = "quit".

Definition noise (rt : Runtime) (line : string) : Prop :=
  ~ quits line /\ forall d, ~ picks rt line d.

(** The lines [rest] are what is left of [stdin] after at least one line
    was read. *)
Definition read_some (stdin rest : list string) : Prop :=
  exists used, used <> [] /\ stdin = used ++ rest.

(** The three requests a session makes to the tutor model. *)
Inductive request :=
| ForFeedback (user_answer : string)
| ForHint
| ForExplanation.

(** The word for the request in the notices of a failed call. *)
Definition kind_of (req : request) : string :=
  match req with
  | ForFeedback _ => "Feedback"
  | ForHint => "Hint"
  | ForExplanation => "Explanation"
  end.

(** The tutor call for a request. *)
Definition ask {S} (api : GenAI S) (rt : Runtime) (req : request)
    (model : GenerativeModel) (concept : json)
    (question discipline history_context_string : string) : M S string :=
  match req with
  | ForFeedback user_answer =>
      get_ai_feedback api rt model concept question user_answer discipline
                      history_context_string
  | ForHint =>
      get_ai_hint api rt model concept question discipline
                  history_context_string
  | ForExplanation =>
      get_ai_scaffolded_explanation api rt model concept question discipline
                                    history_context_string
  end.

(** The texts a prompt must carry for a request: the history block, the
    question, and the answer when there is one. *)
Definition carried (req : request) (question history_context_string : string)
  : list string :=
  history_context_string :: question ::
  match req with ForFeedback user_answer => [user_answer] | _ => [] end.

(** The lines a run wrote to standard error. *)
Definition stderr_lines (evs : list event) : list string :=
  flat_map (fun e => match e with Stderr l => [l] | _ => [] end) evs.

(** A stretch of history made of exchanges: a turn of the user, then the
    turn of the assistant that answers it. *)
Inductive exchanges : list Turn -> Prop :=
| exchanges_nil : exchanges []
| exchanges_cons (said answered : string) (later : list Turn) :
    exchanges later ->
    exchanges (mkTurn "user" said :: mkTurn "assistant" answered :: later).

(** A concept with at least one question. *)
Definition has_questions (c : json) : bool :=
  match c with
  | JObject fields =>
      match dict_lookup "socratic_questions" fields with
      | Some (JArray (_ :: _)) => true
      | _ => false
      end
  | _ => false
  end.

(** A line typed at the answer prompt that is an answer: not blank, none
    of the commands, not a way of saying "I don't know". *)
Definition is_answer (line : string) : bool :=
  let lower_input := lower (strip line) in
  truthy (strip line)
  && negb (String.eqb lower_input "quit")
  && negb (String.eqb lower_input "menu")
  && negb (String.eqb lower_input "hint")
  && negb (i_dont_know lower_input).

(** Membership in a list that is written out. *)
Ltac in_list :=
  repeat first [apply list_elem_of_here | apply list_elem_of_further].

(** The list at [x] is the log [log]: its items are the dictionaries of
    the turns of [log], in order. *)
Definition holds (mem : Store.memory) (x : Store.ref) (log : list Turn) : Prop :=
  exists items,
    mem !! x = Some (Store.PyList items) /\
    Forall2 (fun i turn => mem !! i = Some (Store.PyDict turn)) items log.

(** * Properties *)

Section Effects.

Context {S : Type}.

Lemma steady_refl (w : world S) : steady w w.
Proof. split; [done|]. exists []. by rewrite app_nil_r. Qed.

Lemma steady_trans (w1 w2 w3 : world S) :
  steady w1 w2 -> steady w2 w3 -> steady w1 w3.
Proof.
  intros [Hm1 [e1 He1]] [Hm2 [e2 He2]]. split; [congruence|].
  exists (e1 ++ e2). by rewrite He2, He1, app_assoc.
Qed.

Lemma steady_record (w : world S) evs : steady w (record w evs).
Proof. split; [done|]. by exists evs. Qed.

Lemma record_record (w : world S) e1 e2 :
  record (record w e1) e2 = record w (e1 ++ e2).
Proof. unfold record; simpl. by rewrite app_assoc. Qed.

Lemma runs_ret {A} (a : A) : runs (S:=S) (ret a).
Proof. intros w. exists a, w. split; [done|apply steady_refl]. Qed.

Lemma runs_bind {A B} (m : M S A) (k : A -> M S B) :
  runs m -> (forall a, runs (k a)) -> runs (bind m k).
Proof.
  intros Hm Hk w. destruct (Hm w) as (a & w1 & E1 & S1).
  destruct (Hk a w1) as (b & w2 & E2 & S2).
  exists b, w2. split; [|by eapply steady_trans].
  unfold bind. by rewrite E1.
Qed.

Lemma emit_eq (e : event) (w : world S) : emit e w = (Ret tt, record w [e]).
Proof. done. Qed.

Lemma runs_emit (e : event) : runs (S:=S) (emit e).
Proof. intros w. exists tt, (record w [e]). split; [done|apply steady_record]. Qed.

Lemma settles_runs {A} (m : M S A) : runs m -> settles m.
Proof. intros H w. destruct (H w) as (a & w' & E & St). exists w'. eauto. Qed.

Lemma settles_call {A} (e : event) (f : S -> result A * S) : settles (call e f).
Proof.
  intros w. unfold call. destruct (f (remote w)) as [[a|err] s'].
  - eexists. split; [|left; eauto]. split; [done|]. by exists [e].
  - eexists. split; [|right; eauto]. split; [done|]. by exists [e].
Qed.

Lemma settles_access {A} (r : result A) : settles (S:=S) (access r).
Proof.
  intros w. exists w. split; [apply steady_refl|].
  destruct r; [left|right]; eauto.
Qed.

Lemma settles_bind {A B} (m : M S A) (k : A -> M S B) :
  settles m -> (forall a, settles (k a)) -> settles (bind m k).
Proof.
  intros Hm Hk w. destruct (Hm w) as (w1 & S1 & [[a E1]|[e E1]]).
  - destruct (Hk a w1) as (w2 & S2 & H2). exists w2.
    split; [by eapply steady_trans|]. unfold bind. by rewrite E1.
  - exists w1. split; [done|]. right. exists e. unfold bind. by rewrite E1.
Qed.

Lemma runs_try_except {A} (body : M S A) (handler : error -> M S A) :
  settles body -> (forall e, runs (handler e)) -> runs (try_except body handler).
Proof.
  intros Hb Hh w. destruct (Hb w) as (w1 & S1 & [[a E1]|[e E1]]).
  - exists a, w1. split; [|done]. unfold try_except. by rewrite E1.
  - destruct (Hh e w1) as (a & w2 & E2 & S2). exists a, w2.
    split; [|by eapply steady_trans]. unfold try_except. by rewrite E1.
Qed.

End Effects.

Create HintDb runs.
#[export] Hint Resolve runs_ret runs_bind runs_emit settles_runs settles_call
  settles_access settles_bind runs_try_except : runs.

Section Facts.

Context {S : Type} (api : GenAI S) (cfg : Config).

Lemma runs_get_model_instance : runs (S:=S) get_model_instance.
Proof. intros w. exists (model_instance w), w. split; [done|apply steady_refl]. Qed.

Lemma runs_print (line : string) : runs (S:=S) (print line).
Proof. apply runs_emit. Qed.

Lemma runs_eprint (line : string) : runs (S:=S) (eprint line).
Proof. apply runs_emit. Qed.

Hint Resolve runs_get_model_instance runs_print runs_eprint : runs.

Lemma runs_count_tokens (txt : string) : runs (count_tokens api txt).
Proof.
  unfold count_tokens. apply runs_bind; [auto with runs|].
  intros [m|]; [|auto with runs].
  destruct (negb (truthy txt)); [auto with runs|].
  apply runs_try_except; [auto with runs|].
  intros e. destruct (is_GoogleAPIError e); auto with runs.
Qed.

Hint Resolve runs_count_tokens : runs.

Lemma runs_request_summary model prompt :
  runs (request_summary api model prompt).
Proof.
  unfold request_summary. apply runs_try_except.
  - apply settles_bind; [auto with runs|]. intros r.
    destruct (unusable r); [auto with runs|].
    apply settles_bind; [auto with runs|]. intros txt.
    auto 10 with runs.
  - intros e. destruct (is_GoogleAPIError e); auto with runs.
Qed.

Hint Resolve runs_request_summary : runs.

Lemma runs_summarize_history model turns discipline target :
  runs (summarize_history api model turns discipline target).
Proof.
  unfold summarize_history. destruct turns as [|t turns]; [auto with runs|].
  apply runs_bind; [auto with runs|]. intros _.
  apply runs_bind; [|auto with runs].
  destruct target as [n|]; [|auto with runs].
  destruct (negb (n =? 0) && (0 <? n)); auto with runs.
Qed.

Hint Resolve runs_summarize_history : runs.

Lemma runs_measure_history model older verbatim discipline :
  runs (measure_history api model older verbatim discipline).
Proof.
  unfold measure_history. apply runs_bind.
  { destruct older; auto with runs. }
  intros s. auto 10 with runs.
Qed.

Lemma runs_enforce_budget model older verbatim discipline s st vt :
  runs (enforce_budget api cfg model older verbatim discipline s st vt).
Proof.
  unfold enforce_budget.
  destruct (history_token_budget cfg <? st + vt); [|auto with runs].
  apply runs_bind; [auto with runs|]. intros _.
  destruct (history_token_budget cfg - vt <? 0); [auto with runs|].
  destruct ((history_token_budget cfg - vt <? st)
            && match older with [] => false | _ :: _ => true end).
  - apply runs_bind; [auto with runs|]. intros _.
    apply runs_bind; [auto with runs|]. intros s2.
    apply runs_bind; [auto with runs|]. intros st2.
    apply runs_bind; [|auto with runs].
    destruct (history_token_budget cfg <? st2 + vt); auto with runs.
  - destruct older; auto with runs.
Qed.

Hint Resolve runs_measure_history runs_enforce_budget : runs.

Lemma runs_fit_history model log discipline :
  runs (fit_history api cfg model log discipline).
Proof.
  unfold fit_history. apply runs_bind; [auto with runs|].
  intros [[s st] vt]. auto with runs.
Qed.

Hint Resolve runs_fit_history : runs.

Lemma runs_manage model prev log discipline :
  runs (manage_history_and_get_context api cfg model prev log discipline).
Proof.
  unfold manage_history_and_get_context. apply runs_bind; [auto with runs|].
  intros [s v]. auto with runs.
Qed.

(** *** Unfolding one step *)

Lemma bind_ret {A B} (m : M S A) (k : A -> M S B) w a w1 :
  m w = (Ret a, w1) -> bind m k w = k a w1.
Proof. intros E. unfold bind. by rewrite E. Qed.

Lemma print_eq line (w : world S) : print line w = (Ret tt, record w [Stdout line]).
Proof. done. Qed.

Lemma eprint_eq line (w : world S) : eprint line w = (Ret tt, record w [Stderr line]).
Proof. done. Qed.

(** *** The token counter *)

Lemma count_tokens_cases txt w :
  exists n w', count_tokens api txt w = (Ret n, w') /\ steady w w' /\
    (counts_nonneg api -> 0 <= n) /\
    (txt = "" -> n = 0) /\
    (model_instance w = None -> n = 0) /\
    (forall m e s', model_instance w = Some m ->
       genai_count_tokens api m txt (remote w) = (Raises e, s') -> n = 0).
Proof.
  unfold count_tokens, bind, get_model_instance.
  destruct (model_instance w) as [m|] eqn:Hm.
  - destruct txt as [|c txt']; simpl.
    { exists 0, w. split; [done|]. split; [apply steady_refl|]. by repeat split. }
    unfold try_except, call.
    destruct (genai_count_tokens api m (String c txt') (remote w))
      as [[n|e] s'] eqn:Hc.
    + eexists n, _. split; [done|]. split.
      { split; [done|]. by eexists. }
      split; [intros Hn; by eapply Hn|].
      split; [done|]. split; [congruence|].
      intros m' e s'' Hm' Hc'. congruence.
    + destruct (is_GoogleAPIError e);
        (eexists 0, _; split; [done|]; split;
         [split; [done|]; simpl; rewrite <- app_assoc; by eexists
         |by repeat split]).
  - rewrite eprint_eq. eexists 0, _. split; [done|]. split.
    { apply steady_record. }
    by repeat split.
Qed.

Lemma count_tokens_consistent tok txt w m :
  consistent api tok -> model_instance w = Some m ->
  exists w', count_tokens api txt w = (Ret (tokens_of tok txt), w') /\ steady w w'.
Proof.
  intros Hc Hm. unfold count_tokens, bind, get_model_instance, tokens_of.
  rewrite Hm. destruct txt as [|c txt']; simpl.
  { exists w. split; [done|apply steady_refl]. }
  unfold try_except, call.
  destruct (Hc m (String c txt') (remote w)) as [s' ->].
  eexists. split; [done|]. split; [by rewrite Hm|]. by eexists.
Qed.

(** *** The summarizer *)

Lemma summarize_history_eq model turns discipline target w :
  turns <> [] ->
  summarize_history api model turns discipline target w =
  request_summary api model (prompt_of turns discipline target)
                  (record w (summarizer_prints turns target)).
Proof.
  intros Hne. destruct turns as [|t turns]; [done|].
  unfold summarize_history, prompt_of, summarizer_prints, hinted.
  rewrite (bind_ret _ _ _ _ _ (print_eq _ w)).
  destruct target as [n|].
  - destruct (negb (n =? 0) && (0 <? n)).
    + unfold bind at 1. unfold bind at 1. rewrite print_eq.
      unfold ret. by rewrite record_record.
    + done.
  - done.
Qed.

Lemma request_summary_trace model prompt w :
  exists p w' evs, request_summary api model prompt w = (Ret p, w') /\
    model_instance w' = model_instance w /\
    trace w' = trace w ++ CallGenerateContent prompt :: evs.
Proof.
  unfold request_summary, try_except. unfold bind at 1. unfold call.
  destruct (genai_generate_content api model prompt (remote w)) as [[r|e] s'].
  - destruct (unusable r).
    + unfold bind. rewrite eprint_eq. eexists _, _, _. split; [done|].
      split; [done|]. simpl. by rewrite <- app_assoc.
    + unfold bind at 1. unfold access. destruct (text r) as [t|e].
      * set (w1 := mkWorld s' _ _).
        destruct (count_tokens_cases (strip t) w1) as (n & w2 & E & [Hm [evs He]] & _).
        rewrite (bind_ret _ _ _ _ _ E). unfold bind. rewrite print_eq.
        eexists _, _, _. split; [done|]. split; [done|].
        simpl. rewrite He. subst w1; simpl. rewrite <- !app_assoc. done.
      * destruct (is_GoogleAPIError e); unfold bind; rewrite eprint_eq;
          eexists _, _, _; (split; [done|]); (split; [done|]);
          simpl; by rewrite <- app_assoc.
  - destruct (is_GoogleAPIError e); unfold bind; rewrite eprint_eq;
      eexists _, _, _; (split; [done|]); (split; [done|]);
      simpl; by rewrite <- app_assoc.
Qed.

Lemma summarize_history_trace model turns discipline target w :
  turns <> [] ->
  exists p w' evs,
    summarize_history api model turns discipline target w = (Ret p, w') /\
    model_instance w' = model_instance w /\
    trace w' = trace w ++ summarizer_prelude turns discipline target ++ evs.
Proof.
  intros Hne. rewrite summarize_history_eq by done.
  destruct (request_summary_trace model (prompt_of turns discipline target)
              (record w (summarizer_prints turns target)))
    as (p & w' & evs & E & Hm & Ht).
  exists p, w', evs. split; [done|]. split; [done|].
  rewrite Ht. unfold summarizer_prelude. simpl. by rewrite <- !app_assoc.
Qed.



(** *** Step 1: the partition *)

Lemma older_verbatim_partition (log : list Turn) :
  older_of cfg log ++ verbatim_of cfg log = log.
Proof. apply take_drop. Qed.

Lemma verbatim_cutoff_bounds (log : list Turn) :
  0 <= LAST_VERBATIM_TURNS cfg ->
  0 <= verbatim_cutoff cfg log <= Z.of_nat (length log).
Proof. unfold verbatim_cutoff. lia. Qed.

Lemma verbatim_length (log : list Turn) :
  0 <= LAST_VERBATIM_TURNS cfg ->
  Z.of_nat (length (verbatim_of cfg log))
  = Z.min (LAST_VERBATIM_TURNS cfg) (Z.of_nat (length log)).
Proof.
  intros HL. unfold verbatim_of. rewrite length_drop.
  pose proof (verbatim_cutoff_bounds log HL). unfold verbatim_cutoff in *. lia.
Qed.

Lemma older_nonempty_iff (log : list Turn) :
  0 <= LAST_VERBATIM_TURNS cfg ->
  older_of cfg log <> [] <-> LAST_VERBATIM_TURNS cfg < Z.of_nat (length log).
Proof.
  intros HL. unfold older_of.
  pose proof (verbatim_cutoff_bounds log HL) as Hb.
  assert (Hlen : length (take (Z.to_nat (verbatim_cutoff cfg log)) log)
                 = Z.to_nat (verbatim_cutoff cfg log)).
  { rewrite length_take. lia. }
  unfold verbatim_cutoff in *. split.
  - intros Hne. destruct (take _ log) eqn:E; [done|]. simpl in Hlen. lia.
  - intros Hlt E. rewrite E in Hlen. simpl in Hlen. lia.
Qed.

(** *** Steps 2 and 3: the measurement *)

Lemma measure_history_cases model older verbatim discipline w :
  exists s st vt w1,
    measure_history api model older verbatim discipline w = (Ret (s, st, vt), w1) /\
    steady w w1 /\
    (older = [] -> s = "" /\ st = 0) /\
    (counts_nonneg api -> 0 <= st /\ 0 <= vt) /\
    (older <> [] ->
       (exists ws, summarize_history api model older discipline None w = (Ret s, ws)) /\
       (exists evs, trace w1 = trace w ++ summarizer_prelude older discipline None ++ evs)).
Proof.
  unfold measure_history.
  assert (Hs : exists s ws,
    match older with
    | _ :: _ => summarize_history api model older discipline None
    | [] => ret ""
    end w = (Ret s, ws) /\ steady w ws /\ (older = [] -> s = "") /\
    (older <> [] ->
       summarize_history api model older discipline None w = (Ret s, ws) /\
       exists evs, trace ws = trace w ++ summarizer_prelude older discipline None ++ evs)).
  { destruct older as [|t older'].
    - exists "", w. split; [done|]. split; [apply steady_refl|]. by split.
    - destruct (summarize_history_trace model (t :: older') discipline None w)
        as (p & ws & evs & E & Hm & Ht); [done|].
      exists p, ws. split; [done|]. split.
      { split; [done|]. eexists. exact Ht. }
      split; [done|]. intros _. split; [done|]. by exists evs. }
  destruct Hs as (s & ws & Es & Ss & Hnil & Hcons).
  destruct (count_tokens_cases s ws) as (st & w2 & E2 & S2 & Hnn2 & Hemp & _).
  destruct (count_tokens_cases (verbatim_turns_text verbatim) w2)
    as (vt & w3 & E3 & S3 & Hnn3 & _).
  exists s, st, vt, w3.
  rewrite (bind_ret _ _ _ _ _ Es), (bind_ret _ _ _ _ _ E2), (bind_ret _ _ _ _ _ E3).
  split; [done|]. split; [eauto using steady_trans|].
  split; [intros Ho; split; [auto|apply Hemp; auto]|].
  split; [auto|]. intros Hne. destruct (Hcons Hne) as [E [evs Ht]].
  split; [eauto|].
  destruct S2 as [_ [e2 He2]]. destruct S3 as [_ [e3 He3]].
  exists (evs ++ e2 ++ e3). rewrite He3, He2, Ht. by rewrite <- !app_assoc.
Qed.

(** *** Step 4: the overflow handling *)

Lemma enforce_within model older verbatim discipline s st vt w :
  st + vt <= history_token_budget cfg ->
  enforce_budget api cfg model older verbatim discipline s st vt w
  = (Ret (s, verbatim), w).
Proof.
  intros H. unfold enforce_budget.
  destruct (Z.ltb_spec (history_token_budget cfg) (st + vt)); [lia|done].
Qed.

Lemma enforce_discard model older verbatim discipline s st vt w :
  history_token_budget cfg < st + vt ->
  history_token_budget cfg < vt ->
  enforce_budget api cfg model older verbatim discipline s st vt w
  = (Ret (history_discarded, []),
     record w [Stdout (msg_over_budget cfg (st + vt));
               Stderr (msg_discard cfg vt)]).
Proof.
  intros H1 H2. unfold enforce_budget.
  destruct (Z.ltb_spec (history_token_budget cfg) (st + vt)); [|lia].
  rewrite (bind_ret _ _ _ _ _ (print_eq _ w)).
  destruct (Z.ltb_spec (history_token_budget cfg - vt) 0); [|lia].
  rewrite (bind_ret _ _ _ _ _ (eprint_eq _ _)).
  unfold ret. by rewrite record_record.
Qed.

Lemma enforce_retarget model older verbatim discipline s st vt w :
  history_token_budget cfg < st + vt ->
  vt <= history_token_budget cfg ->
  older <> [] ->
  enforce_budget api cfg model older verbatim discipline s st vt w
  = (s2 <- summarize_history api model older discipline
                             (Some (history_token_budget cfg - vt)) ;;
     st2 <- count_tokens api s2 ;;
     (if history_token_budget cfg <? st2 + vt
      then print (msg_still_over cfg (st2 + vt)) else ret tt) ;;;
     ret (s2, verbatim))
      (record w [Stdout (msg_over_budget cfg (st + vt));
                 Stdout (msg_targeting (history_token_budget cfg - vt))]).
Proof.
  intros H1 H2 Hne. unfold enforce_budget.
  destruct (Z.ltb_spec (history_token_budget cfg) (st + vt)); [|lia].
  rewrite (bind_ret _ _ _ _ _ (print_eq _ w)).
  destruct (Z.ltb_spec (history_token_budget cfg - vt) 0); [lia|].
  destruct (Z.ltb_spec (history_token_budget cfg - vt) st); [|lia].
  destruct older as [|t older']; [done|]. simpl.
  rewrite (bind_ret _ _ _ _ _ (print_eq _ _)). by rewrite record_record.
Qed.

Lemma fit_history_eq model log discipline w s st vt w1 :
  measure_history api model (older_of cfg log) (verbatim_of cfg log) discipline w
  = (Ret (s, st, vt), w1) ->
  fit_history api cfg model log discipline w
  = enforce_budget api cfg model (older_of cfg log) (verbatim_of cfg log)
                   discipline s st vt w1.
Proof. intros E. unfold fit_history. by rewrite (bind_ret _ _ _ _ _ E). Qed.

Lemma manage_eq model prev log discipline w s v w' :
  fit_history api cfg model log discipline w = (Ret (s, v), w') ->
  manage_history_and_get_context api cfg model prev log discipline w
  = (Ret (format_history_for_prompt s v, s), w').
Proof.
  intros E. unfold manage_history_and_get_context.
  by rewrite (bind_ret _ _ _ _ _ E).
Qed.

(** *** Step 5: the formatter *)

Lemma format_nonempty summary verbatim :
  verbatim <> [] ->
  format_history_for_prompt summary verbatim
  = join nl (heading summary ++ map format_turn verbatim).
Proof.
  intros Hne. destruct verbatim as [|t v]; [done|].
  unfold format_history_for_prompt, heading. by destruct (truthy summary).
Qed.



Lemma enforce_verbatim model older verbatim discipline s st vt w s' v w' :
  enforce_budget api cfg model older verbatim discipline s st vt w
  = (Ret (s', v), w') ->
  v = verbatim \/
  (v = [] /\ history_token_budget cfg < st + vt /\ history_token_budget cfg < vt).
Proof.
  unfold enforce_budget.
  destruct (Z.ltb_spec (history_token_budget cfg) (st + vt));
    [|intros [= <- <- <-]; by left].
  rewrite (bind_ret _ _ _ _ _ (print_eq _ w)).
  destruct (Z.ltb_spec (history_token_budget cfg - vt) 0).
  { rewrite (bind_ret _ _ _ _ _ (eprint_eq _ _)). intros [= <- <- <-].
    right. split; [done|]. lia. }
  destruct ((history_token_budget cfg - vt <? st)
            && match older with [] => false | _ :: _ => true end).
  - rewrite (bind_ret _ _ _ _ _ (print_eq _ _)).
    match goal with |- context [summarize_history _ _ _ _ ?t] =>
      destruct (runs_summarize_history model older discipline t
                  (record (record w [Stdout (msg_over_budget cfg (st + vt))])
                          [Stdout (msg_targeting (history_token_budget cfg - vt))]))
        as (s2 & w3 & E2 & _)
    end.
    rewrite (bind_ret _ _ _ _ _ E2).
    destruct (runs_count_tokens s2 w3) as (st2 & w4 & E3 & _).
    rewrite (bind_ret _ _ _ _ _ E3).
    destruct (history_token_budget cfg <? st2 + vt).
    + rewrite (bind_ret _ _ _ _ _ (print_eq _ _)). intros [= <- <- <-]. by left.
    + unfold bind, ret. intros [= <- <- <-]. by left.
  - destruct older; intros [= <- <- <-]; by left.
Qed.

Lemma measure_history_consistent tok model older verbatim discipline w m :
  consistent api tok -> model_instance w = Some m ->
  exists s w1,
    measure_history api model older verbatim discipline w
    = (Ret (s, tokens_of tok s, tokens_of tok (verbatim_turns_text verbatim)), w1) /\
    steady w w1 /\ (older = [] -> s = "").
Proof.
  intros Hc Hm. unfold measure_history.
  assert (Hs : exists s ws,
    match older with
    | _ :: _ => summarize_history api model older discipline None
    | [] => ret ""
    end w = (Ret s, ws) /\ steady w ws /\ (older = [] -> s = "")).
  { destruct older as [|t older'].
    - exists "", w. split; [done|]. split; [apply steady_refl|done].
    - destruct (runs_summarize_history model (t :: older') discipline None w)
        as (s & ws & E & St).
      exists s, ws. split; [done|]. split; [done|]. intros [=]. }
  destruct Hs as (s & ws & Es & Ss & Hnil).
  assert (Hms : model_instance ws = Some m) by (destruct Ss; congruence).
  destruct (count_tokens_consistent tok s ws m Hc Hms) as (w2 & E2 & S2).
  assert (Hm2 : model_instance w2 = Some m) by (destruct S2; congruence).
  destruct (count_tokens_consistent tok (verbatim_turns_text verbatim) w2 m Hc Hm2)
    as (w3 & E3 & S3).
  exists s, w3.
  rewrite (bind_ret _ _ _ _ _ Es), (bind_ret _ _ _ _ _ E2), (bind_ret _ _ _ _ _ E3).
  split; [done|]. split; [eauto using steady_trans|done].
Qed.

End Facts.

(** ** Facts about text *)

Section Text.

Lemma app_cons c (s t : string) : String c s +:+ t = String c (s +:+ t).
Proof. done. Qed.

Lemma app_empty_r (s : string) : s +:+ "" = s.
Proof. induction s as [|c s IH]; [done|]. by rewrite app_cons, IH. Qed.

Lemma app_assoc_str (a b c : string) : (a +:+ b) +:+ c = a +:+ b +:+ c.
Proof. induction a as [|x a IH]; [done|]. by rewrite !app_cons, IH. Qed.

Lemma starts_with_app (p s : string) : starts_with p (p +:+ s) = true.
Proof.
  induction p as [|c p IH]; [done|]. rewrite app_cons. simpl.
  by rewrite Ascii.eqb_refl, IH.
Qed.

Lemma starts_with_split (p s : string) :
  starts_with p s = true -> exists b, s = p +:+ b.
Proof.
  revert s. induction p as [|c p IH]; intros s H.
  - by exists s.
  - destruct s as [|d s]; [done|]. simpl in H.
    apply andb_true_iff in H as [Hc Hp]. apply Ascii.eqb_eq in Hc as ->.
    destruct (IH s Hp) as [b ->]. by exists b.
Qed.

Lemma contains_intro (a n b : string) : contains n (a +:+ n +:+ b) = true.
Proof.
  induction a as [|c a IH].
  - change ("" +:+ n +:+ b) with (n +:+ b).
    destruct (n +:+ b) eqn:E; simpl; rewrite <- E, starts_with_app; done.
  - rewrite app_cons. simpl. rewrite IH. apply orb_true_r.
Qed.

Lemma contains_elim (n s : string) :
  contains n s = true -> exists a b, s = a +:+ n +:+ b.
Proof.
  induction s as [|c s IH]; simpl; intros H.
  - rewrite orb_false_r in H. destruct (starts_with_split _ _ H) as [b ->].
    by exists "", b.
  - apply orb_true_iff in H as [H|H].
    + destruct (starts_with_split _ _ H) as [b ->]. by exists "", b.
    + destruct (IH H) as (a & b & ->). by exists (String c a), b.
Qed.

Lemma contains_trans (x y z : string) :
  contains x y = true -> contains y z = true -> contains x z = true.
Proof.
  intros Hxy Hyz.
  destruct (contains_elim _ _ Hxy) as (a & b & ->).
  destruct (contains_elim _ _ Hyz) as (a' & b' & ->).
  replace (a' +:+ (a +:+ x +:+ b) +:+ b') with ((a' +:+ a) +:+ x +:+ (b +:+ b')).
  - apply contains_intro.
  - by rewrite !app_assoc_str.
Qed.

Lemma contains_join (sep x : string) (l : list string) :
  x ∈ l -> contains x (join sep l) = true.
Proof.
  induction l as [|y l IH]; intros Hin; [by apply elem_of_nil in Hin|].
  apply elem_of_cons in Hin as [->|Hin].
  - destruct l as [|z l]; simpl.
    + rewrite <- (app_empty_r y) at 2. apply (contains_intro "" y "").
    + apply (contains_intro "" y).
  - specialize (IH Hin). destruct l as [|z l]; [by apply elem_of_nil in Hin|].
    change (join sep (y :: z :: l)) with (y +:+ sep +:+ join sep (z :: l)).
    destruct (contains_elim _ _ IH) as (a & b & ->).
    replace (y +:+ sep +:+ a +:+ x +:+ b) with ((y +:+ sep +:+ a) +:+ x +:+ b).
    + apply contains_intro.
    + by rewrite !app_assoc_str.
Qed.

Lemma contains_app_r (x a s : string) :
  contains x s = true -> contains x (a +:+ s) = true.
Proof.
  intros H. destruct (contains_elim _ _ H) as (p & q & ->).
  rewrite <- app_assoc_str. apply contains_intro.
Qed.


End Text.

(** ** Properties of the history manager *)

Section Claims.

Context {S : Type} (api : GenAI S) (cfg : Config).

(** C7.  With a token oracle that honours its contract (counts are not
    negative), [count_tokens] returns a count that is not negative for
    every text and from every state; the count of the empty text is 0;
    and when the oracle raises, the count is 0.  A failed count never
    crashes the manager: [manage_history_and_get_context] returns from
    every state, whatever the oracle does. *)
Theorem count_tokens_never_fails (txt : string) (w : world S) :
  counts_nonneg api ->
  exists n w',
    count_tokens api txt w = (Ret n, w') /\
    0 <= n /\
    (txt = "" -> n = 0) /\
    (forall m e s',
       model_instance w = Some m ->
       genai_count_tokens api m txt (remote w) = (Raises e, s') -> n = 0) /\
    (forall model prev log discipline w0,
       exists r w2,
         manage_history_and_get_context api cfg model prev log discipline w0
         = (Ret r, w2)).
Proof.
  intros Hc.
  destruct (count_tokens_cases api txt w) as (n & w' & E & _ & Hn & He & _ & Hr).
  exists n, w'. split; [done|]. split; [auto|]. split; [done|]. split; [done|].
  intros model prev log discipline w0.
  destruct (runs_manage api cfg model prev log discipline w0) as (r & w2 & Er & _).
  eauto.
Qed.


(** C1, as the code has it.  When the measured verbatim window alone
    exceeds the history budget, the manager does not raise: it prints the
    over-budget warning, prints an ERROR line on the error stream, and
    returns a block without verbatim turns whose summary section holds the
    marker "[History discarded due to excessive verbatim length]";
    the updated summary it returns is that marker, not the empty text. *)
Theorem hard_overflow_discards_history
    (model : GenerativeModel) (prev : string) (log : list Turn)
    (discipline : string) (w : world S) :
  counts_nonneg api ->
  exists s st vt w1,
    measure_history api model (older_of cfg log) (verbatim_of cfg log)
                    discipline w
    = (Ret (s, st, vt), w1) /\
    (history_token_budget cfg < vt ->
     manage_history_and_get_context api cfg model prev log discipline w
     = (Ret (discarded_block, history_discarded),
        record w1 [Stdout (msg_over_budget cfg (st + vt));
                   Stderr (msg_discard cfg vt)])).
Proof.
  intros Hc.
  destruct (measure_history_cases api model (older_of cfg log)
              (verbatim_of cfg log) discipline w)
    as (s & st & vt & w1 & Em & _ & _ & Hnn & _).
  destruct (Hnn Hc) as [Hst Hvt].
  exists s, st, vt, w1. split; [done|]. intros Hover.
  rewrite (manage_eq api cfg model prev log discipline w history_discarded [] 
             (record w1 [Stdout (msg_over_budget cfg (st + vt));
                         Stderr (msg_discard cfg vt)])); [done|].
  rewrite (fit_history_eq api cfg _ _ _ _ _ _ _ _ Em).
  apply enforce_discard; lia.
Qed.

(** C5, as the code has it.  The summary the manager returns never
    depends on the previous summary.  In hard overflow it is the marker
    of discarded history.  Otherwise: with no older turn it is the empty
    text; with older turns it is what the summarizer made of them, either
    in the first call, when the measured history fits the budget, or in
    the second, re-targeted call. *)
Theorem returned_summary_is_fresh
    (model : GenerativeModel) (prev : string) (log : list Turn)
    (discipline : string) (w : world S) :
  let older := older_of cfg log in
  let budget := history_token_budget cfg in
  exists s0 st vt w1 ctx s w',
    measure_history api model older (verbatim_of cfg log) discipline w
    = (Ret (s0, st, vt), w1) /\
    manage_history_and_get_context api cfg model prev log discipline w
    = (Ret (ctx, s), w') /\
    (forall prev',
       manage_history_and_get_context api cfg model prev' log discipline w
       = (Ret (ctx, s), w')) /\
    (budget < st + vt -> budget < vt -> s = history_discarded) /\
    (older = [] -> ~ (budget < st + vt /\ budget < vt) -> s = "") /\
    (older <> [] ->
       (exists ws,
          summarize_history api model older discipline None w = (Ret s0, ws)) /\
       (st + vt <= budget -> s = s0) /\
       (budget < st + vt -> vt <= budget ->
        exists ws,
          summarize_history api model older discipline (Some (budget - vt))
            (record w1 [Stdout (msg_over_budget cfg (st + vt));
                        Stdout (msg_targeting (budget - vt))])
          = (Ret s, ws))).
Proof.
  intros older budget. subst older budget.
  destruct (measure_history_cases api model (older_of cfg log) (verbatim_of cfg log)
              discipline w)
    as (s0 & st & vt & w1 & Em & _ & Hnil & _ & Hcons).
  destruct (runs_manage api cfg model prev log discipline w)
    as ([ctx s] & w' & E & _).
  exists s0, st, vt, w1, ctx, s, w'. split; [done|]. split; [done|].
  split; [intros prev'; exact E|].
  assert (Hfit : exists v,
            enforce_budget api cfg model (older_of cfg log) (verbatim_of cfg log) discipline
                           s0 st vt w1 = (Ret (s, v), w')).
  { destruct (runs_fit_history api cfg model log discipline w)
      as ([s1 v1] & w2 & Ef & _).
    rewrite (manage_eq api cfg _ _ _ _ _ _ _ _ Ef) in E.
    injection E as <- <- <-. exists v1.
    by rewrite <- (fit_history_eq api cfg _ _ _ _ _ _ _ _ Em). }
  destruct Hfit as [v Hfit].
  split.
  { intros H1 H2. rewrite enforce_discard in Hfit by done. congruence. }
  split.
  { intros Ho Hnot. destruct (Hnil Ho) as [-> ->].
    destruct (Z.le_gt_cases (0 + vt) (history_token_budget cfg)) as [Hle|Hgt].
    - rewrite enforce_within in Hfit by done. congruence.
    - exfalso. apply Hnot. lia. }
  intros Hne. destruct (Hcons Hne) as [Hs _]. split; [exact Hs|]. split.
  { intros Hle. rewrite enforce_within in Hfit by done. congruence. }
  intros H1 H2. rewrite enforce_retarget in Hfit by done.
  set (w2 := record w1 _) in *.
  destruct (runs_summarize_history api model (older_of cfg log) discipline
              (Some ((history_token_budget cfg) - vt)) w2)
    as (s2 & w3 & E2 & _).
  rewrite (bind_ret _ _ _ _ _ E2) in Hfit.
  destruct (runs_count_tokens api s2 w3) as (st2 & w4 & E3 & _).
  rewrite (bind_ret _ _ _ _ _ E3) in Hfit.
  exists w3. destruct ((history_token_budget cfg) <? st2 + vt).
  - rewrite (bind_ret _ _ _ _ _ (print_eq _ _)) in Hfit.
    unfold ret in Hfit. congruence.
  - unfold bind, ret in Hfit. congruence.
Qed.

(** C4, as the code has it.  For a log longer than the window, unless
    the verbatim window alone exceeds the budget (then the block lists no
    turn at all), the block is its heading followed by one entry for each
    of the last LAST_VERBATIM_TURNS turns, in the order of the log.  An
    entry shows the role capitalised and the content stripped, with its
    further lines indented; a content that is already stripped and has one
    line appears unchanged. *)
Theorem verbatim_section_lists_recent_turns
    (model : GenerativeModel) (prev : string) (log : list Turn)
    (discipline : string) (w : world S) :
  0 < LAST_VERBATIM_TURNS cfg ->
  LAST_VERBATIM_TURNS cfg < Z.of_nat (length log) ->
  exists s0 st vt w1 ctx s w',
    measure_history api model (older_of cfg log) (verbatim_of cfg log)
                    discipline w
    = (Ret (s0, st, vt), w1) /\
    manage_history_and_get_context api cfg model prev log discipline w
    = (Ret (ctx, s), w') /\
    (~ (history_token_budget cfg < st + vt /\ history_token_budget cfg < vt) ->
     ctx = join nl (heading s ++ map format_turn (verbatim_of cfg log))) /\
    Z.of_nat (length (verbatim_of cfg log)) = LAST_VERBATIM_TURNS cfg /\
    older_of cfg log ++ verbatim_of cfg log = log /\
    (forall t, strip (content t) = content t ->
               indent (content t) = content t ->
               format_turn t = plain_entry t).
Proof.
  intros HL Hlen.
  destruct (measure_history_cases api model (older_of cfg log)
              (verbatim_of cfg log) discipline w)
    as (s0 & st & vt & w1 & Em & _).
  destruct (runs_enforce_budget api cfg model (older_of cfg log)
              (verbatim_of cfg log) discipline s0 st vt w1)
    as ([s v] & w' & Ee & _).
  pose proof Ee as Ef.
  rewrite <- (fit_history_eq api cfg _ _ _ _ _ _ _ _ Em) in Ef.
  assert (Hsize : Z.of_nat (length (verbatim_of cfg log)) = LAST_VERBATIM_TURNS cfg).
  { rewrite verbatim_length by lia. lia. }
  exists s0, st, vt, w1, (format_history_for_prompt s v), s, w'.
  split; [done|]. split; [by apply manage_eq|]. split.
  { intros Hnot. destruct (enforce_verbatim api cfg _ _ _ _ _ _ _ _ _ _ _ Ee)
      as [->|(_ & H1 & H2)]; [|by destruct Hnot].
    apply format_nonempty. intros E. rewrite E in Hsize. simpl in Hsize. lia. }
  split; [done|]. split; [apply older_verbatim_partition|].
  intros t Hs Hi. unfold format_turn, plain_entry. by rewrite Hs, Hi.
Qed.

(** C6, as the code has it.  When the measured history exceeds the
    budget, the verbatim window alone fits and there are older turns, the
    manager announces the target, calls [summarize_history] on the older
    turns again with [target_tokens] set to the tokens left for a summary,
    and measures the new summary.  It returns the block built with that
    summary and the whole verbatim window, also when the total is still
    over the budget; the only difference then is one more warning line.
    When the tokens left are positive the prompt of the second call carries
    the length guidance, in words ([int(target_tokens * 0.7)]) and in
    tokens; when no token is left the prompt is the prompt of the first
    call, without guidance. *)
Theorem over_budget_summary_is_retargeted
    (model : GenerativeModel) (prev : string) (log : list Turn)
    (discipline : string) (w : world S)
    (s : string) (st vt : Z) (w1 : world S) :
  measure_history api model (older_of cfg log) (verbatim_of cfg log)
                  discipline w
  = (Ret (s, st, vt), w1) ->
  history_token_budget cfg < st + vt ->
  vt <= history_token_budget cfg ->
  older_of cfg log <> [] ->
  exists s2 st2 w2 w3 evs,
    summarize_history api model (older_of cfg log) discipline
      (Some (history_token_budget cfg - vt))
      (record w1 [Stdout (msg_over_budget cfg (st + vt));
                  Stdout (msg_targeting (history_token_budget cfg - vt))])
    = (Ret s2, w2) /\
    trace w2
    = trace w1
      ++ [Stdout (msg_over_budget cfg (st + vt));
          Stdout (msg_targeting (history_token_budget cfg - vt))]
      ++ summarizer_prelude (older_of cfg log) discipline
                            (Some (history_token_budget cfg - vt))
      ++ evs /\
    count_tokens api s2 w2 = (Ret st2, w3) /\
    manage_history_and_get_context api cfg model prev log discipline w
    = (Ret (format_history_for_prompt s2 (verbatim_of cfg log), s2),
       if history_token_budget cfg <? st2 + vt
       then record w3 [Stdout (msg_still_over cfg (st2 + vt))]
       else w3) /\
    (0 < history_token_budget cfg - vt ->
     prompt_of (older_of cfg log) discipline
               (Some (history_token_budget cfg - vt))
     = summary_prompt discipline (turns_text (older_of cfg log))
         (length_guidance_for (history_token_budget cfg - vt))) /\
    (history_token_budget cfg - vt = 0 ->
     prompt_of (older_of cfg log) discipline
               (Some (history_token_budget cfg - vt))
     = prompt_of (older_of cfg log) discipline None).
Proof.
  intros Em H1 H2 Hne.
  set (w1' := record w1 _).
  destruct (summarize_history_trace api model (older_of cfg log) discipline
              (Some (history_token_budget cfg - vt)) w1' Hne)
    as (s2 & w2 & evs & E2 & _ & Ht).
  destruct (runs_count_tokens api s2 w2) as (st2 & w3 & E3 & _).
  exists s2, st2, w2, w3, evs. split; [done|]. split.
  { rewrite Ht. subst w1'. simpl. by rewrite <- !app_assoc. }
  split; [done|]. split.
  { apply manage_eq. rewrite (fit_history_eq api cfg _ _ _ _ _ _ _ _ Em).
    rewrite enforce_retarget by done. fold w1'.
    rewrite (bind_ret _ _ _ _ _ E2), (bind_ret _ _ _ _ _ E3).
    destruct (history_token_budget cfg <? st2 + vt).
    - by rewrite (bind_ret _ _ _ _ _ (print_eq _ _)).
    - done. }
  split.
  - intros Hpos. unfold prompt_of, hinted.
    destruct (Z.eqb_spec (history_token_budget cfg - vt) 0); [lia|].
    destruct (Z.ltb_spec 0 (history_token_budget cfg - vt)); [done|lia].
  - intros ->. done.
Qed.

(** C2, as the code has it.  With a token oracle that returns consistent
    counts, the summary and the verbatim turns that go into the returned
    block measure at most the budget, with two exceptions: the hard
    overflow, where the history is replaced by the marker and no turn is
    kept, and the best-effort case, where the re-targeted summary is still
    too long and the manager returns it over budget after printing its
    last warning. *)
Theorem budget_respected_or_flagged
    (tok : string -> Z) (model : GenerativeModel) (prev : string)
    (log : list Turn) (discipline : string) (w : world S)
    (m : GenerativeModel) :
  consistent api tok ->
  model_instance w = Some m ->
  exists s v w',
    fit_history api cfg model log discipline w = (Ret (s, v), w') /\
    manage_history_and_get_context api cfg model prev log discipline w
    = (Ret (format_history_for_prompt s v, s), w') /\
    (tokens_of tok s + tokens_of tok (verbatim_turns_text v)
     <= history_token_budget cfg
     \/ (s = history_discarded /\ v = [] /\
         history_token_budget cfg
         < tokens_of tok (verbatim_turns_text (verbatim_of cfg log)))
     \/ (older_of cfg log <> [] /\ v = verbatim_of cfg log /\
         history_token_budget cfg
         < tokens_of tok s + tokens_of tok (verbatim_turns_text v) /\
         exists evs,
           trace w'
           = evs ++ [Stdout (msg_still_over cfg
                       (tokens_of tok s
                        + tokens_of tok (verbatim_turns_text v)))])).
Proof.
  intros Hc Hm.
  destruct (measure_history_consistent api tok model (older_of cfg log)
              (verbatim_of cfg log) discipline w m Hc Hm)
    as (s0 & w1 & Em & S1 & Hnil).
  set (st := tokens_of tok s0) in *.
  set (vt := tokens_of tok (verbatim_turns_text (verbatim_of cfg log))) in *.
  assert (Hgoal : exists s v w',
    enforce_budget api cfg model (older_of cfg log) (verbatim_of cfg log)
                   discipline s0 st vt w1 = (Ret (s, v), w') /\
    (tokens_of tok s + tokens_of tok (verbatim_turns_text v)
     <= history_token_budget cfg
     \/ (s = history_discarded /\ v = [] /\ history_token_budget cfg < vt)
     \/ (older_of cfg log <> [] /\ v = verbatim_of cfg log /\
         history_token_budget cfg
         < tokens_of tok s + tokens_of tok (verbatim_turns_text v) /\
         exists evs,
           trace w'
           = evs ++ [Stdout (msg_still_over cfg
                       (tokens_of tok s
                        + tokens_of tok (verbatim_turns_text v)))]))).
  { destruct (Z.le_gt_cases (st + vt) (history_token_budget cfg)) as [Hle|Hgt].
    { exists s0, (verbatim_of cfg log), w1. split; [by apply enforce_within|].
      by left. }
    destruct (Z.le_gt_cases vt (history_token_budget cfg)) as [Hfit|Hover].
    2:{ eexists _, _, _. split; [apply enforce_discard; lia|].
        right. left. split; [done|]. split; [done|]. lia. }
    assert (Hne : older_of cfg log <> []).
    { intros Ho. specialize (Hnil Ho). subst s0. subst st. simpl in Hgt.
      unfold tokens_of in Hgt. simpl in Hgt. lia. }
    rewrite enforce_retarget by (done || lia).
    set (w1' := record w1 _).
    destruct (runs_summarize_history api model (older_of cfg log) discipline
                (Some (history_token_budget cfg - vt)) w1')
      as (s2 & w2 & E2 & S2).
    assert (Hm2 : model_instance w2 = Some m).
    { destruct S1 as [Ha _]. destruct S2 as [Hb _]. subst w1'. simpl in Hb.
      congruence. }
    destruct (count_tokens_consistent api tok s2 w2 m Hc Hm2) as (w3 & E3 & _).
    rewrite (bind_ret _ _ _ _ _ E2), (bind_ret _ _ _ _ _ E3).
    destruct (Z.ltb_spec (history_token_budget cfg) (tokens_of tok s2 + vt)).
    - rewrite (bind_ret _ _ _ _ _ (print_eq _ _)).
      eexists _, _, _. split; [done|]. right. right.
      split; [done|]. split; [done|]. split; [done|]. by eexists.
    - eexists _, _, _. split; [done|]. by left. }
  destruct Hgoal as (s & v & w' & Ee & Hcases).
  rewrite <- (fit_history_eq api cfg _ _ _ _ _ _ _ _ Em) in Ee.
  exists s, v, w'. split; [done|]. split; [by apply manage_eq|]. exact Hcases.
Qed.

End Claims.

(** What start-up does, by the key and the answers of the client. *)
Lemma configure_gemini_outcome {S : Type} (api : GenAI S) (cfg : Config)
    (w : world S) :
  match API_KEY cfg with
  | None | Some EmptyString =>
      exists w', configure_gemini api cfg w = (SystemExit 1, w')
  | Some key =>
      (a_client_call_raises api key (MODEL_NAME cfg) (remote w) /\
       exists w', configure_gemini api cfg w = (SystemExit 1, w')) \/
      (~ a_client_call_raises api key (MODEL_NAME cfg) (remote w) /\
       exists m w',
         configure_gemini api cfg w = (Ret m, w') /\
         model_instance w' = Some m)
  end.
Proof.
  unfold configure_gemini.
  destruct (API_KEY cfg) as [[|c k]|];
    [unfold bind; rewrite eprint_eq; by eexists|
    |unfold bind; rewrite eprint_eq; by eexists].
  cbv [try_except bind call set_model_instance print eprint emit ret sys_exit].
  cbn [remote model_instance trace].
  destruct (genai_configure api (String c k) (remote w)) as [[[]|e] s1] eqn:E1.
  2:{ left. split; [left; by exists e, s1|].
      destruct (is_PermissionDenied e); [by eexists|].
      destruct (is_GoogleAPIError e); by eexists. }
  cbn [remote model_instance trace].
  destruct (genai_GenerativeModel api (MODEL_NAME cfg) s1) as [[m|e] s2] eqn:E2.
  2:{ left. split; [right; left; by exists s1, e, s2|].
      destruct (is_PermissionDenied e); [by eexists|].
      destruct (is_GoogleAPIError e); by eexists. }
  cbn [remote model_instance trace].
  destruct (genai_count_tokens api m "test" s2) as [[n|e] s3] eqn:E3.
  2:{ left. split; [right; right; by exists s1, m, s2, e, s3|].
      destruct (is_PermissionDenied e); [by eexists|].
      destruct (is_GoogleAPIError e); by eexists. }
  right. split; [|by eexists _, _].
  intros [(e & s1' & H1)|[(s1' & e & s2' & H1 & H2)
                         |(s1' & m' & s2' & e & s3' & H1 & H2 & H3)]].
  - congruence.
  - assert (s1' = s1) by congruence. subst s1'. congruence.
  - assert (s1' = s1) by congruence. subst s1'.
    assert (m' = m /\ s2' = s2) as [-> ->] by (split; congruence).
    congruence.
Qed.

(** C9, as the code has it.  The program makes no check of the history
    budget against the reserved overhead, at start-up or at a request.
    [configure_gemini] gives the same outcome for any two configurations
    with the same key and model name, whatever their window, ratio,
    verbatim count and overhead.  It exits, with status 1, exactly when
    the key is missing or empty or one of its calls to the client raises;
    in every other state it returns the model and installs it.  The
    manager gives the same result whatever the reserved overhead is, and
    it returns from every state and for every configuration. *)
Theorem startup_ignores_budget
    {S : Type} (api : GenAI S) (key : option string) (name : string)
    (window window' : Z) (ratio ratio' : PyFloat.t)
    (turns turns' overhead overhead' : Z) :
  configure_gemini api (mkConfig key name window ratio turns overhead)
  = configure_gemini api (mkConfig key name window' ratio' turns' overhead') /\
  (forall w,
     (exists m w',
        configure_gemini api (mkConfig key name window ratio turns overhead) w
        = (Ret m, w') /\ model_instance w' = Some m) \/
     (exists w',
        configure_gemini api (mkConfig key name window ratio turns overhead) w
        = (SystemExit 1, w'))) /\
  (forall w,
     (exists w',
        configure_gemini api (mkConfig key name window ratio turns overhead) w
        = (SystemExit 1, w'))
     <-> (key = None \/ key = Some "" \/
          exists k, key = Some k /\
                    a_client_call_raises api k name (remote w))) /\
  manage_history_and_get_context api
    (mkConfig key name window ratio turns overhead)
  = manage_history_and_get_context api
      (mkConfig key name window ratio turns overhead') /\
  (forall model prev log discipline w,
     exists r w',
       manage_history_and_get_context api
         (mkConfig key name window ratio turns overhead)
         model prev log discipline w
       = (Ret r, w')).
Proof.
  split; [done|].
  assert (Hout := fun w => configure_gemini_outcome api
                    (mkConfig key name window ratio turns overhead) w).
  cbn [API_KEY MODEL_NAME] in Hout.
  split; [|split; [|split; [done|]]].
  - intros w. specialize (Hout w).
    destruct key as [[|c k]|]; [by right| |by right].
    destruct Hout as [[_ Hexit]|[_ Hret]]; [by right|by left].
  - intros w. specialize (Hout w).
    destruct key as [[|c k]|].
    + split; [intros _; right; by left|intros _; exact Hout].
    + destruct Hout as [[Hraise Hexit]|[Hnot (m & w' & E & _)]].
      * split; [intros _|intros _; exact Hexit].
        right. right. by exists (String c k).
      * split.
        -- intros (w'' & E'). rewrite E in E'. discriminate E'.
        -- intros [Hk|[Hk|(k' & Hk & Hraise)]]; [discriminate Hk..|].
           injection Hk as <-. by destruct Hnot.
    + split; [intros _; by left|intros _; exact Hout].
  - intros model prev log discipline w.
    destruct (runs_manage api (mkConfig key name window ratio turns overhead)
                model prev log discipline w) as (r & w' & E & _).
    by exists r, w'.
Qed.

(** ** The program at work *)

(** The budget of the source's constants, [int(32000 * 0.80)]. *)
Example default_budget : history_token_budget default_config = 25600.
Proof. reflexivity. Qed.

(** [int(5600 * 0.7)] is 3919, one below the exact product: binary64
    [0.7] lies below seven tenths. *)
Example estimated_words_5600 : estimated_words 5600 = 3919.
Proof. reflexivity. Qed.

Example estimated_words_10 : estimated_words 10 = 7.
Proof. reflexivity. Qed.

(** Two turns within the window: no summary, both turns listed, the
    second stripped and indented. *)
Example two_turns_block :
  fst (manage_history_and_get_context (scripted count_len) default_config
         gemini "" log2_multiline "Physics" (ready []))
  = Ret (join nl [ "Conversation History (Recent Turns Only):";
                   "- User:"; "  why?";
                   "- Assistant:"; "  line one"; "  line two" ],
         "").
Proof. reflexivity. Qed.

(** Facts about the scripted clients, for the runs below. *)
Lemma scripted_counts_nonneg (n : Z) :
  0 <= n -> counts_nonneg (scripted (count_const n)).
Proof. intros Hn m txt s k s' [= <- _]. exact Hn. Defined.

Lemma scripted_consistent (n : Z) :
  consistent (scripted (count_const n)) (fun _ => n).
Proof. intros m txt s. by exists s. Defined.

(** *** C7: a run *)

Lemma count_tokens_never_fails_witness :
  counts_nonneg (scripted count_heavy) /\
  exists n w',
    count_tokens (scripted count_heavy) "hello" (ready []) = (Ret n, w') /\
    0 <= n.
Proof.
  assert (H : counts_nonneg (scripted count_heavy)).
  { apply scripted_counts_nonneg. lia. }
  split; [exact H|].
  destruct (count_tokens_never_fails (scripted count_heavy) default_config
              "hello" (ready []) H) as (n & w' & E & Hn & _).
  exists n, w'. split; [exact E|exact Hn].
Defined.

(** *** C8: a run with a summarizer that raises *)


(** *** C1: where the specification fails, and a run of the statement above *)

(** One turn that measures 30000 tokens against a budget of 25600: the
    verbatim window alone is over budget.  The manager returns the marker
    as the summary and a block with a summary section, not the empty
    summary and not the block of an empty history. *)
Lemma hard_overflow_summary_not_empty :
  let api := scripted count_huge in
  let run := manage_history_and_get_context api default_config gemini ""
               log1 "Physics" (ready []) in
  fst (count_tokens api (verbatim_turns_text (verbatim_of default_config log1))
                    (ready []))
  = Ret 30000 /\
  history_token_budget default_config - 30000 < 0 /\
  fst run = Ret (discarded_block, history_discarded) /\
  history_discarded <> "" /\
  discarded_block <> no_history_block /\
  ~ (exists w', run = (Ret (format_history_for_prompt "" [], ""), w')).
Proof.
  split; [reflexivity|]. split; [reflexivity|]. split; [reflexivity|].
  split; [discriminate|]. split; [discriminate|].
  intros [w' H]. vm_compute in H. discriminate H.
Qed.

Lemma hard_overflow_discards_history_witness :
  counts_nonneg (scripted count_huge) /\
  fst (manage_history_and_get_context (scripted count_huge) default_config
         gemini "" log1 "Physics" (ready []))
  = Ret (discarded_block, history_discarded).
Proof.
  assert (H : counts_nonneg (scripted count_huge)).
  { apply scripted_counts_nonneg. lia. }
  split; [exact H|].
  destruct (hard_overflow_discards_history (scripted count_huge) default_config
              gemini "" log1 "Physics" (ready []) H)
    as (s & st & vt & w1 & Em & Hm).
  vm_compute in Em. injection Em as <- <- <- <-.
  rewrite Hm; [reflexivity|]. reflexivity.
Defined.

(** *** C2: where the specification fails, and a run of the statement above *)

(** Eleven turns, every text measuring 20000 tokens (a consistent
    oracle).  The first summary and the window make 40000 tokens; the
    window alone fits, so the summary is re-targeted; the second summary
    measures 20000 again and is returned with the window: 40000 tokens
    against a budget of 25600, and nothing was discarded. *)
Lemma best_effort_exceeds_budget :
  let api := scripted count_heavy in
  let tok := fun _ : string => 20000 in
  let window := verbatim_of default_config log11 in
  let run := manage_history_and_get_context api default_config gemini ""
               log11 "Physics" (ready [reply "S one"; reply " S two "]) in
  consistent api tok /\
  fst run = Ret (format_history_for_prompt "S two" window, "S two") /\
  length window = 10%nat /\
  tokens_of tok "S two" + tokens_of tok (verbatim_turns_text window) = 40000 /\
  history_token_budget default_config = 25600.
Proof.
  split; [apply scripted_consistent|]. by vm_compute.
Qed.

Lemma budget_respected_or_flagged_witness :
  consistent (scripted count_heavy) (fun _ => 20000) /\
  model_instance (ready [reply "S one"; reply " S two "]) = Some gemini /\
  exists s v w',
    fit_history (scripted count_heavy) default_config gemini log11 "Physics"
                (ready [reply "S one"; reply " S two "])
    = (Ret (s, v), w') /\
    manage_history_and_get_context (scripted count_heavy) default_config
      gemini "" log11 "Physics" (ready [reply "S one"; reply " S two "])
    = (Ret (format_history_for_prompt s v, s), w').
Proof.
  split; [apply scripted_consistent|]. split; [reflexivity|].
  destruct (budget_respected_or_flagged (scripted count_heavy) default_config
              (fun _ => 20000) gemini "" log11 "Physics"
              (ready [reply "S one"; reply " S two "]) gemini
              (scripted_consistent 20000) eq_refl)
    as (s & v & w' & Ef & Em & _).
  exists s, v, w'. split; [exact Ef|exact Em].
Defined.

(** *** C4: where the specification fails, and a run of the statement above *)

(** Eleven turns, every text measuring 30000 tokens.  The log is longer
    than the window of 10, yet the returned block lists none of the last
    ten turns: the content of none of them occurs in it. *)
Lemma discarded_block_lists_no_turn :
  let run := manage_history_and_get_context (scripted count_huge)
               default_config gemini "" log11 "Physics"
               (ready [reply "S one"]) in
  (LAST_VERBATIM_TURNS default_config < Z.of_nat (length log11)) /\
  fst run = Ret (discarded_block, history_discarded) /\
  forallb (fun t => negb (contains (content t) discarded_block))
          (verbatim_of default_config log11) = true /\
  forallb (fun t => negb (contains (plain_entry t) discarded_block))
          (verbatim_of default_config log11) = true.
Proof. by vm_compute. Qed.

Lemma verbatim_section_lists_recent_turns_witness :
  0 < LAST_VERBATIM_TURNS default_config /\
  LAST_VERBATIM_TURNS default_config < Z.of_nat (length log11) /\
  exists ctx s w',
    manage_history_and_get_context (scripted count_len) default_config
      gemini "" log11 "Physics" (ready [reply "S one"])
    = (Ret (ctx, s), w') /\
    Z.of_nat (length (verbatim_of default_config log11))
    = LAST_VERBATIM_TURNS default_config.
Proof.
  assert (H1 : 0 < LAST_VERBATIM_TURNS default_config) by (simpl; lia).
  assert (H2 : LAST_VERBATIM_TURNS default_config < Z.of_nat (length log11))
    by (simpl; lia).
  split; [exact H1|]. split; [exact H2|].
  destruct (verbatim_section_lists_recent_turns (scripted count_len)
              default_config gemini "" log11 "Physics"
              (ready [reply "S one"]) H1 H2)
    as (s0 & st & vt & w1 & ctx & s & w' & _ & Em & _ & Hl & _).
  exists ctx, s, w'. split; [exact Em|exact Hl].
Defined.

(** *** C5: where the specification fails *)

(** Two turns, so no older turn, every text measuring 30000 tokens: the
    summary returned is the marker, not the empty text. *)
Lemma no_older_turns_yet_marker :
  let run := manage_history_and_get_context (scripted count_huge)
               default_config gemini "" log2_multiline "Physics" (ready []) in
  older_of default_config log2_multiline = [] /\
  snd <$> (match fst run with Ret r => Some r | _ => None end)
  = Some history_discarded /\
  history_discarded <> "".
Proof. split; [reflexivity|]. split; [reflexivity|discriminate]. Qed.

(** *** C6: where the specification fails, and a run of the statement above *)

(** Eleven turns; the window measures the whole budget, 25600 tokens, and
    the summary 7.  The total is over budget, the tokens left for a
    summary are 0 (not negative) and fewer than the summary's 7, and there
    is an older turn.  The summarizer is called a second time, with the
    same prompt as the first time: it carries no length guidance. *)
Lemma retarget_to_zero_gives_no_hint :
  let api := scripted count_exact in
  let w := ready [reply "S one"; reply " S two "] in
  let older := older_of default_config log11 in
  let run := manage_history_and_get_context api default_config gemini ""
               log11 "Physics" w in
  fst (measure_history api gemini older (verbatim_of default_config log11)
                       "Physics" w)
  = Ret ("S one", 7, 25600) /\
  history_token_budget default_config = 25600 /\
  older <> [] /\
  prompts_sent (trace (snd run))
  = [prompt_of older "Physics" None; prompt_of older "Physics" None] /\
  contains "Aim for a concise summary" (prompt_of older "Physics" None) = false /\
  contains "words" (prompt_of older "Physics" None) = false.
Proof.
  split; [reflexivity|]. split; [reflexivity|]. split; [discriminate|].
  split; [reflexivity|]. split; reflexivity.
Qed.

Lemma over_budget_summary_is_retargeted_witness :
  let api := scripted count_heavy in
  let w := ready [reply "S one"; reply " S two "] in
  let w1 := snd (measure_history api gemini (older_of default_config log11)
                   (verbatim_of default_config log11) "Physics" w) in
  measure_history api gemini (older_of default_config log11)
    (verbatim_of default_config log11) "Physics" w
  = (Ret ("S one", 20000, 20000), w1) /\
  history_token_budget default_config < 20000 + 20000 /\
  20000 <= history_token_budget default_config /\
  older_of default_config log11 <> [] /\
  exists w',
    manage_history_and_get_context api default_config gemini "" log11
      "Physics" w
    = (Ret (format_history_for_prompt "S two"
              (verbatim_of default_config log11), "S two"), w') /\
    prompts_sent (trace w')
    = [prompt_of (older_of default_config log11) "Physics" None;
       summary_prompt "Physics" (turns_text (older_of default_config log11))
         (length_guidance_for 5600)].
Proof.
  intros api w w1.
  assert (H0 : measure_history api gemini (older_of default_config log11)
                 (verbatim_of default_config log11) "Physics" w
               = (Ret ("S one", 20000, 20000), w1)) by reflexivity.
  assert (H1 : history_token_budget default_config < 20000 + 20000)
    by reflexivity.
  assert (H2 : 20000 <= history_token_budget default_config)
    by (by vm_compute).
  assert (H3 : older_of default_config log11 <> []) by discriminate.
  split; [exact H0|]. split; [exact H1|]. split; [exact H2|].
  split; [exact H3|].
  destruct (over_budget_summary_is_retargeted api default_config gemini ""
              log11 "Physics" w "S one" 20000 20000 w1 H0 H1 H2 H3)
    as (s2 & st2 & w2 & w3 & evs & E2 & _ & E3 & Em & _).
  vm_compute in E2. injection E2 as <- <-.
  vm_compute in E3. injection E3 as <- <-.
  eexists. split; [exact Em|]. by vm_compute.
Defined.

(** *** C9: where the specification fails *)

(** A window of 400 tokens gives a history budget of 320, below the
    reserved overhead of 500.  Start-up succeeds all the same, and so does
    a request. *)
Lemma startup_accepts_budget_below_overhead :
  history_token_budget tight_config = 320 /\
  PROMPT_OVERHEAD_ESTIMATE tight_config = 500 /\
  fst (configure_gemini (scripted count_len) tight_config (fresh []))
  = Ret gemini /\
  fst (manage_history_and_get_context (scripted count_len) tight_config
         gemini "" log1 "Physics" (ready []))
  = Ret (join nl ["Conversation History (Recent Turns Only):";
                  "- User:"; "  hello"], "").
Proof. by vm_compute. Qed.

(** * Further properties of the program *)

Section MoreFacts.

Context {S : Type} (api : GenAI S) (cfg : Config).

Lemma prompts_sent_app (a b : list event) :
  prompts_sent (a ++ b) = prompts_sent a ++ prompts_sent b.
Proof. unfold prompts_sent. apply flat_map_app. Qed.

Lemma token_calls_app (a b : list event) :
  token_calls (a ++ b) = token_calls a ++ token_calls b.
Proof. unfold token_calls. apply flat_map_app. Qed.

(** What a run adds to the trace. *)
Lemma count_tokens_events txt (w : world S) :
  exists n w' evs,
    count_tokens api txt w = (Ret n, w') /\
    model_instance w' = model_instance w /\
    trace w' = trace w ++ evs /\
    prompts_sent evs = [] /\
    ((txt = "" \/ model_instance w = None) ->
       remote w' = remote w /\ token_calls evs = []) /\
    (txt <> "" -> model_instance w <> None -> token_calls evs = [txt]) /\
    (txt = "" -> model_instance w <> None -> w' = w).
Proof.
  unfold count_tokens, bind, get_model_instance.
  destruct (model_instance w) as [m|] eqn:Hm.
  - destruct txt as [|c txt']; simpl.
    { exists 0, w, []. rewrite app_nil_r. by repeat split. }
    unfold try_except, call.
    destruct (genai_count_tokens api m (String c txt') (remote w))
      as [[n|e] s'] eqn:Hc.
    + eexists n, _, _. split; [done|]. split; [done|]. split; [done|].
      split; [done|]. split; [intros [|]; done|]. by repeat split.
    + destruct (is_GoogleAPIError e);
        (eexists 0, _, _; split; [done|]; split; [done|]; split;
         [simpl; rewrite <- app_assoc; done|];
         split; [done|]; split; [intros [|]; done|]; by repeat split).
  - rewrite eprint_eq. eexists 0, _, _. split; [done|]. split; [done|].
    split; [done|]. split; [done|]. split; [done|]. by split.
Qed.

Lemma request_summary_events model prompt (w : world S) :
  exists p w' evs,
    request_summary api model prompt w = (Ret p, w') /\
    model_instance w' = model_instance w /\
    trace w' = trace w ++ evs /\
    prompts_sent evs = [prompt].
Proof.
  unfold request_summary, try_except. unfold bind at 1. unfold call.
  destruct (genai_generate_content api model prompt (remote w)) as [[r|e] s'].
  - destruct (unusable r).
    + unfold bind. rewrite eprint_eq. eexists _, _, _. split; [done|].
      split; [done|]. simpl. rewrite <- app_assoc. done.
    + unfold bind at 1. unfold access. destruct (text r) as [t|e].
      * set (w1 := mkWorld s' _ _).
        destruct (count_tokens_events (strip t) w1)
          as (n & w2 & evs & E & Hm & He & Hp & _).
        rewrite (bind_ret _ _ _ _ _ E). unfold bind. rewrite print_eq.
        eexists _, _, (CallGenerateContent prompt :: evs ++ [_]).
        split; [done|]. split; [done|]. split.
        { simpl. rewrite He. subst w1; simpl. by rewrite <- !app_assoc. }
        simpl. rewrite prompts_sent_app, Hp. done.
      * destruct (is_GoogleAPIError e); unfold bind; rewrite eprint_eq;
          eexists _, _, _; (split; [done|]); (split; [done|]);
          simpl; rewrite <- app_assoc; done.
  - destruct (is_GoogleAPIError e); unfold bind; rewrite eprint_eq;
      eexists _, _, _; (split; [done|]); (split; [done|]);
      simpl; rewrite <- app_assoc; done.
Qed.

Lemma summarize_history_events model turns discipline target (w : world S) :
  exists p w' evs,
    summarize_history api model turns discipline target w = (Ret p, w') /\
    model_instance w' = model_instance w /\
    trace w' = trace w ++ evs /\
    prompts_sent evs
    = match turns with
      | [] => []
      | _ :: _ => [prompt_of turns discipline target]
      end.
Proof.
  destruct turns as [|t turns].
  { exists "", w, []. rewrite app_nil_r. by repeat split. }
  rewrite summarize_history_eq by done.
  destruct (request_summary_events model
              (prompt_of (t :: turns) discipline target)
              (record w (summarizer_prints (t :: turns) target)))
    as (p & w' & evs & E & Hm & Ht & Hp).
  exists p, w', (summarizer_prints (t :: turns) target ++ evs).
  split; [done|]. split; [done|]. split.
  { rewrite Ht. simpl. by rewrite <- !app_assoc. }
  rewrite prompts_sent_app, Hp. unfold summarizer_prints.
  destruct (hinted target); done.
Qed.

Lemma measure_history_events model older verbatim discipline (w : world S) :
  exists s st vt w1 evs,
    measure_history api model older verbatim discipline w
    = (Ret (s, st, vt), w1) /\
    model_instance w1 = model_instance w /\
    trace w1 = trace w ++ evs /\
    prompts_sent evs
    = match older with
      | [] => []
      | _ :: _ => [prompt_of older discipline None]
      end /\
    (older = [] -> s = "" /\ st = 0).
Proof.
  unfold measure_history.
  assert (Hs : exists s ws evs,
    match older with
    | _ :: _ => summarize_history api model older discipline None
    | [] => ret ""
    end w = (Ret s, ws) /\ model_instance ws = model_instance w /\
    trace ws = trace w ++ evs /\
    prompts_sent evs = match older with
                       | [] => []
                       | _ :: _ => [prompt_of older discipline None]
                       end /\
    (older = [] -> s = "")).
  { destruct older as [|t older'].
    - exists "", w, []. rewrite app_nil_r. by repeat split.
    - destruct (summarize_history_events model (t :: older') discipline None w)
        as (p & ws & evs & E & Hm & Ht & Hp).
      exists p, ws, evs. split; [done|]. split; [done|]. split; [done|].
      split; [done|]. intros [=]. }
  destruct Hs as (s & ws & e1 & Es & Hm1 & Ht1 & Hp1 & Hnil).
  destruct (count_tokens_events s ws)
    as (st & w2 & e2 & E2 & Hm2 & Ht2 & Hp2 & _).
  destruct (count_tokens_cases api s ws) as (st' & w2' & E2' & _ & _ & He & _).
  assert (st' = st) by congruence. subst st'.
  destruct (count_tokens_events (verbatim_turns_text verbatim) w2)
    as (vt & w3 & e3 & E3 & Hm3 & Ht3 & Hp3 & _).
  exists s, st, vt, w3, (e1 ++ e2 ++ e3).
  rewrite (bind_ret _ _ _ _ _ Es), (bind_ret _ _ _ _ _ E2), (bind_ret _ _ _ _ _ E3).
  split; [done|]. split; [congruence|]. split.
  { rewrite Ht3, Ht2, Ht1. by rewrite <- !app_assoc. }
  split.
  { rewrite !prompts_sent_app, Hp1, Hp2, Hp3. by rewrite !app_nil_r. }
  intros Ho. split; [auto|]. apply He. auto.
Qed.

Lemma enforce_budget_events model older verbatim discipline s st vt (w : world S) :
  exists r w' evs,
    enforce_budget api cfg model older verbatim discipline s st vt w
    = (Ret r, w') /\
    trace w' = trace w ++ evs /\
    ((~ (older <> [] /\ history_token_budget cfg < st + vt /\
         vt <= history_token_budget cfg) /\
      prompts_sent evs = []) \/
     (older <> [] /\ history_token_budget cfg < st + vt /\
      vt <= history_token_budget cfg /\
      prompts_sent evs
      = [prompt_of older discipline (Some (history_token_budget cfg - vt))])).
Proof.
  destruct (Z.le_gt_cases (st + vt) (history_token_budget cfg)) as [Hle|Hgt].
  { rewrite enforce_within by done. eexists _, w, []. rewrite app_nil_r.
    split; [done|]. split; [done|]. left. split; [|done].
    intros (_ & Hlt & _). lia. }
  destruct (Z.le_gt_cases vt (history_token_budget cfg)) as [Hfit|Hover].
  2:{ rewrite enforce_discard by lia. eexists _, _, _. split; [done|].
      split; [done|]. left. split; [|done]. intros (_ & _ & Hlt). lia. }
  destruct older as [|t older'].
  - unfold enforce_budget.
    destruct (Z.ltb_spec (history_token_budget cfg) (st + vt)); [|lia].
    rewrite (bind_ret _ _ _ _ _ (print_eq _ w)).
    destruct (Z.ltb_spec (history_token_budget cfg - vt) 0); [lia|].
    rewrite andb_false_r. eexists _, _, _. split; [done|]. split; [done|].
    left. split; [|done]. by intros (Hne & _).
  - rewrite enforce_retarget by (done || lia).
    set (w0 := record w _).
    destruct (summarize_history_events model (t :: older') discipline
                (Some (history_token_budget cfg - vt)) w0)
      as (s2 & w2 & e2 & E2 & _ & Ht2 & Hp2).
    destruct (count_tokens_events s2 w2)
      as (st2 & w3 & e3 & E3 & _ & Ht3 & Hp3 & _).
    rewrite (bind_ret _ _ _ _ _ E2), (bind_ret _ _ _ _ _ E3).
    set (pre := [Stdout (msg_over_budget cfg (st + vt));
                 Stdout (msg_targeting (history_token_budget cfg - vt))]) in *.
    assert (Hpre : prompts_sent pre = []) by done.
    assert (Ht : trace w3 = trace w ++ pre ++ e2 ++ e3).
    { rewrite Ht3, Ht2. subst w0. simpl. by rewrite <- !app_assoc. }
    destruct (history_token_budget cfg <? st2 + vt).
    + rewrite (bind_ret _ _ _ _ _ (print_eq _ _)).
      exists (s2, verbatim), (record w3 [Stdout (msg_still_over cfg (st2 + vt))]),
             (pre ++ e2 ++ e3 ++ [Stdout (msg_still_over cfg (st2 + vt))]).
      split; [done|]. split.
      { simpl. rewrite Ht. by rewrite <- !app_assoc. }
      right. split; [done|]. split; [lia|]. split; [done|].
      rewrite !prompts_sent_app, Hpre, Hp2, Hp3. done.
    + exists (s2, verbatim), w3, (pre ++ e2 ++ e3).
      split; [done|]. split; [exact Ht|].
      right. split; [done|]. split; [lia|]. split; [done|].
      rewrite !prompts_sent_app, Hpre, Hp2, Hp3. by rewrite app_nil_r.
Qed.

Lemma short_log_partition (log : list Turn) :
  Z.of_nat (length log) <= LAST_VERBATIM_TURNS cfg ->
  older_of cfg log = [] /\ verbatim_of cfg log = log.
Proof.
  intros H. unfold older_of, verbatim_of, verbatim_cutoff.
  replace (Z.max 0 (Z.of_nat (length log) - LAST_VERBATIM_TURNS cfg)) with 0
    by lia.
  done.
Qed.

End MoreFacts.

Section MoreProperties.

Context {S : Type} (api : GenAI S) (cfg : Config).

(** X1.  A log that fits the verbatim window is never summarized: the
    manager makes no call to the model, and unless the rendered log alone
    measures more than the budget it returns the empty summary and a
    block that lists every turn of the log, in order. *)
Theorem short_log_is_kept_whole
    (model : GenerativeModel) (prev : string) (log : list Turn)
    (discipline : string) (w : world S) :
  Z.of_nat (length log) <= LAST_VERBATIM_TURNS cfg ->
  exists vt w1 ctx s w' evs,
    measure_history api model [] log discipline w = (Ret ("", 0, vt), w1) /\
    manage_history_and_get_context api cfg model prev log discipline w
    = (Ret (ctx, s), w') /\
    trace w' = trace w ++ evs /\
    prompts_sent evs = [] /\
    (vt <= history_token_budget cfg ->
     s = "" /\
     ctx = format_history_for_prompt "" log /\
     (log <> [] ->
      ctx = join nl ("Conversation History (Recent Turns Only):"
                       :: map format_turn log))) /\
    (history_token_budget cfg < vt -> s = history_discarded).
Proof.
  intros Hlen. destruct (short_log_partition cfg log Hlen) as [Ho Hv].
  destruct (measure_history_events api model [] log discipline w)
    as (s0 & st & vt & w1 & e1 & Em & _ & Ht1 & Hp1 & Hnil).
  destruct (Hnil eq_refl) as [-> ->].
  destruct (enforce_budget_events api cfg model [] log discipline "" 0 vt w1)
    as ([s v] & w' & e2 & Ee & Ht2 & Hp2).
  assert (Ef : fit_history api cfg model log discipline w = (Ret (s, v), w')).
  { rewrite (fit_history_eq api cfg model log discipline w "" 0 vt w1);
      rewrite Ho, Hv; done. }
  exists vt, w1, (format_history_for_prompt s v), s, w', (e1 ++ e2).
  split; [done|]. split; [by apply (manage_eq api cfg)|]. split.
  { rewrite Ht2, Ht1. by rewrite <- app_assoc. }
  split.
  { rewrite prompts_sent_app, Hp1. destruct Hp2 as [[_ ->]|(Hne & _)]; done. }
  split.
  - intros Hfit. rewrite enforce_within in Ee by lia.
    injection Ee as <- <- <-. split; [done|]. split; [done|].
    intros Hne. by rewrite format_nonempty.
  - intros Hover. rewrite enforce_discard in Ee by lia. congruence.
Qed.

(** X2.  The only prompts the manager sends to the model are
    summarization prompts over the older turns.  With no older turn it
    sends none.  With older turns it sends the plain prompt, and after it
    one re-targeted prompt exactly when the measured total exceeds the
    budget while the measured verbatim tokens alone do not; the target of
    that prompt is the budget less the verbatim tokens as measured. *)
Theorem manager_sends_only_summary_prompts
    (model : GenerativeModel) (prev : string) (log : list Turn)
    (discipline : string) (w : world S) :
  exists s0 st vt w1 r w' evs,
    measure_history api model (older_of cfg log) (verbatim_of cfg log)
                    discipline w
    = (Ret (s0, st, vt), w1) /\
    manage_history_and_get_context api cfg model prev log discipline w
    = (Ret r, w') /\
    trace w' = trace w ++ evs /\
    (older_of cfg log = [] -> prompts_sent evs = []) /\
    (older_of cfg log <> [] ->
     (~ (history_token_budget cfg < st + vt /\ vt <= history_token_budget cfg) ->
      prompts_sent evs = [prompt_of (older_of cfg log) discipline None]) /\
     (history_token_budget cfg < st + vt -> vt <= history_token_budget cfg ->
      prompts_sent evs
      = [prompt_of (older_of cfg log) discipline None;
         prompt_of (older_of cfg log) discipline
                   (Some (history_token_budget cfg - vt))])).
Proof.
  destruct (measure_history_events api model (older_of cfg log)
              (verbatim_of cfg log) discipline w)
    as (s0 & st & vt & w1 & e1 & Em & _ & Ht1 & Hp1 & _).
  destruct (enforce_budget_events api cfg model (older_of cfg log)
              (verbatim_of cfg log) discipline s0 st vt w1)
    as ([s v] & w' & e2 & Ee & Ht2 & Hp2).
  rewrite <- (fit_history_eq api cfg _ _ _ _ _ _ _ _ Em) in Ee.
  exists s0, st, vt, w1, (format_history_for_prompt s v, s), w', (e1 ++ e2).
  split; [exact Em|].
  split; [by apply (manage_eq api cfg)|]. split.
  { rewrite Ht2, Ht1. by rewrite <- app_assoc. }
  rewrite prompts_sent_app, Hp1. split.
  - intros Ho. rewrite Ho in *. destruct Hp2 as [[_ ->]|(Hne & _)]; done.
  - intros Hne. destruct (older_of cfg log) as [|t o] eqn:Eo; [done|]. split.
    + intros Hnot. destruct Hp2 as [[_ ->]|(_ & H1 & H2 & _)]; [done|].
      destruct Hnot. by split.
    + intros H1 H2. destruct Hp2 as [[Hnot _]|(_ & _ & _ & ->)]; [|done].
      destruct Hnot. by repeat split.
Qed.

(** X3.  [count_tokens] calls the oracle only for a text that is not
    empty and with a configured model, and then once, with that text.
    For the empty text it changes nothing; without a model it leaves the
    oracle alone.  It never calls [generate_content]. *)
Theorem count_tokens_calls_oracle_at_most_once (txt : string) (w : world S) :
  exists n w' evs,
    count_tokens api txt w = (Ret n, w') /\
    trace w' = trace w ++ evs /\
    prompts_sent evs = [] /\
    ((txt = "" \/ model_instance w = None) ->
       remote w' = remote w /\ token_calls evs = []) /\
    (txt <> "" -> model_instance w <> None -> token_calls evs = [txt]) /\
    (txt = "" -> model_instance w <> None -> w' = w).
Proof.
  destruct (count_tokens_events api txt w)
    as (n & w' & evs & E & _ & Ht & Hp & H1 & H2 & H3).
  by exists n, w', evs.
Qed.

(** X4.  With a token oracle that returns consistent counts, none of
    them negative, which turns the manager keeps verbatim depends on the
    log alone, not on what the summarizer answers nor on the state the
    call starts from: the whole window when its rendering measures at
    most the budget, no turn otherwise. *)
Theorem verbatim_choice_is_stable
    (tok : string -> Z) (model : GenerativeModel) (log : list Turn)
    (discipline : string) (w : world S) (m : GenerativeModel) :
  consistent api tok ->
  (forall t, 0 <= tok t) ->
  model_instance w = Some m ->
  exists s w',
    fit_history api cfg model log discipline w
    = (Ret (s,
            if history_token_budget cfg
               <? tokens_of tok (verbatim_turns_text (verbatim_of cfg log))
            then [] else verbatim_of cfg log),
       w').
Proof.
  intros Hc Hnn Hm.
  destruct (measure_history_consistent api tok model (older_of cfg log)
              (verbatim_of cfg log) discipline w m Hc Hm)
    as (s0 & w1 & Em & _ & _).
  rewrite (fit_history_eq api cfg _ _ _ _ _ _ _ _ Em).
  assert (Hst : 0 <= tokens_of tok s0).
  { unfold tokens_of. destruct (truthy s0); [apply Hnn|lia]. }
  destruct (Z.ltb_spec (history_token_budget cfg)
              (tokens_of tok (verbatim_turns_text (verbatim_of cfg log))))
    as [Hover|Hfit].
  - rewrite enforce_discard by lia. by eexists _, _.
  - destruct (runs_enforce_budget api cfg model (older_of cfg log)
                (verbatim_of cfg log) discipline s0 (tokens_of tok s0)
                (tokens_of tok (verbatim_turns_text (verbatim_of cfg log))) w1)
      as ([s v] & w' & Ee & _).
    destruct (enforce_verbatim api cfg _ _ _ _ _ _ _ _ _ _ _ Ee)
      as [->|(_ & _ & Hbad)]; [|lia].
    by exists s, w'.
Qed.

(** X5.  When [configure_gemini] returns a model, the key was present,
    the client was configured, the model created and token counting tried
    once on "test", in that order, and the global model is the one
    returned; [count_tokens] on a non-empty text then goes to the
    oracle. *)
Theorem configure_gemini_installs_model
    (w : world S) (m : GenerativeModel) (w' : world S) :
  configure_gemini api cfg w = (Ret m, w') ->
  (exists key,
     API_KEY cfg = Some key /\ key <> "" /\
     trace w'
     = trace w
       ++ [CallConfigure key;
           CallGenerativeModel (MODEL_NAME cfg);
           Stdout ("Successfully configured Gemini model: " +:+ MODEL_NAME cfg);
           CallCountTokens "test";
           Stdout "Token counting capability verified."]) /\
  model_instance w' = Some m /\
  (forall txt, txt <> "" ->
     exists n w2 evs,
       count_tokens api txt w' = (Ret n, w2) /\
       trace w2 = trace w' ++ evs /\
       token_calls evs = [txt]).
Proof.
  intros E.
  assert (H : (exists key,
     API_KEY cfg = Some key /\ key <> "" /\
     trace w'
     = trace w
       ++ [CallConfigure key;
           CallGenerativeModel (MODEL_NAME cfg);
           Stdout ("Successfully configured Gemini model: " +:+ MODEL_NAME cfg);
           CallCountTokens "test";
           Stdout "Token counting capability verified."]) /\
     model_instance w' = Some m).
  { unfold configure_gemini in E.
    destruct (API_KEY cfg) as [[|c k]|] eqn:Hk;
      [unfold bind in E; rewrite eprint_eq in E; discriminate| |
       unfold bind in E; rewrite eprint_eq in E; discriminate].
    cbv [try_except bind call set_model_instance print eprint emit ret sys_exit]
      in E.
    destruct (genai_configure api (String c k) (remote w)) as [[[]|e] s1].
    2:{ destruct (is_PermissionDenied e); [discriminate|].
        destruct (is_GoogleAPIError e); discriminate. }
    cbn in E.
    destruct (genai_GenerativeModel api (MODEL_NAME cfg) s1) as [[m0|e] s2].
    2:{ destruct (is_PermissionDenied e); [discriminate|].
        destruct (is_GoogleAPIError e); discriminate. }
    cbn in E.
    destruct (genai_count_tokens api m0 "test" s2) as [[n|e] s3].
    2:{ destruct (is_PermissionDenied e); [discriminate|].
        destruct (is_GoogleAPIError e); discriminate. }
    injection E as <- <-. split; [|done].
    exists (String c k). split; [done|]. split; [done|].
    simpl. by rewrite <- !app_assoc. }
  destruct H as [Hkey Hm]. split; [exact Hkey|]. split; [exact Hm|].
  intros txt Hne.
  destruct (count_tokens_events api txt w')
    as (n & w2 & evs & Ec & _ & Ht & _ & _ & Hcall & _).
  exists n, w2, evs. split; [done|]. split; [done|].
  apply Hcall; [done|]. by rewrite Hm.
Qed.

End MoreProperties.

(** ** The window the manager keeps *)

Section Window.

Context {S : Type} (api : GenAI S) (cfg : Config).


End Window.

(** ** The lines of a context block *)

Section BlockLines.

Lemma split_nonempty c s : split c s <> [].
Proof.
  destruct s as [|x s]; simpl; [done|].
  destruct (Ascii.eqb x c); [done|]. by destruct (split c s).
Qed.

Lemma split_app_sep c a b :
  split c (a +:+ String c b) = split c a ++ split c b.
Proof.
  induction a as [|x a IH].
  - change ("" +:+ String c b) with (String c b). simpl.
    by rewrite Ascii.eqb_refl.
  - rewrite app_cons. simpl. destruct (Ascii.eqb x c).
    + by rewrite IH.
    + rewrite IH. pose proof (split_nonempty c a).
      by destruct (split c a).
Qed.

Lemma lines_one_line s : one_line s = true -> lines s = [s].
Proof.
  unfold lines, one_line. induction s as [|x s IH]; simpl; [done|].
  intros [Hx Hs]%andb_true_iff. apply negb_true_iff in Hx. rewrite Hx.
  by rewrite (IH Hs).
Qed.

Lemma one_line_app a b :
  one_line (a +:+ b) = one_line a && one_line b.
Proof.
  unfold one_line. induction a as [|x a IH]; [done|].
  rewrite app_cons. simpl. rewrite IH. by rewrite andb_assoc.
Qed.

Lemma lines_are_one_line s : Forall (fun l => one_line l = true) (lines s).
Proof.
  unfold lines. induction s as [|x s IH]; simpl.
  - by constructor.
  - destruct (Ascii.eqb x nl_char) eqn:Hx.
    + by constructor.
    + pose proof (split_nonempty nl_char s).
      destruct (split nl_char s) as [|h t]; [done|].
      inversion IH; subst. constructor; [|done].
      unfold one_line in *. simpl. by rewrite Hx.
Qed.

Lemma nl_app s : nl +:+ s = String nl_char s.
Proof. done. Qed.

Lemma lines_join (l : list string) :
  l <> [] -> lines (join nl l) = flat_map lines l.
Proof.
  induction l as [|x l IH]; [done|]. intros _.
  destruct l as [|y l].
  - simpl. by rewrite app_nil_r.
  - change (join nl (x :: y :: l)) with (x +:+ nl +:+ join nl (y :: l)).
    rewrite nl_app. unfold lines at 1. rewrite split_app_sep.
    fold (lines x). fold (lines (join nl (y :: l))). by rewrite IH.
Qed.

Lemma lines_of_one_liners (l : list string) :
  Forall (fun x => one_line x = true) l -> flat_map lines l = l.
Proof.
  induction 1 as [|x l Hx _ IH]; [done|]. simpl.
  by rewrite (lines_one_line x Hx), IH.
Qed.

Lemma join_indent pre p (ps : list string) :
  join (nl +:+ pre) (p :: ps) = join nl (p :: map (String.app pre) ps).
Proof.
  revert p. induction ps as [|q ps IH]; intros p; [done|].
  change (join (nl +:+ pre) (p :: q :: ps))
    with (p +:+ (nl +:+ pre) +:+ join (nl +:+ pre) (q :: ps)).
  rewrite IH.
  change (join nl (p :: map (String.app pre) (q :: ps)))
    with (p +:+ nl +:+ join nl ((pre +:+ q) :: map (String.app pre) ps)).
  f_equal. rewrite app_assoc_str. f_equal.
  destruct (map (String.app pre) ps) as [|r rs]; simpl.
  - done.
  - by rewrite app_assoc_str.
Qed.

Lemma app_join_head pre p (ps : list string) :
  pre +:+ join nl (p :: ps) = join nl ((pre +:+ p) :: ps).
Proof. destruct ps as [|q ps]; simpl; [done|]. by rewrite app_assoc_str. Qed.

(** The lines of an indented text all open with the two spaces. *)
Lemma lines_indented s :
  lines ("  " +:+ indent s) = map (String.app "  ") (lines s).
Proof.
  unfold indent. fold (lines s).
  pose proof (lines_are_one_line s) as Hall.
  pose proof (split_nonempty nl_char s) as Hne. fold (lines s) in Hne.
  destruct (lines s) as [|p ps]; [done|].
  rewrite join_indent, app_join_head.
  change ((("  " +:+ p) :: map (String.app "  ") ps))
    with (map (String.app "  ") (p :: ps)).
  rewrite lines_join by done.
  apply lines_of_one_liners. apply Forall_map.
  eapply Forall_impl; [exact Hall|]. intros x Hx. simpl.
  by rewrite one_line_app, Hx.
Qed.

Lemma no_header_in_indented s :
  List.filter (starts_with "- ") (lines ("  " +:+ indent s)) = [].
Proof.
  rewrite lines_indented. induction (lines s) as [|p ps IH]; [done|].
  simpl. exact IH.
Qed.

Lemma upper_char_keeps_break c :
  Ascii.eqb (upper_char c) nl_char = Ascii.eqb c nl_char.
Proof. by destruct c as [[] [] [] [] [] [] [] []]. Qed.

Lemma lower_char_keeps_break c :
  Ascii.eqb (lower_char c) nl_char = Ascii.eqb c nl_char.
Proof. by destruct c as [[] [] [] [] [] [] [] []]. Qed.

Lemma one_line_lower s : one_line (lower s) = one_line s.
Proof.
  unfold one_line. induction s as [|c s IH]; [done|]. simpl.
  by rewrite lower_char_keeps_break, IH.
Qed.

Lemma one_line_capitalize s : one_line (capitalize s) = one_line s.
Proof.
  destruct s as [|c s]; [done|]. unfold one_line. simpl.
  rewrite upper_char_keeps_break. f_equal. apply one_line_lower.
Qed.

Lemma entry_header_one_line t :
  one_line (role t) = true -> one_line (entry_header t) = true.
Proof.
  intros H. unfold entry_header.
  by rewrite !one_line_app, one_line_capitalize, H.
Qed.

Lemma format_turn_lines t :
  one_line (role t) = true ->
  lines (format_turn t)
  = entry_header t :: map (String.app "  ") (lines (strip (content t))).
Proof.
  intros H. unfold format_turn.
  replace ("- " +:+ capitalize (role t) +:+ ":" +:+ nl +:+ "  "
             +:+ indent (strip (content t)))
    with (entry_header t +:+ String nl_char ("  " +:+ indent (strip (content t)))).
  - unfold lines at 1. rewrite split_app_sep.
    fold (lines (entry_header t)).
    fold (lines ("  " +:+ indent (strip (content t)))).
    rewrite lines_indented, (lines_one_line _ (entry_header_one_line t H)).
    done.
  - unfold entry_header. by rewrite !app_assoc_str.
Qed.

Lemma format_turn_headers t :
  one_line (role t) = true ->
  List.filter (starts_with "- ") (lines (format_turn t)) = [entry_header t].
Proof.
  intros H. rewrite (format_turn_lines t H). simpl. f_equal.
  induction (lines (strip (content t))) as [|p ps IH]; [done|]. exact IH.
Qed.

Lemma filter_flat_map {A B} (p : B -> bool) (f : A -> list B) (l : list A) :
  List.filter p (flat_map f l) = flat_map (fun x => List.filter p (f x)) l.
Proof.
  induction l as [|x l IH]; [done|]. simpl.
  by rewrite List.filter_app, IH.
Qed.

Lemma listing_headers (verbatim : list Turn) :
  Forall (fun t => one_line (role t) = true) verbatim ->
  flat_map (fun x => List.filter (starts_with "- ") (lines x))
           (map format_turn verbatim)
  = map entry_header verbatim.
Proof.
  induction 1 as [|t v Ht _ IH]; [done|]. rewrite !map_cons.
  cbn [flat_map]. by rewrite (format_turn_headers t Ht), IH.
Qed.

Lemma heading_headers summary :
  flat_map (fun x => List.filter (starts_with "- ") (lines x)) (heading summary)
  = [].
Proof.
  unfold heading. destruct (truthy summary); simpl; [|done].
  by rewrite no_header_in_indented.
Qed.

(** X6.  In a context block the lines that open with "- " are the
    headers of the verbatim turns, one for each turn and in the order of
    the turns, whatever the summary and the contents are: a content or a
    summary cannot bring in a line that reads as the start of a turn.
    (The roles are taken to have no line break.) *)
Theorem block_headers_are_the_turns
    (summary : string) (verbatim : list Turn) :
  Forall (fun t => one_line (role t) = true) verbatim ->
  entry_headers (format_history_for_prompt summary verbatim)
  = map entry_header verbatim.
Proof.
  intros Hroles. unfold entry_headers.
  destruct verbatim as [|t v].
  - unfold format_history_for_prompt.
    destruct (truthy summary) eqn:Hs; cbn [negb].
    + rewrite lines_join by done.
      rewrite filter_flat_map, flat_map_app. simpl.
      by rewrite no_header_in_indented.
    + done.
  - rewrite format_nonempty by done.
    rewrite lines_join.
    2:{ unfold heading. by destruct (truthy summary). }
    rewrite filter_flat_map, flat_map_app, heading_headers.
    by rewrite listing_headers.
Qed.

End BlockLines.

(** ** The question bank *)

Section Bank.

Context {S : Type} (rt : Runtime).

Lemma stdout_lines_app (a b : list event) :
  stdout_lines (a ++ b) = stdout_lines a ++ stdout_lines b.
Proof. unfold stdout_lines. apply flat_map_app. Qed.

Lemma fail_with_eq {A} line (w : world S) :
  fail_with (A:=A) line w = (SystemExit 1, record w [Stderr line]).
Proof. unfold fail_with, bind. by rewrite eprint_eq. Qed.

Lemma filled_text_spec v :
  filled_text v = true <-> exists s, v = JString s /\ truthy (strip s) = true.
Proof.
  split.
  - destruct v; simpl; try discriminate. eauto.
  - by intros (s & -> & H).
Qed.

Lemma check_questions_cases name i j qs (w : world S) :
  (Forall valid_question qs /\
   check_questions rt name i j qs w = (Ret tt, w)) \/
  (~ Forall valid_question qs /\
   exists line,
     check_questions rt name i j qs w = (SystemExit 1, record w [Stderr line])).
Proof.
  revert j. induction qs as [|q qs IH]; intros j; simpl.
  { left. by split. }
  destruct (match q with JString s => truthy (strip s) | _ => false end) eqn:Hq.
  - assert (Hv : valid_question q).
    { destruct q; try discriminate. by eexists. }
    destruct (IH (j + 1)) as [[Hall E]|[Hnot [line E]]].
    + left. split; [by constructor|done].
    + right. split; [|by exists line]. intros Hc. inversion Hc; subst. auto.
  - right. split.
    + intros Hc. inversion Hc as [|? ? (s & -> & Hs) _]; subst. congruence.
    + rewrite fail_with_eq. by eexists.
Qed.

Lemma bind_exit {A B} (m : M S A) (k : A -> M S B) w c w1 :
  m w = (SystemExit c, w1) -> bind m k w = (SystemExit c, w1).
Proof. intros E. unfold bind. by rewrite E. Qed.

Lemma bind_raise {A B} (m : M S A) (k : A -> M S B) w e w1 :
  m w = (Raise e, w1) -> bind m k w = (Raise e, w1).
Proof. intros E. unfold bind. by rewrite E. Qed.

Lemma access_ok {A} (a : A) (w : world S) : access (Ok a) w = (Ret a, w).
Proof. done. Qed.

Lemma record_nil (w : world S) : record w [] = w.
Proof. unfold record. rewrite app_nil_r. by destruct w. Qed.

Lemma check_required_keys_cases i fields keys (w : world S) :
  (Forall (fun k => is_Some (dict_lookup k fields)) keys /\
   check_required_keys rt i (JObject fields) keys w = (Ret tt, w)) \/
  (~ Forall (fun k => is_Some (dict_lookup k fields)) keys /\
   exists line,
     check_required_keys rt i (JObject fields) keys w
     = (SystemExit 1, record w [Stderr line])).
Proof.
  induction keys as [|k keys IH]; simpl.
  { left. by split. }
  rewrite (bind_ret _ _ _ _ _ (access_ok _ w)).
  destruct (dict_lookup k fields) as [v|] eqn:Hk; cbn [negb].
  - destruct IH as [[Hall E]|[Hnot [line E]]].
    + left. split; [|done]. constructor; [by rewrite Hk|done].
    + right. split; [|by exists line]. intros H. inversion H; subst. auto.
  - right. split.
    + intros H. inversion H as [|? ? [v Hv] _]; subst. congruence.
    + rewrite fail_with_eq. by eexists.
Qed.

Lemma check_concept_cases i c (w : world S) :
  (valid_concept c /\
   exists warn, check_concept rt i c w = (Ret tt, record w warn) /\
                stdout_lines warn = []) \/
  (~ valid_concept c /\
   exists line, check_concept rt i c w = (SystemExit 1, record w [Stderr line])).
Proof.
  assert (Hnot_dict : forall c', (forall f, c' <> JObject f) -> ~ valid_concept c').
  { intros c' H (f & ? & ? & ? & -> & _). by eapply H. }
  destruct c as [| | | | | |fields];
    try (right; split; [by apply Hnot_dict|];
         unfold check_concept; rewrite fail_with_eq; by eexists).
  unfold check_concept.
  destruct (check_required_keys_cases i fields
              ["concept_name"; "stem_misperception"; "socratic_questions"] w)
    as [[Hkeys E]|[Hkeys [line E]]].
  2:{ right. split.
      - intros (f & ? & ? & ? & [= <-] & H1 & _ & H2 & _ & H3 & _).
        apply Hkeys. repeat constructor; by eexists.
      - exists line. by apply bind_exit. }
  rewrite (bind_ret _ _ _ _ _ E).
  inversion Hkeys as [|? ? [name H1] Hk2]; subst.
  inversion Hk2 as [|? ? [mis H2] Hk3]; subst.
  inversion Hk3 as [|? ? [qs H3] _]; subst.
  unfold py_index. rewrite H1, H2, H3.
  rewrite (bind_ret _ _ _ _ _ (access_ok _ w)).
  destruct (filled_text name) eqn:Hn; cbn [negb].
  2:{ right. split.
      - intros (f & n & ? & ? & [= <-] & Hl & Ht & _).
        assert (filled_text name = true); [|congruence].
        apply filled_text_spec. exists n. split; congruence.
      - rewrite fail_with_eq. by eexists. }
  apply filled_text_spec in Hn as (n & -> & Hn).
  rewrite (bind_ret _ _ _ _ _ (access_ok _ w)).
  destruct (filled_text mis) eqn:Hm; cbn [negb].
  2:{ right. split.
      - intros (f & ? & m & ? & [= <-] & _ & _ & Hl & Ht & _).
        assert (filled_text mis = true); [|congruence].
        apply filled_text_spec. exists m. split; congruence.
      - rewrite fail_with_eq. by eexists. }
  apply filled_text_spec in Hm as (m & -> & Hm).
  rewrite (bind_ret _ _ _ _ _ (access_ok _ w)).
  destruct qs as [| | | | |qs|];
    try (right; split;
         [intros (f & ? & ? & ? & [= <-] & _ & _ & _ & _ & Hl & _); congruence
         |rewrite fail_with_eq; by eexists]).
  assert (Hvalid : Forall valid_question qs -> valid_concept (JObject fields)).
  { intros Hq. exists fields, n, m, qs. by repeat split. }
  assert (Hinvalid : ~ Forall valid_question qs -> ~ valid_concept (JObject fields)).
  { intros Hq (f & ? & ? & qs' & [= <-] & _ & _ & _ & _ & Hl & Hall).
    apply Hq. congruence. }
  destruct qs as [|q qs].
  - left. split; [by apply Hvalid|].
    rewrite (bind_ret _ _ _ _ _ (eprint_eq _ w)). simpl. by eexists.
  - unfold bind at 1. unfold ret at 1.
    destruct (check_questions_cases (JString n) i 0 (q :: qs) w)
      as [[Hall E']|[Hbad [line E']]].
    + left. split; [by apply Hvalid|]. exists []. by rewrite E', record_nil.
    + right. split; [by apply Hinvalid|]. by exists line.
Qed.

Lemma check_concepts_cases i concepts (w : world S) :
  (Forall valid_concept concepts /\
   exists warn, check_concepts rt i concepts w = (Ret tt, record w warn) /\
                stdout_lines warn = []) \/
  (~ Forall valid_concept concepts /\
   exists warn line,
     check_concepts rt i concepts w
     = (SystemExit 1, record w (warn ++ [Stderr line])) /\
     stdout_lines warn = []).
Proof.
  revert i w. induction concepts as [|c cs IH]; intros i w; simpl.
  { left. split; [done|]. exists []. by rewrite record_nil. }
  destruct (check_concept_cases i c w) as [[Hc (warn & E & Hw)]|[Hc (line & E)]].
  - rewrite (bind_ret _ _ _ _ _ E).
    destruct (IH (i + 1) (record w warn))
      as [[Hcs (warn2 & E2 & Hw2)]|[Hcs (warn2 & line & E2 & Hw2)]].
    + left. split; [by constructor|]. exists (warn ++ warn2).
      rewrite E2, record_record. split; [done|].
      by rewrite stdout_lines_app, Hw, Hw2.
    + right. split.
      { intros H. inversion H; subst. auto. }
      exists (warn ++ warn2), line. rewrite E2, record_record.
      rewrite <- app_assoc. split; [done|].
      by rewrite stdout_lines_app, Hw, Hw2.
  - right. split.
    { intros H. inversion H; subst. auto. }
    exists [], line. unfold bind. rewrite E. done.
Qed.

Lemma valid_bank_unique data c1 c2 :
  valid_bank data c1 -> valid_bank data c2 -> c1 = c2.
Proof.
  intros (f1 & -> & H1 & _) (f2 & [= <-] & H2 & _). congruence.
Qed.

(** The line printed when the bank is accepted. *)
Lemma validate_bank_cases filename data (w : world S) :
  (exists concepts warn,
     valid_bank data concepts /\
     validate_bank rt filename data w
     = (Ret concepts,
        record w (warn ++ [Stdout ("Successfully loaded "
                                     +:+ of_int (Z.of_nat (length concepts))
                                     +:+ " concepts from '" +:+ filename
                                     +:+ "'.")])) /\
     stdout_lines warn = []) \/
  ((forall concepts, ~ valid_bank data concepts) /\
   ((exists warn line,
       validate_bank rt filename data w
       = (SystemExit 1, record w (warn ++ [Stderr line])) /\
       stdout_lines warn = []) \/
    (exists e, validate_bank rt filename data w = (Raise e, w)))).
Proof.
  assert (Hnot_dict : (forall f, data <> JObject f) ->
                      forall concepts, ~ valid_bank data concepts).
  { intros H concepts (f & -> & _). by eapply H. }
  assert (Hexit : forall line,
            exists warn line', (SystemExit (A:=list json) 1, record w [Stderr line])
              = (SystemExit 1, record w (warn ++ [Stderr line'])) /\
              stdout_lines warn = []).
  { intros line. by exists [], line. }
  unfold validate_bank.
  destruct data as [| | | |s|items|fields]; cbn [py_in].
  1-4: (right; split; [by apply Hnot_dict|]; right; eexists;
        by apply bind_raise).
  - right. split; [by apply Hnot_dict|].
    rewrite (bind_ret _ _ _ _ _ (access_ok _ w)).
    destruct (contains "concepts" s); cbn [negb].
    + right. eexists. by apply bind_raise.
    + left. rewrite fail_with_eq. apply Hexit.
  - right. split; [by apply Hnot_dict|].
    rewrite (bind_ret _ _ _ _ _ (access_ok _ w)).
    destruct (existsb _ items); cbn [negb].
    + right. eexists. by apply bind_raise.
    + left. rewrite fail_with_eq. apply Hexit.
  - rewrite (bind_ret _ _ _ _ _ (access_ok _ w)).
    destruct (dict_lookup "concepts" fields) as [found|] eqn:Hl; cbn [negb].
    2:{ right. split.
        - intros concepts (f & [= <-] & H & _). congruence.
        - left. rewrite fail_with_eq. apply Hexit. }
    unfold py_index. rewrite Hl.
    rewrite (bind_ret _ _ _ _ _ (access_ok _ w)).
    destruct found as [| | | | |concepts|];
      try (right; split;
           [intros concepts' (f & [= <-] & H & _); congruence
           |left; rewrite fail_with_eq; apply Hexit]).
    destruct concepts as [|c cs].
    { right. split.
      - intros concepts' (f & [= <-] & H & Hne & _). congruence.
      - left. rewrite fail_with_eq. apply Hexit. }
    destruct (check_concepts_cases 0 (c :: cs) w)
      as [[Hall (warn & E & Hw)]|[Hbad (warn & line & E & Hw)]].
    + left. exists (c :: cs), warn. split.
      { exists fields. by repeat split. }
      rewrite (bind_ret _ _ _ _ _ E).
      rewrite (bind_ret _ _ _ _ _ (print_eq _ _)).
      unfold ret. by rewrite record_record.
    + right. split.
      { intros concepts' (f & [= <-] & H & _ & Hall). apply Hbad. congruence. }
      left. exists warn, line. split; [|done]. by apply bind_exit.
Qed.

Lemma load_qa_bank_cases filename file (w : world S) :
  (exists data concepts warn,
     file = Parsed data /\ valid_bank data concepts /\
     load_qa_bank rt filename file w
     = (Ret concepts,
        record w (warn ++ [Stdout ("Successfully loaded "
                                     +:+ of_int (Z.of_nat (length concepts))
                                     +:+ " concepts from '" +:+ filename
                                     +:+ "'.")])) /\
     stdout_lines warn = []) \/
  ((forall data concepts, file = Parsed data -> ~ valid_bank data concepts) /\
   exists warn line,
     load_qa_bank rt filename file w
     = (SystemExit 1, record w (warn ++ [Stderr line])) /\
     stdout_lines warn = []).
Proof.
  destruct file as [| |msg|data]; unfold load_qa_bank.
  1-3: (right; split; [done|]; rewrite fail_with_eq; by eexists [], _).
  destruct (validate_bank_cases filename data w)
    as [(concepts & warn & Hv & E & Hw)
       |[Hnot [(warn & line & E & Hw)|(e & E)]]].
  - left. exists data, concepts, warn. split; [done|]. split; [done|].
    split; [|done]. unfold try_except. by rewrite E.
  - right. split; [intros d c [= <-]; apply Hnot|].
    exists warn, line. split; [|done]. unfold try_except. by rewrite E.
  - right. split; [intros d c [= <-]; apply Hnot|].
    unfold try_except. rewrite E, fail_with_eq. by eexists [], _.
Qed.

(** X7.  [load_qa_bank] returns a list of concepts exactly when the
    file parses to a dictionary whose "concepts" entry is that list, the
    list is not empty, and every concept is a dictionary with a name and
    a misperception that are texts and not blank and with a list of
    questions that are texts and not blank. *)
Theorem bank_loader_accepts_valid_banks
    (filename : string) (file : file_read) (w : world S)
    (concepts : list json) :
  (exists w', load_qa_bank rt filename file w = (Ret concepts, w')) <->
  (exists data, file = Parsed data /\ valid_bank data concepts).
Proof.
  destruct (load_qa_bank_cases filename file w)
    as [(data & cs & warn & -> & Hv & E & _)|[Hnot (warn & line & E & _)]].
  - split.
    + intros [w' E']. exists data. split; [done|]. congruence.
    + intros (d & [= <-] & Hv'). rewrite (valid_bank_unique _ _ _ Hv' Hv).
      by eexists.
  - split.
    + intros [w' E']. congruence.
    + intros (d & -> & Hv). by destruct (Hnot d concepts eq_refl).
Qed.

(** X8.  [load_qa_bank] never lets an exception out, whatever the file
    holds.  It either returns, and then the last thing it printed is the
    count of concepts on standard output, or it ends the program with
    exit status 1, and then the last thing it printed is a line on the
    error stream and it wrote nothing to standard output.  Before that
    it prints warnings on the error stream only. *)
Theorem bank_loader_returns_or_exits
    (filename : string) (file : file_read) (w : world S) :
  (exists concepts warn,
     load_qa_bank rt filename file w
     = (Ret concepts,
        record w (warn ++ [Stdout ("Successfully loaded "
                                     +:+ of_int (Z.of_nat (length concepts))
                                     +:+ " concepts from '" +:+ filename
                                     +:+ "'.")])) /\
     stdout_lines warn = []) \/
  (exists warn line,
     load_qa_bank rt filename file w
     = (SystemExit 1, record w (warn ++ [Stderr line])) /\
     stdout_lines warn = []).
Proof.
  destruct (load_qa_bank_cases filename file w)
    as [(data & cs & warn & _ & _ & E & Hw)|[_ (warn & line & E & Hw)]].
  - left. by exists cs, warn.
  - right. by exists warn, line.
Qed.

End Bank.

(** ** The console *)

Section Console.

Context {S : Type} (rt : Runtime).

Lemma int_of_digits_isdigit acc s n :
  int_of_digits acc s = Some n -> all_chars is_digit_char s = true.
Proof.
  revert acc. induction s as [|c s IH]; intros acc; [done|].
  cbn [int_of_digits all_chars]. cbv zeta.
  destruct ((48 <=? nat_of_ascii c)%nat && (nat_of_ascii c <=? 57)%nat) eqn:Hc;
    [|done].
  intros H. rewrite (IH _ H), andb_true_r.
  unfold is_digit_char. cbv zeta. by rewrite Hc.
Qed.

Lemma int_of_string_isdigit limit s n :
  int_of_string limit s = Some n -> isdigit s = true.
Proof.
  destruct s as [|c s]; [done|]. unfold int_of_string, isdigit.
  destruct ((0 <? limit) && (limit <? String.length (String c s)))%nat;
    [done|].
  intros H. by rewrite (int_of_digits_isdigit _ _ _ H).
Qed.

Lemma read_some_cons line rest : read_some (line :: rest) rest.
Proof. by exists [line]. Qed.

Lemma read_some_skip line stdin rest :
  read_some stdin rest -> read_some (line :: stdin) rest.
Proof. intros (used & _ & ->). by exists (line :: used). Qed.

Lemma nth_discipline (k : nat) :
  (k < length disciplines)%nat -> nth k disciplines EmptyString ∈ disciplines.
Proof. intros H. apply list_elem_of_In. by apply nth_In. Qed.

Lemma read_some_shorter (stdin rest : list string) :
  read_some stdin rest -> (length rest < length stdin)%nat.
Proof.
  intros (used & Hne & ->). rewrite length_app.
  destruct used; [done|]. simpl. lia.
Qed.

(** The loop either returns a listed discipline, having read at least
    one line, or exits with status 0. *)
Lemma choose_discipline_cases (stdin : list string) (w : world S) :
  (exists d rest w',
     choose_discipline rt stdin w = (Ret (d, rest), w') /\
     d ∈ disciplines /\ read_some stdin rest /\
     model_instance w' = model_instance w /\ remote w' = remote w) \/
  (exists w', choose_discipline rt stdin w = (SystemExit 0, w') /\
              model_instance w' = model_instance w /\ remote w' = remote w).
Proof.
  revert w. induction stdin as [|line rest IH]; intros w.
  { right. simpl. unfold bind. rewrite !print_eq. unfold sys_exit.
    by eexists. }
  assert (Hnext : forall line',
    (exists d rest' w',
       (print line' ;;; choose_discipline rt rest)
         (record w [Stdout discipline_prompt]) = (Ret (d, rest'), w') /\
       d ∈ disciplines /\ read_some (line :: rest) rest' /\
       model_instance w' = model_instance w /\ remote w' = remote w) \/
    (exists w',
       (print line' ;;; choose_discipline rt rest)
         (record w [Stdout discipline_prompt]) = (SystemExit 0, w') /\
       model_instance w' = model_instance w /\ remote w' = remote w)).
  { intros line'. rewrite (bind_ret _ _ _ _ _ (print_eq _ _)).
    destruct (IH (record (record w [Stdout discipline_prompt]) [Stdout line']))
      as [(d & r & w' & E & Hd & Hr & Hm & Hs)|(w' & E & Hm & Hs)].
    - left. exists d, r, w'. split; [done|]. split; [done|].
      split; [by apply read_some_skip|]. done.
    - right. by exists w'. }
  cbn [choose_discipline]. rewrite (bind_ret _ _ _ _ _ (print_eq _ w)).
  destruct (String.eqb (lower (strip line)) "quit").
  { right. unfold bind. rewrite print_eq. unfold sys_exit. by eexists. }
  destruct (isdigit (lower (strip line))); cbn [negb]; [|apply Hnext].
  destruct (int_of_string (int_max_str_digits rt) (lower (strip line))) as [n|]; [|apply Hnext].
  destruct ((0 <=? n - 1) && (n - 1 <? Z.of_nat (length disciplines))) eqn:Hin;
    [|apply Hnext].
  left. rewrite (bind_ret _ _ _ _ _ (print_eq _ _)). unfold ret.
  eexists _, _, _. split; [done|]. split.
  { apply nth_discipline. apply andb_true_iff in Hin as [H1 H2]. lia. }
  split; [apply read_some_cons|done].
Qed.

(** The lines [get_student_discipline] prints before it starts to read. *)
Lemma get_student_discipline_eq (stdin : list string) (w : world S) :
  get_student_discipline rt stdin w
  = choose_discipline rt stdin
      (record w [Stdout (nl +:+ "Select your primary STEM discipline:");
                 Stdout "1. Mathematics"; Stdout "2. Engineering";
                 Stdout "3. Physics"; Stdout "4. Other STEM"]).
Proof.
  unfold get_student_discipline.
  rewrite (bind_ret _ _ _ _ _ (print_eq _ w)).
  assert (E : print_numbered 0 disciplines
                (record w [Stdout (nl +:+ "Select your primary STEM discipline:")])
              = (Ret tt,
                 record w [Stdout (nl +:+ "Select your primary STEM discipline:");
                           Stdout "1. Mathematics"; Stdout "2. Engineering";
                           Stdout "3. Physics"; Stdout "4. Other STEM"])).
  { unfold print_numbered, disciplines, bind. rewrite !print_eq.
    unfold ret. by rewrite !record_record. }
  by rewrite (bind_ret _ _ _ _ _ E).
Qed.

(** X9.  [get_student_discipline] never lets an exception out: it
    returns one of the four listed disciplines, after reading at least
    one line, or it exits with status 0.  It touches neither the model
    nor the oracle. *)
Theorem discipline_is_listed_or_exit (stdin : list string) (w : world S) :
  (exists d rest w',
     get_student_discipline rt stdin w = (Ret (d, rest), w') /\
     d ∈ disciplines /\ read_some stdin rest /\
     model_instance w' = model_instance w /\ remote w' = remote w) \/
  (exists w', get_student_discipline rt stdin w = (SystemExit 0, w') /\
              model_instance w' = model_instance w /\ remote w' = remote w).
Proof.
  rewrite get_student_discipline_eq.
  destruct (choose_discipline_cases stdin (record w
              [Stdout (nl +:+ "Select your primary STEM discipline:");
               Stdout "1. Mathematics"; Stdout "2. Engineering";
               Stdout "3. Physics"; Stdout "4. Other STEM"]))
    as [(d & r & w' & E & H)|(w' & E & H)].
  - left. by exists d, r, w'.
  - right. by exists w'.
Qed.

(** A noise line costs one more prompt and one complaint. *)
Lemma choose_discipline_noise (x : string) :
  noise rt x ->
  exists msg, forall (l : list string) (w : world S),
    choose_discipline rt (x :: l) w
    = choose_discipline rt l (record w [Stdout discipline_prompt; Stdout msg]).
Proof.
  intros [Hq Hp]. unfold quits in Hq.
  destruct (isdigit (lower (strip x))) eqn:Hdig.
  - destruct (int_of_string (int_max_str_digits rt) (lower (strip x))) as [n|] eqn:Hn.
    + destruct ((0 <=? n - 1) && (n - 1 <? Z.of_nat (length disciplines)))
        eqn:Hin.
      { exfalso. apply (Hp (nth (Z.to_nat (n - 1)) disciplines EmptyString)).
        exists n. apply andb_true_iff in Hin as [H1 H2].
        split; [done|]. split; [lia|done]. }
      eexists. intros l w. cbn [choose_discipline].
      rewrite (bind_ret _ _ _ _ _ (print_eq _ w)).
      destruct (String.eqb_spec (lower (strip x)) "quit"); [done|].
      rewrite Hdig, Hn, Hin. cbn [negb].
      rewrite (bind_ret _ _ _ _ _ (print_eq _ _)).
      by rewrite record_record.
    + exists "Invalid input.". intros l w. cbn [choose_discipline].
      rewrite (bind_ret _ _ _ _ _ (print_eq _ w)).
      destruct (String.eqb_spec (lower (strip x)) "quit"); [done|].
      rewrite Hdig, Hn. cbn [negb].
      rewrite (bind_ret _ _ _ _ _ (print_eq _ _)).
      by rewrite record_record.
  - exists "Invalid input.". intros l w. cbn [choose_discipline].
    rewrite (bind_ret _ _ _ _ _ (print_eq _ w)).
    destruct (String.eqb_spec (lower (strip x)) "quit"); [done|].
    rewrite Hdig. cbn [negb].
    rewrite (bind_ret _ _ _ _ _ (print_eq _ _)).
    by rewrite record_record.
Qed.

Lemma choose_discipline_picks line rest d (w : world S) :
  picks rt line d ->
  exists w', choose_discipline rt (line :: rest) w = (Ret (d, rest), w').
Proof.
  intros (n & Hn & Hrange & Hd). cbn [choose_discipline].
  rewrite (bind_ret _ _ _ _ _ (print_eq _ w)).
  destruct (String.eqb_spec (lower (strip line)) "quit") as [Hquit|_].
  { rewrite Hquit in Hn. apply int_of_string_isdigit in Hn.
    vm_compute in Hn. discriminate Hn. }
  rewrite (int_of_string_isdigit _ _ _ Hn), Hn. cbn [negb].
  destruct (Z.leb_spec 0 (n - 1)); [|lia].
  destruct (Z.ltb_spec (n - 1) (Z.of_nat (length disciplines))); [|lia].
  cbn [andb]. rewrite (bind_ret _ _ _ _ _ (print_eq _ _)). unfold ret.
  rewrite Hd. by eexists.
Qed.

Lemma choose_discipline_quits line rest (w : world S) :
  quits line ->
  exists w', choose_discipline rt (line :: rest) w = (SystemExit 0, w').
Proof.
  unfold quits. intros Hq. cbn [choose_discipline].
  rewrite (bind_ret _ _ _ _ _ (print_eq _ w)), Hq.
  change (String.eqb "quit" "quit") with true. cbv iota.
  rewrite (bind_ret _ _ _ _ _ (print_eq _ _)). unfold sys_exit. by eexists.
Qed.

Lemma choose_discipline_eof (w : world S) :
  exists w', choose_discipline rt [] w = (SystemExit 0, w').
Proof.
  cbn [choose_discipline]. unfold bind. rewrite !print_eq. unfold sys_exit.
  by eexists.
Qed.

Lemma choose_discipline_skips (skipped tail : list string) (w : world S) :
  Forall (noise rt) skipped ->
  exists w1, choose_discipline rt (skipped ++ tail) w = choose_discipline rt tail w1.
Proof.
  intros Hnoise. revert w.
  induction Hnoise as [|x skipped Hx _ IH]; intros w.
  - by exists w.
  - destruct (choose_discipline_noise x Hx) as (msg & Hstep).
    cbn [app]. rewrite Hstep. apply IH.
Qed.

(** X10.  At the discipline prompt, lines that are neither the word quit
    nor the number of a listed discipline are skipped, and so is a number
    [int] refuses because it has more digits than the interpreter
    converts: the first line that is one of the two decides.  A number
    gives its discipline and leaves the lines after it unread; quit, or
    the end of the input, exits with status 0. *)
Theorem discipline_prompt_skips_noise (skipped : list string) (w : world S)
  (Hnoise : Forall (noise rt) skipped) :
  (forall line rest d, picks rt line d ->
     exists w', get_student_discipline rt (skipped ++ line :: rest) w
                = (Ret (d, rest), w')) /\
  (forall line rest, quits line ->
     exists w', get_student_discipline rt (skipped ++ line :: rest) w
                = (SystemExit 0, w')) /\
  (exists w', get_student_discipline rt skipped w = (SystemExit 0, w')).
Proof.
  repeat split.
  - intros line rest d Hp. rewrite get_student_discipline_eq.
    set (w0 := record w _).
    destruct (choose_discipline_skips skipped (line :: rest) w0 Hnoise)
      as (w1 & ->).
    by apply choose_discipline_picks.
  - intros line rest Hq. rewrite get_student_discipline_eq.
    set (w0 := record w _).
    destruct (choose_discipline_skips skipped (line :: rest) w0 Hnoise)
      as (w1 & ->).
    by apply choose_discipline_quits.
  - rewrite get_student_discipline_eq.
    set (w0 := record w _). rewrite <- (app_nil_r skipped).
    destruct (choose_discipline_skips skipped [] w0 Hnoise) as (w1 & ->).
    apply choose_discipline_eof.
Qed.

End Console.

(** ** The tutor calls *)

Section Calls.

Context {S : Type} (api : GenAI S) (rt : Runtime).

Lemma contains_refl (x : string) : contains x x = true.
Proof.
  rewrite <- (app_empty_r x) at 2. apply (contains_intro "" x "").
Qed.

Lemma contains_app_l (x s b : string) :
  contains x s = true -> contains x (s +:+ b) = true.
Proof.
  intros H. destruct (contains_elim _ _ H) as (p & q & ->).
  rewrite !app_assoc_str. apply contains_intro.
Qed.

Lemma concept_line_dict fields (w : world S) :
  exists t, concept_line rt (JObject fields) w = (Ret t, w).
Proof. by eexists. Qed.

Lemma concept_line_other concept (w : world S) :
  (forall fields, concept <> JObject fields) ->
  exists e, concept_line rt concept w = (Raise e, w).
Proof.
  intros H. destruct concept; try (by eexists). by destruct (H fields).
Qed.

(** What one consultation does: one call, one text. *)
Lemma consult_events model prompt kind activity advice (w : world S) :
  exists s w' evs,
    consult api rt model prompt kind activity advice w = (Ret s, w') /\
    model_instance w' = model_instance w /\
    trace w' = trace w ++ evs /\
    prompts_sent evs = [prompt] /\
    token_calls evs = [] /\
    stdout_lines evs = [] /\
    ((exists resp t s',
        genai_generate_content api model prompt (remote w) = (Ok resp, s') /\
        candidates resp <> 0%nat /\
        (exists part later txt,
           parts resp = part :: later /\ part_text part = Some txt) /\
        text resp = Ok t /\ s = strip t /\ stderr_lines evs = []) \/
     starts_with ("[AI " +:+ kind +:+ " ") s = true).
Proof.
  assert (Hmark : forall rest,
    starts_with ("[AI " +:+ kind +:+ " ") ("[AI " +:+ kind +:+ " " +:+ rest)
    = true).
  { intros rest. rewrite <- !app_assoc_str. apply starts_with_app. }
  unfold consult, try_except. unfold bind at 1. unfold call.
  destruct (genai_generate_content api model prompt (remote w))
    as [[r|e] s'] eqn:Hcall.
  - destruct (Nat.eqb_spec (candidates r) 0) as [Hcand|Hcand].
    { eexists _, _, [_]. split; [done|]. split; [done|]. split; [done|].
      split; [done|]. split; [done|]. split; [done|]. right. apply Hmark. }
    destruct (parts r) as [|part later] eqn:Hparts.
    { eexists _, _, [_]. split; [done|]. split; [done|]. split; [done|].
      split; [done|]. split; [done|]. split; [done|]. right. apply Hmark. }
    destruct (part_text part) as [txt|] eqn:Hpart.
    2:{ eexists _, _, [_]. split; [done|]. split; [done|]. split; [done|].
        split; [done|]. split; [done|]. split; [done|]. right. apply Hmark. }
    unfold bind, access. destruct (text r) as [t|e] eqn:Ht.
    + eexists _, _, [_]. split; [done|]. split; [done|]. split; [done|].
      split; [done|]. split; [done|]. split; [done|]. left.
      exists r, t, s'. split; [done|]. split; [done|].
      split; [by exists part, later, txt|]. done.
    + destruct (is_GoogleAPIError e); rewrite eprint_eq;
        (eexists _, _, [_; _]; split; [done|]; split; [done|]; split;
         [simpl; rewrite <- app_assoc; done|]; split; [done|]; split; [done|];
         split; [done|]; right; apply Hmark).
  - destruct (is_GoogleAPIError e); unfold bind; rewrite eprint_eq;
      (eexists _, _, [_; _]; split; [done|]; split; [done|]; split;
       [simpl; rewrite <- app_assoc; done|]; split; [done|]; split; [done|];
       split; [done|]; right; apply Hmark).
Qed.

Lemma carried_in_feedback_prompt ct question user_answer discipline h x :
  x ∈ carried (ForFeedback user_answer) question h ->
  contains x (feedback_prompt ct question user_answer discipline h) = true.
Proof.
  intros Hx. unfold carried in Hx.
  apply elem_of_cons in Hx as [->|Hx]; [|apply elem_of_cons in Hx as [->|Hx]];
    [| |apply list_elem_of_singleton in Hx as ->].
  - eapply contains_trans; [|apply contains_join with (x := "    " +:+ h)].
    + apply contains_app_r, contains_refl.
    + unfold feedback_prompt. in_list.
  - eapply contains_trans;
      [|apply contains_join
          with (x := "    Socratic Question Asked: " +:+ dquote +:+ question
                       +:+ dquote)].
    + apply contains_app_r, contains_app_r, contains_app_l, contains_refl.
    + in_list.
  - eapply contains_trans;
      [|apply contains_join
          with (x := "    Student's Answer: " +:+ dquote +:+ user_answer
                       +:+ dquote)].
    + apply contains_app_r, contains_app_r, contains_app_l, contains_refl.
    + in_list.
Qed.

Lemma carried_in_hint_prompt ct question discipline h x :
  x ∈ carried ForHint question h ->
  contains x (hint_prompt ct question discipline h) = true.
Proof.
  intros Hx. unfold carried in Hx.
  apply elem_of_cons in Hx as [->|Hx];
    [|apply list_elem_of_singleton in Hx as ->].
  - eapply contains_trans; [|apply contains_join with (x := "    " +:+ h)].
    + apply contains_app_r, contains_refl.
    + in_list.
  - eapply contains_trans;
      [|apply contains_join
          with (x := "    Socratic Question: " +:+ dquote +:+ question
                       +:+ dquote)].
    + apply contains_app_r, contains_app_r, contains_app_l, contains_refl.
    + in_list.
Qed.

Lemma carried_in_explanation_prompt ct question discipline h x :
  x ∈ carried ForExplanation question h ->
  contains x (explanation_prompt ct question discipline h) = true.
Proof.
  intros Hx. unfold carried in Hx.
  apply elem_of_cons in Hx as [->|Hx];
    [|apply list_elem_of_singleton in Hx as ->].
  - eapply contains_trans; [|apply contains_join with (x := "    " +:+ h)].
    + apply contains_app_r, contains_refl.
    + in_list.
  - eapply contains_trans;
      [|apply contains_join
          with (x := "    Socratic Question stuck on: " +:+ dquote +:+ question
                       +:+ dquote)].
    + apply contains_app_r, contains_app_r, contains_app_l, contains_refl.
    + in_list.
Qed.

(** The three calls side by side. *)
Lemma ask_events req model fields question discipline h (w : world S) :
  exists p s w' evs,
    ask api rt req model (JObject fields) question discipline h w
    = (Ret s, w') /\
    model_instance w' = model_instance w /\
    trace w' = trace w ++ evs /\
    prompts_sent evs = [p] /\
    token_calls evs = [] /\
    stdout_lines evs = [] /\
    Forall (fun x => contains x p = true) (carried req question h) /\
    ((exists resp t s',
        genai_generate_content api model p (remote w) = (Ok resp, s') /\
        candidates resp <> 0%nat /\
        (exists part later txt,
           parts resp = part :: later /\ part_text part = Some txt) /\
        text resp = Ok t /\ s = strip t /\ stderr_lines evs = []) \/
     starts_with ("[AI " +:+ kind_of req +:+ " ") s = true).
Proof.
  destruct (concept_line_dict fields w) as (ct & Ect).
  destruct req as [user_answer| |]; cbn [ask kind_of].
  - unfold get_ai_feedback. rewrite (bind_ret _ _ _ _ _ Ect).
    destruct (consult_events model
                (feedback_prompt ct question user_answer discipline h)
                "Feedback" "feedback" "Please rephrase." w)
      as (s & w' & evs & E & Hm & Ht & Hp & Hc & Ho & Hs).
    eexists _, s, w', evs. split; [exact E|]. split; [exact Hm|].
    split; [exact Ht|]. split; [exact Hp|]. split; [exact Hc|].
    split; [exact Ho|]. split; [|exact Hs].
    apply Forall_forall. intros x Hx. by apply carried_in_feedback_prompt.
  - unfold get_ai_hint. rewrite (bind_ret _ _ _ _ _ Ect).
    destruct (consult_events model (hint_prompt ct question discipline h)
                "Hint" "hint" "Could not generate hint." w)
      as (s & w' & evs & E & Hm & Ht & Hp & Hc & Ho & Hs).
    eexists _, s, w', evs. split; [exact E|]. split; [exact Hm|].
    split; [exact Ht|]. split; [exact Hp|]. split; [exact Hc|].
    split; [exact Ho|]. split; [|exact Hs].
    apply Forall_forall. intros x Hx. by apply carried_in_hint_prompt.
  - unfold get_ai_scaffolded_explanation. rewrite (bind_ret _ _ _ _ _ Ect).
    destruct (consult_events model
                (explanation_prompt ct question discipline h)
                "Explanation" "explanation" "Could not generate explanation." w)
      as (s & w' & evs & E & Hm & Ht & Hp & Hc & Ho & Hs).
    eexists _, s, w', evs. split; [exact E|]. split; [exact Hm|].
    split; [exact Ht|]. split; [exact Hp|]. split; [exact Hc|].
    split; [exact Ho|]. split; [|exact Hs].
    apply Forall_forall. intros x Hx. by apply carried_in_explanation_prompt.
Qed.

(** X11.  For a concept that is a dictionary, each of the three tutor
    calls returns a text, whatever the client does: it makes exactly one
    [generate_content] call and no token count, prints nothing on
    standard output, and the prompt it sends carries the history block
    and the question, and for feedback the student's answer, as they
    were passed in. *)
Theorem tutor_call_sends_one_prompt
  req model fields question discipline h (w : world S) :
  exists p s w' evs,
    ask api rt req model (JObject fields) question discipline h w
    = (Ret s, w') /\
    model_instance w' = model_instance w /\
    trace w' = trace w ++ evs /\
    prompts_sent evs = [p] /\
    token_calls evs = [] /\
    stdout_lines evs = [] /\
    Forall (fun x => contains x p = true) (carried req question h).
Proof.
  destruct (ask_events req model fields question discipline h w)
    as (p & s & w' & evs & E & Hm & Ht & Hp & Hc & Ho & Hcar & _).
  exists p, s, w', evs. split; [exact E|]. split; [exact Hm|].
  split; [exact Ht|]. split; [exact Hp|]. split; [exact Hc|].
  split; [exact Ho|]. exact Hcar.
Qed.

(** X12.  The text a tutor call returns is the text of the model's
    response, stripped, only when the call returned a response that has
    a candidate and whose first part has a text, and then nothing was
    written to standard error.  In every other case it is a notice that
    opens with [[AI Feedback], [[AI Hint] or [[AI Explanation]: a
    response without candidate (a blocked prompt), a response whose
    first part has no text and a call that raised are never passed on as
    if the model had answered, whatever text the response carries. *)
Theorem tutor_call_marks_failure
  req model fields question discipline h (w : world S) :
  exists p s w' evs,
    ask api rt req model (JObject fields) question discipline h w
    = (Ret s, w') /\
    trace w' = trace w ++ evs /\
    prompts_sent evs = [p] /\
    ((exists resp t s',
        genai_generate_content api model p (remote w) = (Ok resp, s') /\
        candidates resp <> 0%nat /\
        (exists part later txt,
           parts resp = part :: later /\ part_text part = Some txt) /\
        text resp = Ok t /\ s = strip t /\ stderr_lines evs = []) \/
     starts_with ("[AI " +:+ kind_of req +:+ " ") s = true) /\
    (forall resp s',
       genai_generate_content api model p (remote w) = (Ok resp, s') ->
       candidates resp = 0%nat \/ parts resp = [] \/
       (exists part later, parts resp = part :: later /\ part_text part = None) ->
       starts_with ("[AI " +:+ kind_of req +:+ " ") s = true) /\
    (forall e s',
       genai_generate_content api model p (remote w) = (Raises e, s') ->
       starts_with ("[AI " +:+ kind_of req +:+ " ") s = true).
Proof.
  destruct (ask_events req model fields question discipline h w)
    as (p & s & w' & evs & E & Hm & Ht & Hp & Hc & Ho & Hcar & Hs).
  exists p, s, w', evs. split; [exact E|]. split; [exact Ht|].
  split; [exact Hp|]. split; [exact Hs|]. split.
  - intros resp s' Hcall Hbad.
    destruct Hs as [(resp' & t & s'' & Hcall' & Hcand & Hpart & _)|Hs];
      [|exact Hs].
    rewrite Hcall in Hcall'. injection Hcall' as <- _.
    destruct Hpart as (part & later & txt & Hparts & Htxt).
    destruct Hbad as [Hbad|[Hbad|(part' & later' & Hparts' & Hnone)]].
    + by destruct Hcand.
    + rewrite Hparts in Hbad. discriminate Hbad.
    + rewrite Hparts in Hparts'. injection Hparts' as <- _.
      rewrite Htxt in Hnone. discriminate Hnone.
  - intros e s' Hcall.
    destruct Hs as [(resp' & t & s'' & Hcall' & _)|Hs]; [|exact Hs].
    rewrite Hcall in Hcall'. discriminate Hcall'.
Qed.

(** X13.  For a concept that is not a dictionary a tutor call raises
    before anything is sent: the state is as it was, no call is made and
    nothing is printed. *)
Theorem tutor_call_needs_dictionary
  req model concept question discipline h (w : world S)
  (Hshape : forall fields, concept <> JObject fields) :
  exists e, ask api rt req model concept question discipline h w
            = (Raise e, w).
Proof.
  destruct (concept_line_other concept w Hshape) as (e & E).
  exists e. destruct req; cbn [ask];
    unfold get_ai_feedback, get_ai_hint, get_ai_scaffolded_explanation;
    by apply bind_raise.
Qed.

End Calls.

(** ** The session *)

Section Sessions.

Context {S : Type} (api : GenAI S) (cfg : Config) (rt : Runtime).

Lemma exchanges_app (a b : list Turn) :
  exchanges a -> exchanges b -> exchanges (a ++ b).
Proof. induction 1; [done|]. intros Hb. simpl. constructor. auto. Qed.

Lemma exchanges_one (said answered : string) :
  exchanges [mkTurn "user" said; mkTurn "assistant" answered].
Proof. repeat constructor. Qed.

Lemma exchanges_even (l : list Turn) :
  exchanges l -> exists n, length l = (2 * n)%nat.
Proof.
  induction 1 as [|? ? ? _ [n IH]]; [by exists 0%nat|].
  exists (Datatypes.S n). simpl. lia.
Qed.

(** One question: the loop returns with the history grown by exchanges
    and at least one line read, or it exits with status 0. *)
Lemma answer_loop_cases model fields question_text discipline
    (stdin : list string) (ss : Session) (w : world S) :
  (exists menu ss' rest w',
     answer_loop api cfg rt model (JObject fields) question_text discipline
                 ss stdin w
     = (Ret (menu, ss', rest), w') /\
     (exists added,
        chat_history ss' = chat_history ss ++ added /\
        exchanges added /\
        (menu = false -> added <> [])) /\
     read_some stdin rest) \/
  (exists w',
     answer_loop api cfg rt model (JObject fields) question_text discipline
                 ss stdin w
     = (SystemExit 0, w')).
Proof.
  revert ss w. induction stdin as [|line rest IH]; intros ss w;
    cbn [answer_loop];
    destruct (runs_manage api cfg model (current_summary ss) (chat_history ss)
                discipline w) as ([h s] & w1 & E1 & _);
    rewrite (bind_ret _ _ _ _ _ E1); cbv beta iota;
    rewrite (bind_ret _ _ _ _ _ (print_eq _ _)).
  { right. rewrite (bind_ret _ _ _ _ _ (print_eq _ _)). by eexists. }
  cbv zeta.
  destruct (String.eqb (lower (strip line)) "quit").
  { right. rewrite (bind_ret _ _ _ _ _ (print_eq _ _)). by eexists. }
  destruct (String.eqb (lower (strip line)) "menu").
  { left. rewrite (bind_ret _ _ _ _ _ (print_eq _ _)).
    eexists _, _, _, _. split; [done|]. split; [|apply read_some_cons].
    exists []. cbn [chat_history]. rewrite app_nil_r.
    split; [done|]. split; [constructor|done]. }
  destruct (String.eqb (lower (strip line)) "hint").
  { rewrite (bind_ret _ _ _ _ _ (print_eq _ _)).
    set (w2 := record _ _).
    destruct (ask_events api rt ForHint model fields (fstr rt question_text)
                discipline h w2) as (p & hint & w3 & evs & E3 & _).
    cbn [ask] in E3. rewrite (bind_ret _ _ _ _ _ E3).
    rewrite (bind_ret _ _ _ _ _ (print_eq _ _)).
    set (ss1 := mkSession _ _). set (w4 := record _ _).
    destruct (IH ss1 w4)
      as [(menu & ss' & rest' & w' & E & (added & Ha & Hex & Hne) & Hr)
         |(w' & E)].
    - left. exists menu, ss', rest', w'. split; [exact E|].
      split; [|by apply read_some_skip].
      exists ([mkTurn "user" "(Requested a hint)"; mkTurn "assistant" hint]
                ++ added).
      split; [by rewrite Ha; subst ss1; cbn [chat_history]; rewrite <- app_assoc|].
      split; [apply exchanges_app; [apply exchanges_one|exact Hex]|done].
    - right. by exists w'. }
  destruct (i_dont_know (lower (strip line))).
  { rewrite (bind_ret _ _ _ _ _ (print_eq _ _)).
    set (w2 := record _ _).
    destruct (ask_events api rt ForExplanation model fields
                (fstr rt question_text) discipline h w2)
      as (p & explanation & w3 & evs & E3 & _).
    cbn [ask] in E3. rewrite (bind_ret _ _ _ _ _ E3).
    rewrite (bind_ret _ _ _ _ _ (print_eq _ _)).
    set (ss1 := mkSession _ _). set (w4 := record _ _).
    destruct (IH ss1 w4)
      as [(menu & ss' & rest' & w' & E & (added & Ha & Hex & Hne) & Hr)
         |(w' & E)].
    - left. exists menu, ss', rest', w'. split; [exact E|].
      split; [|by apply read_some_skip].
      exists ([mkTurn "user" (strip line); mkTurn "assistant" explanation]
                ++ added).
      split; [by rewrite Ha; subst ss1; cbn [chat_history]; rewrite <- app_assoc|].
      split; [apply exchanges_app; [apply exchanges_one|exact Hex]|done].
    - right. by exists w'. }
  destruct (truthy (strip line)); cbn [negb].
  2:{ rewrite (bind_ret _ _ _ _ _ (print_eq _ _)).
      set (ss1 := mkSession _ _). set (w4 := record _ _).
      destruct (IH ss1 w4)
        as [(menu & ss' & rest' & w' & E & (added & Ha & Hex & Hne) & Hr)
           |(w' & E)].
      - left. exists menu, ss', rest', w'. split; [exact E|].
        split; [|by apply read_some_skip]. by exists added.
      - right. by exists w'. }
  left. set (w2 := record _ _).
  destruct (runs_manage api cfg model s
              (chat_history ss ++ [mkTurn "user" (strip line)]) discipline w2)
    as ([h2 s2] & w3 & E3 & _).
  rewrite (bind_ret _ _ _ _ _ E3). cbv beta iota.
  rewrite (bind_ret _ _ _ _ _ (print_eq _ _)).
  set (w4 := record _ _).
  destruct (ask_events api rt (ForFeedback (strip line)) model fields
              (fstr rt question_text) discipline h2 w4)
    as (p & feedback & w5 & evs & E5 & _).
  cbn [ask] in E5. rewrite (bind_ret _ _ _ _ _ E5).
  rewrite (bind_ret _ _ _ _ _ (print_eq _ _)).
  rewrite (bind_ret _ _ _ _ _ (print_eq _ _)).
  eexists false, _, rest, _. split; [done|]. split; [|apply read_some_cons].
  exists [mkTurn "user" (strip line); mkTurn "assistant" feedback].
  cbn [chat_history]. rewrite <- app_assoc.
  split; [done|]. split; [apply exchanges_one|done].
Qed.

(** The questions of a concept, one after the other. *)
Lemma question_loop_cases model fields discipline total
    (questions : list json) (j : Z) (ss : Session) (stdin : list string)
    (w : world S) :
  (exists menu ss' rest w',
     question_loop api cfg rt model (JObject fields) discipline total j
                   questions ss stdin w
     = (Ret (menu, ss', rest), w') /\
     (exists added,
        chat_history ss' = chat_history ss ++ added /\
        exchanges added /\
        (menu = false -> (2 * length questions <= length added)%nat)) /\
     rest `suffix_of` stdin) \/
  (exists w',
     question_loop api cfg rt model (JObject fields) discipline total j
                   questions ss stdin w
     = (SystemExit 0, w')).
Proof.
  revert j ss stdin w.
  induction questions as [|q later IH]; intros j ss stdin w;
    cbn [question_loop].
  { left. exists false, ss, stdin, w. split; [done|]. split; [|done].
    exists []. rewrite app_nil_r. split; [done|].
    split; [constructor|]. simpl. lia. }
  rewrite (bind_ret _ _ _ _ _ (print_eq _ _)).
  rewrite (bind_ret _ _ _ _ _ (print_eq _ _)).
  set (w1 := record _ _).
  destruct (answer_loop_cases model fields q discipline stdin ss w1)
    as [(menu & ss1 & rest1 & w2 & E & (added & Ha & Hex & Hne) & Hr)
       |(w2 & E)].
  2:{ right. exists w2. by apply bind_exit. }
  rewrite (bind_ret _ _ _ _ _ E). cbv beta iota.
  assert (Hsuf : rest1 `suffix_of` stdin).
  { destruct Hr as (used & _ & ->). by exists used. }
  destruct menu.
  { left. exists true, ss1, rest1, w2. split; [done|]. split; [|done].
    exists added. split; [done|]. split; [done|]. done. }
  destruct (IH (j + 1) ss1 rest1 w2)
    as [(menu & ss2 & rest2 & w3 & E2 & (added2 & Ha2 & Hex2 & Hlen) & Hr2)
       |(w3 & E2)].
  2:{ right. by exists w3. }
  left. exists menu, ss2, rest2, w3. split; [done|].
  split; [|by etrans].
  exists (added ++ added2). split; [by rewrite Ha2, Ha, <- app_assoc|].
  split; [by apply exchanges_app|]. intros ->.
  specialize (Hlen eq_refl). specialize (Hne eq_refl).
  destruct (exchanges_even _ Hex) as [n Hn].
  rewrite length_app. cbn [length].
  destruct added; [done|]. simpl in Hn. destruct n; [lia|]. simpl. lia.
Qed.

(** The session of a concept the bank loader let through, after its
    opening lines. *)
Lemma concept_session_eq model discipline fields name misperception questions
    (stdin : list string) (w : world S) :
  dict_lookup "concept_name" fields = Some (JString name) ->
  dict_lookup "stem_misperception" fields = Some (JString misperception) ->
  dict_lookup "socratic_questions" fields = Some (JArray questions) ->
  concept_session api cfg rt model discipline (JObject fields) stdin w
  = (r <- question_loop api cfg rt model (JObject fields) discipline
                        (Z.of_nat (length questions)) 0 questions
                        (mkSession [] "") stdin ;;
     let '(return_to_menu, ss', stdin') := r in
     (if return_to_menu : bool then ret tt
      else
        print (nl +:+ rule "=" +:+ nl +:+ "Completed Concept: " +:+ name
                  +:+ nl +:+ rule "=" +:+ nl)) ;;;
     ret (ss', stdin'))
      (record w [Stdout (nl +:+ rule "=");
                 Stdout ("Concept: " +:+ name);
                 Stdout ("STEM Misconception Focus: " +:+ misperception);
                 Stdout (rule "=" +:+ nl)]).
Proof.
  intros Hn Hm Hq. unfold concept_session. cbv zeta.
  rewrite (bind_ret _ _ _ _ _ (print_eq _ _)).
  unfold py_get. rewrite Hn, Hm, Hq.
  rewrite (bind_ret _ _ _ _ _ (access_ok _ _)).
  rewrite (bind_ret _ _ _ _ _ (print_eq _ _)).
  rewrite (bind_ret _ _ _ _ _ (access_ok _ _)).
  rewrite (bind_ret _ _ _ _ _ (print_eq _ _)).
  rewrite (bind_ret _ _ _ _ _ (print_eq _ _)).
  rewrite (bind_ret _ _ _ _ _ (access_ok _ _)).
  unfold py_len, py_iter.
  rewrite (bind_ret _ _ _ _ _ (access_ok _ _)).
  rewrite (bind_ret _ _ _ _ _ (access_ok _ _)).
  rewrite !record_record. cbn [app fstr].
  unfold bind. destruct (question_loop _ _ _ _ _ _ _ _ _ _ _) as [[[[m s] r]| |] w'];
    [|done|done].
  destruct m; [done|]. cbn [access]. done.
Qed.

(** X14.  The session of a concept the bank loader let through never
    lets an exception out.  It starts from an empty history and, when it
    returns, the history is made of exchanges, a turn of the user
    followed by the turn of the assistant that answers it, and the lines
    left are a suffix of the lines it was given; otherwise it exits with
    status 0. *)
Theorem session_history_is_exchanges model discipline concept
    (stdin : list string) (w : world S) (Hvalid : valid_concept concept) :
  (exists ss' rest w',
     concept_session api cfg rt model discipline concept stdin w
     = (Ret (ss', rest), w') /\
     exchanges (chat_history ss') /\
     rest `suffix_of` stdin) \/
  (exists w',
     concept_session api cfg rt model discipline concept stdin w
     = (SystemExit 0, w')).
Proof.
  destruct Hvalid as (fields & name & mis & qs & -> & Hn & _ & Hm & _ & Hq & _).
  rewrite (concept_session_eq _ _ _ _ _ _ _ _ Hn Hm Hq).
  set (w1 := record _ _).
  destruct (question_loop_cases model fields discipline
              (Z.of_nat (length qs)) qs 0 (mkSession [] "") stdin w1)
    as [(menu & ss' & rest & w2 & E & (added & Ha & Hex & _) & Hr)|(w2 & E)].
  2:{ right. exists w2. by apply bind_exit. }
  left. rewrite (bind_ret _ _ _ _ _ E). cbv beta iota.
  cbn [chat_history app] in Ha.
  destruct menu.
  - exists ss', rest, w2. split; [done|]. split; [by rewrite Ha|done].
  - rewrite (bind_ret _ _ _ _ _ (print_eq _ _)).
    eexists ss', rest, _. split; [done|]. split; [by rewrite Ha|done].
Qed.

Lemma truthy_strip (s : string) : truthy (strip s) = true -> truthy s = true.
Proof. by destruct s. Qed.

Lemma valid_concepts_of_valid (concepts : list json) (w : world S) :
  Forall valid_concept concepts ->
  valid_concepts_of rt concepts w
  = (Ret (List.filter has_questions concepts), w).
Proof.
  induction 1 as [|c cs Hc _ IH]; [done|].
  destruct Hc as (fields & name & mis & qs & -> & Hn & Hname & _ & _ & Hq & _).
  cbn [valid_concepts_of List.filter has_questions]. unfold py_get.
  rewrite Hq, Hn. rewrite (bind_ret _ _ _ _ _ (access_ok _ _)).
  cbn [json_truthy]. destruct qs as [|q qs].
  - unfold bind, ret. by rewrite IH.
  - unfold bind, ret, access. cbn [json_truthy].
    by rewrite (truthy_strip _ Hname), IH.
Qed.

Lemma print_concepts_runs (i : Z) (valid_concepts : list json) (w : world S) :
  Forall valid_concept valid_concepts ->
  exists evs, print_concepts rt i valid_concepts w = (Ret tt, record w evs).
Proof.
  intros H. revert i w. induction H as [|c cs Hc _ IH]; intros i w.
  { exists []. by rewrite record_nil. }
  destruct Hc as (fields & name & mis & qs & -> & Hn & _).
  cbn [print_concepts]. unfold py_get. rewrite Hn.
  rewrite (bind_ret _ _ _ _ _ (access_ok _ _)).
  rewrite (bind_ret _ _ _ _ _ (print_eq _ _)).
  destruct (IH (i + 1) (record w [Stdout (of_int (i + 1) +:+ ". "
                                            +:+ fstr rt (JString name))]))
    as (evs & E).
  eexists. rewrite E. by rewrite record_record.
Qed.

Lemma choose_concept_cases (valid_concepts : list json) (stdin : list string)
    (w : world S) :
  (exists c rest w',
     choose_concept rt valid_concepts stdin w = (Ret (c, rest), w') /\
     c ∈ valid_concepts /\ read_some stdin rest) \/
  (exists w', choose_concept rt valid_concepts stdin w = (SystemExit 0, w')).
Proof.
  revert w. induction stdin as [|line rest IH]; intros w.
  { right. cbn [choose_concept].
    rewrite (bind_ret _ _ _ _ _ (print_eq _ _)).
    rewrite (bind_ret _ _ _ _ _ (print_eq _ _)). by eexists. }
  assert (Hnext : forall line',
    (exists c rest' w',
       (print line' ;;; choose_concept rt valid_concepts rest)
         (record w [Stdout "Choice: "]) = (Ret (c, rest'), w') /\
       c ∈ valid_concepts /\ read_some (line :: rest) rest') \/
    (exists w',
       (print line' ;;; choose_concept rt valid_concepts rest)
         (record w [Stdout "Choice: "]) = (SystemExit 0, w'))).
  { intros line'. rewrite (bind_ret _ _ _ _ _ (print_eq _ _)).
    destruct (IH (record (record w [Stdout "Choice: "]) [Stdout line']))
      as [(c & r & w' & E & Hc & Hr)|(w' & E)].
    - left. exists c, r, w'. split; [done|]. split; [done|].
      by apply read_some_skip.
    - right. by exists w'. }
  cbn [choose_concept]. rewrite (bind_ret _ _ _ _ _ (print_eq _ w)).
  cbv zeta.
  destruct (String.eqb (lower (strip line)) "quit").
  { right. rewrite (bind_ret _ _ _ _ _ (print_eq _ _)). by eexists. }
  destruct (isdigit (lower (strip line))); cbn [negb]; [|apply Hnext].
  destruct (int_of_string (int_max_str_digits rt) (lower (strip line))) as [n|]; [|apply Hnext].
  destruct ((0 <=? n - 1) && (n - 1 <? Z.of_nat (length valid_concepts)))
    eqn:Hin; [|apply Hnext].
  left. eexists _, _, _. split; [done|]. split; [|apply read_some_cons].
  apply andb_true_iff in Hin as [H1 H2].
  apply list_elem_of_In, nth_In. lia.
Qed.

(** Start-up either gives the model or exits with status 1. *)
Lemma configure_gemini_cases (w : world S) :
  (exists m w', configure_gemini api cfg w = (Ret m, w')) \/
  (exists w', configure_gemini api cfg w = (SystemExit 1, w')).
Proof.
  unfold configure_gemini.
  destruct (API_KEY cfg) as [[|c k]|];
    [right; unfold bind; rewrite eprint_eq; by eexists|
    |right; unfold bind; rewrite eprint_eq; by eexists].
  cbv [try_except bind call set_model_instance print eprint emit ret sys_exit].
  cbn [remote model_instance trace].
  destruct (genai_configure api (String c k) (remote w)) as [[[]|e] s1].
  2:{ right. destruct (is_PermissionDenied e); [by eexists|].
      destruct (is_GoogleAPIError e); by eexists. }
  cbn [remote model_instance trace].
  destruct (genai_GenerativeModel api (MODEL_NAME cfg) s1) as [[m|e] s2].
  2:{ right. destruct (is_PermissionDenied e); [by eexists|].
      destruct (is_GoogleAPIError e); by eexists. }
  cbn [remote model_instance trace].
  destruct (genai_count_tokens api m "test" s2) as [[n|e] s3].
  2:{ right. destruct (is_PermissionDenied e); [by eexists|].
      destruct (is_GoogleAPIError e); by eexists. }
  left. by eexists _, _.
Qed.

Lemma concept_session_ends model discipline concept
    (stdin : list string) (w : world S) :
  valid_concept concept ->
  (exists ss' rest w',
     concept_session api cfg rt model discipline concept stdin w
     = (Ret (ss', rest), w') /\
     rest `suffix_of` stdin) \/
  (exists w',
     concept_session api cfg rt model discipline concept stdin w
     = (SystemExit 0, w')).
Proof.
  intros (fields & name & mis & qs & -> & Hn & _ & Hm & _ & Hq & _).
  rewrite (concept_session_eq _ _ _ _ _ _ _ _ Hn Hm Hq).
  set (w1 := record _ _).
  destruct (question_loop_cases model fields discipline
              (Z.of_nat (length qs)) qs 0 (mkSession [] "") stdin w1)
    as [(menu & ss' & rest & w2 & E & _ & Hr)|(w2 & E)].
  2:{ right. exists w2. by apply bind_exit. }
  left. rewrite (bind_ret _ _ _ _ _ E). cbv beta iota.
  destruct menu.
  - by exists ss', rest, w2.
  - rewrite (bind_ret _ _ _ _ _ (print_eq _ _)). by eexists ss', rest, _.
Qed.

Lemma Forall_filter {A} (P : A -> Prop) (f : A -> bool) (l : list A) :
  Forall P l -> Forall P (List.filter f l).
Proof.
  induction 1 as [|x l Hx _ IH]; [constructor|]. simpl.
  destruct (f x); [by constructor|done].
Qed.

(** The menu loop on a validated bank: with more rounds than lines it
    reaches the end of the input, or an earlier exit. *)
Lemma menu_loop_exits model discipline concepts :
  Forall valid_concept concepts ->
  forall (rounds : nat) (stdin : list string) (w : world S),
    (length stdin < rounds)%nat ->
    exists w',
      menu_loop api cfg rt rounds model discipline concepts stdin w
      = (SystemExit 0, w').
Proof.
  intros Hvalid. induction rounds as [|rounds IH]; intros stdin w Hlen; [lia|].
  cbn [menu_loop]. rewrite (bind_ret _ _ _ _ _ (print_eq _ _)).
  rewrite (bind_ret _ _ _ _ _ (valid_concepts_of_valid concepts _ Hvalid)).
  assert (Hoffered := Forall_filter _ has_questions _ Hvalid).
  destruct (List.filter has_questions concepts) as [|c0 offered] eqn:Hf.
  { rewrite (bind_ret _ _ _ _ _ (print_eq _ _)). by eexists. }
  set (w1 := record _ _).
  destruct (print_concepts_runs 0 (c0 :: offered) w1 Hoffered) as (evs & Ep).
  rewrite (bind_ret _ _ _ _ _ Ep).
  rewrite (bind_ret _ _ _ _ _ (print_eq _ _)).
  set (w2 := record _ _).
  destruct (choose_concept_cases (c0 :: offered) stdin w2)
    as [(c & stdin1 & w3 & Ec & Hc & Hr)|(w3 & Ec)].
  2:{ exists w3. by apply bind_exit. }
  rewrite (bind_ret _ _ _ _ _ Ec). cbv beta iota.
  assert (Hcv : valid_concept c).
  { rewrite Forall_forall in Hoffered. by apply Hoffered. }
  destruct (concept_session_ends model discipline c stdin1 w3 Hcv)
    as [(ss' & stdin2 & w4 & Es & Hsuf)|(w4 & Es)].
  2:{ exists w4. by apply bind_exit. }
  rewrite (bind_ret _ _ _ _ _ Es). cbv beta iota.
  apply IH. apply read_some_shorter in Hr.
  apply suffix_length in Hsuf. lia.
Qed.

(** X15.  Whatever the bank file holds, whatever the user types and
    whatever the client does, [run_tutor] lets no exception out: given
    more rounds of the menu than there are lines of input, it ends by
    [sys.exit], with status 0 or 1.  The status is 1 exactly when
    start-up fails, in the bank loader or in [configure_gemini]; once
    both have returned, every way out has status 0. *)
Theorem run_tutor_only_exits (rounds : nat) (file : file_read)
    (stdin : list string) (w : world S)
    (Hrounds : (length stdin < rounds)%nat) :
  exists code w',
    run_tutor api cfg rt rounds file stdin w = (SystemExit code, w') /\
    (code = 0 \/ code = 1) /\
    (code = 1 <->
       (exists w1, load_qa_bank rt QA_BANK_FILE file w = (SystemExit 1, w1)) \/
       (exists concepts w1 w2,
          load_qa_bank rt QA_BANK_FILE file w = (Ret concepts, w1) /\
          configure_gemini api cfg w1 = (SystemExit 1, w2))).
Proof.
  unfold run_tutor.
  destruct (load_qa_bank_cases rt QA_BANK_FILE file w)
    as [(data & concepts & warn & -> & Hv & E & _)
       |(Hbad & warn & line & E & _)].
  2:{ exists 1, (record w (warn ++ [Stderr line])).
      split; [by apply bind_exit|]. split; [by right|].
      split; [|done]. intros _. left. by eexists. }
  rewrite (bind_ret _ _ _ _ _ E). set (w1 := record _ _) in *.
  destruct (configure_gemini_cases w1) as [(m & w2 & Ec)|(w2 & Ec)].
  2:{ exists 1, w2. split; [by apply bind_exit|]. split; [by right|].
      split; [|done]. intros _. right. by exists concepts, w1, w2. }
  rewrite (bind_ret _ _ _ _ _ Ec).
  assert (Hnot : 0 = 1 <->
       (exists w1, load_qa_bank rt QA_BANK_FILE (Parsed data) w
                   = (SystemExit 1, w1)) \/
       (exists concepts w1 w2,
          load_qa_bank rt QA_BANK_FILE (Parsed data) w = (Ret concepts, w1) /\
          configure_gemini api cfg w1 = (SystemExit 1, w2))).
  { split; [done|]. intros [(w0 & E0)|(c0 & w0 & w0' & E0 & Ec0)].
    - rewrite E in E0. discriminate.
    - rewrite E in E0. injection E0 as <- <-. rewrite Ec in Ec0. discriminate. }
  destruct (choose_discipline_cases rt stdin (record w2
              [Stdout (nl +:+ "Select your primary STEM discipline:");
               Stdout "1. Mathematics"; Stdout "2. Engineering";
               Stdout "3. Physics"; Stdout "4. Other STEM"]))
    as [(d & stdin1 & w3 & Ed & _ & Hr & _)|(w3 & Ed & _)];
    rewrite <- get_student_discipline_eq in Ed.
  2:{ exists 0, w3. split; [by apply bind_exit|]. split; [by left|]. done. }
  rewrite (bind_ret _ _ _ _ _ Ed). cbv beta iota.
  do 5 rewrite (bind_ret _ _ _ _ _ (print_eq _ _)).
  destruct Hv as (fields & _ & _ & _ & Hvalid).
  set (w4 := record _ _).
  destruct (menu_loop_exits m d concepts Hvalid rounds stdin1 w4) as (w5 & Em).
  { apply read_some_shorter in Hr. lia. }
  exists 0, w5. split; [exact Em|]. split; [by left|]. done.
Qed.

(** X16.  The concepts [load_qa_bank] returns can be filtered for the
    menu without an exception, and the menu offers exactly those with at
    least one question, in the order of the file: a concept with an
    empty question list is loaded but never offered. *)
Theorem menu_offers_concepts_with_questions
    (filename : string) (file : file_read) (concepts : list json)
    (w w1 : world S)
    (Hloaded : load_qa_bank rt filename file w = (Ret concepts, w1)) :
  forall w2 : world S,
    valid_concepts_of rt concepts w2
    = (Ret (List.filter has_questions concepts), w2).
Proof.
  intros w2.
  destruct (load_qa_bank_cases rt filename file w)
    as [(data & concepts' & warn & -> & Hv & E & _)
       |(_ & warn & line & E & _)];
    rewrite E in Hloaded; [|discriminate].
  injection Hloaded as <- _.
  destruct Hv as (fields & _ & _ & _ & Hvalid).
  by apply valid_concepts_of_valid.
Qed.

(** X17.  A line that is an answer closes the question.  The answer is
    appended to the history first, the context is computed again from
    the history with the answer in it, and feedback is asked once, with a
    prompt that carries that context, the question and the answer; the
    answer, stripped, and the feedback are the two turns the history
    gains, the summary kept is the one of the second context, and the
    lines after the answer are left unread. *)
Theorem answer_gets_feedback_in_context model fields question_text discipline
    (ss : Session) (line : string) (rest : list string) (w : world S)
    (Hanswer : is_answer line = true) :
  exists h1 s1 w1 h2 s2 w2 feedback w3 evs p,
    manage_history_and_get_context api cfg model (current_summary ss)
      (chat_history ss) discipline w = (Ret (h1, s1), w1) /\
    manage_history_and_get_context api cfg model s1
      (chat_history ss ++ [mkTurn "user" (strip line)]) discipline
      (record w1 [Stdout answer_prompt]) = (Ret (h2, s2), w2) /\
    answer_loop api cfg rt model (JObject fields) question_text discipline
                ss (line :: rest) w
    = (Ret (false,
            mkSession (chat_history ss
                         ++ [mkTurn "user" (strip line);
                             mkTurn "assistant" feedback]) s2,
            rest), w3) /\
    trace w3 = trace w2 ++ evs /\
    prompts_sent evs = [p] /\
    Forall (fun x => contains x p = true)
           [h2; fstr rt question_text; strip line].
Proof.
  unfold is_answer in Hanswer. cbv zeta in Hanswer.
  repeat (apply andb_true_iff in Hanswer as [Hanswer ?]).
  repeat match goal with
         | H : negb _ = true |- _ => apply negb_true_iff in H
         end.
  cbn [answer_loop].
  destruct (runs_manage api cfg model (current_summary ss) (chat_history ss)
              discipline w) as ([h1 s1] & w1 & E1 & _).
  rewrite (bind_ret _ _ _ _ _ E1). cbv beta iota zeta.
  rewrite (bind_ret _ _ _ _ _ (print_eq _ _)).
  repeat match goal with
         | H : _ = false |- _ => rewrite H
         end.
  rewrite Hanswer. cbn [negb].
  destruct (runs_manage api cfg model s1
              (chat_history ss ++ [mkTurn "user" (strip line)]) discipline
              (record w1 [Stdout answer_prompt]))
    as ([h2 s2] & w2 & E2 & _).
  rewrite (bind_ret _ _ _ _ _ E2). cbv beta iota.
  rewrite (bind_ret _ _ _ _ _ (print_eq _ _)).
  destruct (ask_events api rt (ForFeedback (strip line)) model fields
              (fstr rt question_text) discipline h2
              (record w2 [Stdout "Analyzing answer..."]))
    as (p & feedback & w5 & evs & E5 & _ & Ht & Hp & _ & _ & Hcar & _).
  cbn [ask] in E5. rewrite (bind_ret _ _ _ _ _ E5).
  rewrite (bind_ret _ _ _ _ _ (print_eq _ _)).
  rewrite (bind_ret _ _ _ _ _ (print_eq _ _)).
  eexists h1, s1, w1, h2, s2, w2, feedback, _,
    (Stdout "Analyzing answer..." :: evs ++ [_; _]), p.
  split; [done|]. split; [done|]. split.
  { unfold ret. by rewrite <- app_assoc. }
  split.
  { cbn [record trace]. rewrite Ht. cbn [record trace].
    by rewrite <- !app_assoc. }
  split.
  { cbn [prompts_sent flat_map app]. fold (prompts_sent (evs ++ [Stdout (nl +:+ "AI Tutor Feedback:" +:+ nl +:+ feedback +:+ nl); Stdout (rule "-")])).
    rewrite prompts_sent_app, Hp. done. }
  exact Hcar.
Qed.

End Sessions.

(** ** The manager and the list it is handed *)

Section StoreFacts.

Context {S : Type} (api : GenAI S) (cfg : Config).

Lemma store_bind_ret {A B} (c : Store.P (S:=S) A) (k : A -> Store.P B)
    f mem w a f' mem' w' :
  c f mem w = (Ret a, f', mem', w') -> Store.bind c k f mem w = k a f' mem' w'.
Proof. intros E. unfold Store.bind. by rewrite E. Qed.

Lemma store_lift_ret {A} (c : M S A) f mem w a w' :
  c w = (Ret a, w') -> Store.lift c f mem w = (Ret a, f, mem, w').
Proof. intros E. unfold Store.lift. by rewrite E. Qed.

Lemma store_load_eq x o f mem (w : world S) :
  mem !! x = Some o -> Store.load x f mem w = (Ret o, f, mem, w).
Proof. intros E. unfold Store.load. by rewrite E. Qed.

Lemma holds_app mem more x log : holds mem x log -> holds (mem ++ more) x log.
Proof.
  intros (items & Hx & Hitems). exists items.
  split; [by apply lookup_app_l_Some|].
  eapply Forall2_impl; [exact Hitems|].
  intros i turn Hi. by apply lookup_app_l_Some.
Qed.

Lemma holds_unique mem x log1 log2 :
  holds mem x log1 -> holds mem x log2 -> log1 = log2.
Proof.
  intros (items & Hx & H1) (items' & Hx' & H2).
  assert (items' = items) by congruence. subst items'. clear Hx Hx'.
  revert log2 H2. induction H1 as [|i t items log1 Hi _ IH]; intros log2 H2.
  - by inversion H2.
  - inversion H2 as [|? t' ? log2' Hi' H2']; subst.
    f_equal; [congruence|by apply IH].
Qed.

Lemma read_dicts_eq items log f mem (w : world S) :
  Forall2 (fun i turn => mem !! i = Some (Store.PyDict turn)) items log ->
  Store.read_dicts items f mem w = (Ret log, f, mem, w).
Proof.
  induction 1 as [|i turn items log Hi _ IH]; [done|].
  cbn [Store.read_dicts].
  rewrite (store_bind_ret _ _ _ _ _ _ _ _ _ (store_load_eq _ _ f mem w Hi)).
  by rewrite (store_bind_ret _ _ _ _ _ _ _ _ _ IH).
Qed.

Lemma read_turns_eq x log f mem (w : world S) :
  holds mem x log -> Store.read_turns x f mem w = (Ret log, f, mem, w).
Proof.
  intros (items & Hx & Hitems). unfold Store.read_turns.
  rewrite (store_bind_ret _ _ _ _ _ _ _ _ _ (store_load_eq _ _ f mem w Hx)).
  by apply read_dicts_eq.
Qed.

Lemma len_eq x log f mem (w : world S) :
  holds mem x log ->
  Store.len x f mem w = (Ret (Z.of_nat (length log)), f, mem, w).
Proof.
  intros (items & Hx & Hitems). unfold Store.len.
  rewrite (store_bind_ret _ _ _ _ _ _ _ _ _ (store_load_eq _ _ f mem w Hx)).
  by rewrite (Forall2_length _ _ _ Hitems).
Qed.

Lemma truth_eq x log f mem (w : world S) :
  holds mem x log ->
  Store.truth x f mem w
  = (Ret (match log with [] => false | _ :: _ => true end), f, mem, w).
Proof.
  intros (items & Hx & Hitems). unfold Store.truth.
  rewrite (store_bind_ret _ _ _ _ _ _ _ _ _ (store_load_eq _ _ f mem w Hx)).
  by destruct Hitems.
Qed.

Lemma drop_clip {A} (i : Z) (l : list A) :
  0 <= i -> drop (Store.clip i (Z.of_nat (length l))) l = drop (Z.to_nat i) l.
Proof.
  intros H. unfold Store.clip. destruct (Z.ltb_spec i 0); [lia|].
  destruct (Z.le_gt_cases i (Z.of_nat (length l))).
  - f_equal. lia.
  - rewrite !drop_ge; [done|lia|lia].
Qed.

Lemma take_clip {A} (i : Z) (l : list A) :
  0 <= i -> take (Store.clip i (Z.of_nat (length l))) l = take (Z.to_nat i) l.
Proof.
  intros H. unfold Store.clip. destruct (Z.ltb_spec i 0); [lia|].
  destruct (Z.le_gt_cases i (Z.of_nat (length l))).
  - f_equal. lia.
  - rewrite !take_ge; [done|lia|lia].
Qed.

Lemma holds_new mem items log :
  Forall2 (fun i turn => mem !! i = Some (Store.PyDict turn)) items log ->
  holds (mem ++ [Store.PyList items]) (length mem) log.
Proof.
  intros H. exists items. split; [by apply list_lookup_middle|].
  eapply Forall2_impl; [exact H|].
  intros i turn Hi. by apply lookup_app_l_Some.
Qed.

Lemma slice_from_eq x items (i : Z) f mem (w : world S) :
  mem !! x = Some (Store.PyList items) -> 0 <= i ->
  Store.slice_from x i f mem w
  = (Ret (length mem), f,
     mem ++ [Store.PyList (drop (Z.to_nat i) items)], w).
Proof.
  intros Hx Hi. unfold Store.slice_from.
  rewrite (store_bind_ret _ _ _ _ _ _ _ _ _ (store_load_eq _ _ f mem w Hx)).
  by rewrite drop_clip.
Qed.

Lemma slice_to_eq x items (i : Z) f mem (w : world S) :
  mem !! x = Some (Store.PyList items) -> 0 <= i ->
  Store.slice_to x i f mem w
  = (Ret (length mem), f,
     mem ++ [Store.PyList (take (Z.to_nat i) items)], w).
Proof.
  intros Hx Hi. unfold Store.slice_to.
  rewrite (store_bind_ret _ _ _ _ _ _ _ _ _ (store_load_eq _ _ f mem w Hx)).
  by rewrite take_clip.
Qed.

Lemma set_current_summary_eq s f mem (w : world S) :
  Store.set_current_summary s f mem w = (Ret tt, Store.mkFrame s, mem, w).
Proof. done. Qed.

Lemma get_current_summary_eq s mem (w : world S) :
  Store.get_current_summary (Store.mkFrame s) mem w
  = (Ret s, Store.mkFrame s, mem, w).
Proof. done. Qed.

Lemma store_ret_eq {A} (a : A) f mem (w : world S) :
  Store.ret a f mem w = (Ret a, f, mem, w).
Proof. done. Qed.

Lemma store_new_eq o f mem (w : world S) :
  Store.new o f mem w = (Ret (length mem), f, mem ++ [o], w).
Proof. done. Qed.

Lemma summarize_in_store model x turns discipline target f mem (w : world S)
    s w' :
  holds mem x turns ->
  summarize_history api model turns discipline target w = (Ret s, w') ->
  Store.summarize_history api model x discipline target f mem w
  = (Ret s, f, mem, w').
Proof.
  intros Hx E. unfold Store.summarize_history.
  rewrite (store_bind_ret _ _ _ _ _ _ _ _ _ (read_turns_eq _ _ f mem w Hx)).
  by apply store_lift_ret.
Qed.

Lemma text_in_store x turns f mem (w : world S) :
  holds mem x turns ->
  Store.verbatim_turns_text x f mem w
  = (Ret (verbatim_turns_text turns), f, mem, w).
Proof.
  intros Hx. unfold Store.verbatim_turns_text.
  by rewrite (store_bind_ret _ _ _ _ _ _ _ _ _ (read_turns_eq _ _ f mem w Hx)).
Qed.

Lemma format_in_store summary x turns f mem (w : world S) :
  holds mem x turns ->
  Store.format_history_for_prompt summary x f mem w
  = (Ret (format_history_for_prompt summary turns), f, mem, w).
Proof.
  intros Hx. unfold Store.format_history_for_prompt.
  by rewrite (store_bind_ret _ _ _ _ _ _ _ _ _ (read_turns_eq _ _ f mem w Hx)).
Qed.

Lemma verbatim_cutoff_nonneg (log : list Turn) : 0 <= verbatim_cutoff cfg log.
Proof. unfold verbatim_cutoff. lia. Qed.

(** The body on a list that is the log [log]: it ends as the manager
    on [log] does, with the summary in the frame, and the memory has
    grown by the lists it made. *)
Lemma body_in_store model chat log discipline mem (w : world S) :
  holds mem chat log ->
  exists s v w' more,
    fit_history api cfg model log discipline w = (Ret (s, v), w') /\
    forall prev,
      Store.body api cfg model chat discipline (Store.mkFrame prev) mem w
      = (Ret (format_history_for_prompt s v, s), Store.mkFrame s,
         mem ++ more, w').
Proof.
  intros Hc. pose proof Hc as (items & Hx & Hitems).
  pose proof (verbatim_cutoff_nonneg log) as Hcut.
  set (k := Z.to_nat (verbatim_cutoff cfg log)) in *.
  set (mem1 := mem ++ [Store.PyList (drop k items)]).
  set (mem2 := mem1 ++ [Store.PyList (take k items)]).
  assert (Hv : holds mem2 (length mem) (verbatim_of cfg log)).
  { apply holds_app, holds_new. by apply Forall2_drop. }
  assert (Ho : holds mem2 (length mem1) (older_of cfg log)).
  { apply holds_new. apply Forall2_take.
    eapply Forall2_impl; [exact Hitems|].
    intros i turn Hi. by apply lookup_app_l_Some. }
  assert (Hx1 : mem1 !! chat = Some (Store.PyList items))
    by (by apply lookup_app_l_Some).
  (* steps 2 and 3 on the value *)
  assert (Hs : exists s0 w1,
    match older_of cfg log with
    | _ :: _ => summarize_history api model (older_of cfg log) discipline None
    | [] => ret ""
    end w = (Ret s0, w1)).
  { destruct (older_of cfg log) as [|t o] eqn:Eo; [by eexists _, _|].
    destruct (runs_summarize_history api model (t :: o) discipline None w)
      as (s0 & w1 & E & _). by exists s0, w1. }
  destruct Hs as (s0 & w1 & Es).
  destruct (runs_count_tokens api s0 w1) as (st & w2 & E2 & _).
  destruct (runs_count_tokens api (verbatim_turns_text (verbatim_of cfg log)) w2)
    as (vt & w3 & E3 & _).
  assert (Em : measure_history api model (older_of cfg log)
                 (verbatim_of cfg log) discipline w = (Ret (s0, st, vt), w3)).
  { unfold measure_history. rewrite (bind_ret _ _ _ _ _ Es).
    rewrite (bind_ret _ _ _ _ _ E2). by rewrite (bind_ret _ _ _ _ _ E3). }
  (* the body up to step 4 *)
  assert (Hhead : forall prev (rest : Z -> Z -> Store.ref -> Store.ref ->
                                      Store.P (string * string)),
    Store.bind (Store.len chat) (fun n =>
      Store.bind (Store.slice_from chat
                    (Z.max 0 (n - LAST_VERBATIM_TURNS cfg))) (fun vts =>
      Store.bind (Store.slice_to chat
                    (Z.max 0 (n - LAST_VERBATIM_TURNS cfg))) (fun ots =>
      Store.bind (Store.truth ots) (fun some_older =>
      Store.bind (if some_older : bool
                  then Store.bind (Store.summarize_history api model ots
                                     discipline None)
                                  (fun s => Store.set_current_summary s)
                  else Store.set_current_summary "") (fun _ =>
      Store.bind Store.get_current_summary (fun s =>
      Store.bind (Store.lift (count_tokens api s)) (fun summary_tokens =>
      Store.bind (Store.verbatim_turns_text vts) (fun text =>
      Store.bind (Store.lift (count_tokens api text)) (fun verbatim_tokens =>
      rest summary_tokens verbatim_tokens vts ots)))))))))
      (Store.mkFrame prev) mem w
    = rest st vt (length mem) (length mem1) (Store.mkFrame s0) mem2 w3).
  { intros prev rest.
    rewrite (store_bind_ret _ _ _ _ _ _ _ _ _ (len_eq _ _ _ _ _ Hc)).
    fold (verbatim_cutoff cfg log).
    rewrite (store_bind_ret _ _ _ _ _ _ _ _ _
               (slice_from_eq _ _ _ _ _ _ Hx Hcut)).
    fold k mem1.
    rewrite (store_bind_ret _ _ _ _ _ _ _ _ _
               (slice_to_eq _ _ _ _ _ _ Hx1 Hcut)).
    fold k mem2.
    rewrite (store_bind_ret _ _ _ _ _ _ _ _ _ (truth_eq _ _ _ _ _ Ho)).
    assert (Hstep2 :
      (if match older_of cfg log with [] => false | _ :: _ => true end
       then Store.bind (Store.summarize_history api model (length mem1)
                          discipline None)
                       (fun s => Store.set_current_summary s)
       else Store.set_current_summary "") (Store.mkFrame prev) mem2 w
      = (Ret tt, Store.mkFrame s0, mem2, w1)).
    { destruct (older_of cfg log) as [|t o] eqn:Eo.
      - injection Es as <- <-. done.
      - rewrite (store_bind_ret _ _ _ _ _ _ _ _ _
                   (summarize_in_store _ _ _ _ _ _ _ _ _ _ Ho Es)).
        done. }
    rewrite (store_bind_ret _ _ _ _ _ _ _ _ _ Hstep2).
    rewrite (store_bind_ret _ _ _ _ _ _ _ _ _ (get_current_summary_eq _ _ _)).
    rewrite (store_bind_ret _ _ _ _ _ _ _ _ _ (store_lift_ret _ _ _ _ _ _ E2)).
    rewrite (store_bind_ret _ _ _ _ _ _ _ _ _ (text_in_store _ _ _ _ _ Hv)).
    by rewrite (store_bind_ret _ _ _ _ _ _ _ _ _
                  (store_lift_ret _ _ _ _ _ _ E3)). }
  (* step 5 *)
  assert (Htail : forall s x v memx (wx : world S),
    holds memx x v ->
    Store.bind Store.get_current_summary (fun s1 =>
      Store.bind (Store.format_history_for_prompt s1 x) (fun ctx =>
      Store.bind Store.get_current_summary (fun s2 =>
      Store.ret (ctx, s2)))) (Store.mkFrame s) memx wx
    = (Ret (format_history_for_prompt s v, s), Store.mkFrame s, memx, wx)).
  { intros s x v memx wx Hxv.
    rewrite (store_bind_ret _ _ _ _ _ _ _ _ _ (get_current_summary_eq _ _ _)).
    rewrite (store_bind_ret _ _ _ _ _ _ _ _ _ (format_in_store _ _ _ _ _ _ Hxv)).
    by rewrite (store_bind_ret _ _ _ _ _ _ _ _ _ (get_current_summary_eq _ _ _)). }
  assert (Hmem2 : mem2 = mem ++ [Store.PyList (drop k items);
                                 Store.PyList (take k items)]).
  { subst mem2 mem1. by rewrite <- app_assoc. }
  rewrite (fit_history_eq api cfg _ _ _ _ _ _ _ _ Em).
  destruct (Z.le_gt_cases (st + vt) (history_token_budget cfg)) as [Hle|Hgt].
  { (* within the budget *)
    exists s0, (verbatim_of cfg log), w3,
      [Store.PyList (drop k items); Store.PyList (take k items)].
    split; [by apply enforce_within|]. intros prev.
    unfold Store.body. cbv zeta. rewrite Hhead.
    destruct (Z.ltb_spec (history_token_budget cfg) (st + vt)); [lia|].
    rewrite (store_bind_ret _ _ _ _ _ _ _ _ _ (store_ret_eq _ _ _ _)).
    rewrite (Htail _ _ _ _ _ Hv). by rewrite Hmem2. }
  destruct (Z.le_gt_cases vt (history_token_budget cfg)) as [Hfit|Hover].
  2:{ (* the window alone is over the budget *)
      exists history_discarded, [],
        (record w3 [Stdout (msg_over_budget cfg (st + vt));
                    Stderr (msg_discard cfg vt)]),
        [Store.PyList (drop k items); Store.PyList (take k items);
         Store.PyList []].
      split; [by apply enforce_discard|]. intros prev.
      unfold Store.body. cbv zeta. rewrite Hhead.
      destruct (Z.ltb_spec (history_token_budget cfg) (st + vt)); [|lia].
      match goal with
      | |- Store.bind ?c _ ?f ?m ?w0 = _ =>
          assert (H4 : c f m w0
                       = (Ret (length mem2), Store.mkFrame history_discarded,
                          mem2 ++ [Store.PyList []],
                          record w3 [Stdout (msg_over_budget cfg (st + vt));
                                     Stderr (msg_discard cfg vt)]))
      end.
      { rewrite (store_bind_ret _ _ _ _ _ _ _ _ _
                   (store_lift_ret _ _ _ _ _ _ (print_eq _ _))).
        destruct (Z.ltb_spec (history_token_budget cfg - vt) 0); [|lia].
        rewrite (store_bind_ret _ _ _ _ _ _ _ _ _
                   (store_lift_ret _ _ _ _ _ _ (eprint_eq _ _))).
        rewrite (store_bind_ret _ _ _ _ _ _ _ _ _
                   (set_current_summary_eq _ _ _ _)).
        by rewrite store_new_eq, record_record. }
      rewrite (store_bind_ret _ _ _ _ _ _ _ _ _ H4).
      rewrite (Htail _ _ [] _ _).
      2:{ apply holds_new. constructor. }
      by rewrite Hmem2, <- app_assoc. }
  destruct (older_of cfg log) as [|t o] eqn:Eo.
  { (* no older turn *)
    exists "", (verbatim_of cfg log),
      (record w3 [Stdout (msg_over_budget cfg (st + vt))]),
      [Store.PyList (drop k items); Store.PyList (take k items)].
    split.
    { unfold enforce_budget.
      destruct (Z.ltb_spec (history_token_budget cfg) (st + vt)); [|lia].
      rewrite (bind_ret _ _ _ _ _ (print_eq _ _)).
      destruct (Z.ltb_spec (history_token_budget cfg - vt) 0); [lia|].
      by rewrite andb_false_r. }
    intros prev. unfold Store.body. cbv zeta. rewrite Hhead.
    destruct (Z.ltb_spec (history_token_budget cfg) (st + vt)); [|lia].
    match goal with
    | |- Store.bind ?c _ ?f ?m ?w0 = _ =>
        assert (H4 : c f m w0
                     = (Ret (length mem), Store.mkFrame "", mem2,
                        record w3 [Stdout (msg_over_budget cfg (st + vt))]))
    end.
    {   rewrite (store_bind_ret _ _ _ _ _ _ _ _ _
                   (store_lift_ret _ _ _ _ _ _ (print_eq _ _))).
        destruct (Z.ltb_spec (history_token_budget cfg - vt) 0); [lia|].
        assert (Hlong :
          (if history_token_budget cfg - vt <? st
           then Store.truth (length mem1) else Store.ret false)
            (Store.mkFrame s0) mem2
            (record w3 [Stdout (msg_over_budget cfg (st + vt))])
          = (Ret false, Store.mkFrame s0, mem2,
             record w3 [Stdout (msg_over_budget cfg (st + vt))])).
        { destruct (history_token_budget cfg - vt <? st); [|done].
          by rewrite (truth_eq _ _ _ _ _ Ho). }
        rewrite (store_bind_ret _ _ _ _ _ _ _ _ _ Hlong).
        rewrite (store_bind_ret _ _ _ _ _ _ _ _ _ (truth_eq _ _ _ _ _ Ho)).
        cbn [negb].
        rewrite (store_bind_ret _ _ _ _ _ _ _ _ _
                   (set_current_summary_eq _ _ _ _)).
        apply store_ret_eq. }
    rewrite (store_bind_ret _ _ _ _ _ _ _ _ _ H4).
    rewrite (Htail _ _ _ _ _ Hv). by rewrite Hmem2. }
  (* the summary is made again *)
  rewrite enforce_retarget by (done || lia).
  set (w4 := record w3 _).
  destruct (runs_summarize_history api model (t :: o) discipline
              (Some (history_token_budget cfg - vt)) w4)
    as (s2 & w5 & E5 & _).
  destruct (runs_count_tokens api s2 w5) as (st2 & w6 & E6 & _).
  rewrite (bind_ret _ _ _ _ _ E5), (bind_ret _ _ _ _ _ E6).
  assert (Hwarn : exists w7,
    (if history_token_budget cfg <? st2 + vt
     then print (msg_still_over cfg (st2 + vt)) else ret tt) w6 = (Ret tt, w7)).
  { destruct (history_token_budget cfg <? st2 + vt); by eexists. }
  destruct Hwarn as (w7 & E7). rewrite (bind_ret _ _ _ _ _ E7).
  exists s2, (verbatim_of cfg log), w7,
    [Store.PyList (drop k items); Store.PyList (take k items)].
  split; [done|]. intros prev. unfold Store.body. cbv zeta. rewrite Hhead.
  destruct (Z.ltb_spec (history_token_budget cfg) (st + vt)); [|lia].
  match goal with
  | |- Store.bind ?c _ ?f ?m ?w0 = _ =>
      assert (H4 : c f m w0 = (Ret (length mem), Store.mkFrame s2, mem2, w7))
  end.
  {   rewrite (store_bind_ret _ _ _ _ _ _ _ _ _
                 (store_lift_ret _ _ _ _ _ _ (print_eq _ _))).
      destruct (Z.ltb_spec (history_token_budget cfg - vt) 0); [lia|].
      destruct (Z.ltb_spec (history_token_budget cfg - vt) st); [|lia].
      rewrite (store_bind_ret _ _ _ _ _ _ _ _ _ (truth_eq _ _ _ _ _ Ho)).
      rewrite (store_bind_ret _ _ _ _ _ _ _ _ _
                 (store_lift_ret _ _ _ _ _ _ (print_eq _ _))).
      rewrite record_record. cbn [app]. fold w4.
      rewrite (store_bind_ret _ _ _ _ _ _ _ _ _
                 (summarize_in_store _ _ _ _ _ _ _ _ _ _ Ho E5)).
      rewrite (store_bind_ret _ _ _ _ _ _ _ _ _
                 (set_current_summary_eq _ _ _ _)).
      rewrite (store_bind_ret _ _ _ _ _ _ _ _ _
                 (get_current_summary_eq _ _ _)).
      rewrite (store_bind_ret _ _ _ _ _ _ _ _ _
                 (store_lift_ret _ _ _ _ _ _ E6)).
      assert (Hwarn : (if history_token_budget cfg <? st2 + vt
                       then Store.lift (print (msg_still_over cfg (st2 + vt)))
                       else Store.ret tt) (Store.mkFrame s2) mem2 w6
                      = (Ret tt, Store.mkFrame s2, mem2, w7)).
      { destruct (history_token_budget cfg <? st2 + vt).
        - by apply store_lift_ret.
        - injection E7 as <-. done. }
      rewrite (store_bind_ret _ _ _ _ _ _ _ _ _ Hwarn).
      apply store_ret_eq. }
  rewrite (store_bind_ret _ _ _ _ _ _ _ _ _ H4).
  rewrite (Htail _ _ _ _ _ Hv). by rewrite Hmem2.
Qed.

(** What [append] does is seen through every reference to the list. *)
Lemma append_changes_the_list x log turn f mem (w : world S) :
  holds mem x log ->
  exists mem',
    Store.append x turn f mem w = (Ret tt, f, mem', w) /\
    holds mem' x (log ++ [turn]) /\
    mem' !! x <> mem !! x.
Proof.
  intros (items & Hx & Hitems). unfold Store.append.
  rewrite (store_bind_ret _ _ _ _ _ _ _ _ _ (store_new_eq _ _ _ _)).
  assert (Hx1 : (mem ++ [Store.PyDict turn]) !! x = Some (Store.PyList items))
    by (by apply lookup_app_l_Some).
  rewrite (store_bind_ret _ _ _ _ _ _ _ _ _ (store_load_eq _ _ _ _ _ Hx1)).
  assert (Hlt : (x < length (mem ++ [Store.PyDict turn]))%nat)
    by (by eapply lookup_lt_Some).
  assert (Hxm : (x < length mem)%nat) by (by eapply lookup_lt_Some).
  eexists. split; [done|]. unfold Store.memory, Store.ref in *. split.
  - exists (items ++ [length mem]). split.
    + by apply list_lookup_insert_eq.
    + apply Forall2_app.
      * eapply Forall2_impl; [exact Hitems|]. intros i t Hi.
        assert (x <> i) by congruence.
        etrans; [by apply list_lookup_insert_ne|].
        by apply lookup_app_l_Some.
      * repeat constructor.
        etrans; [apply list_lookup_insert_ne; lia|].
        by apply list_lookup_middle.
  - intros H. rewrite Hx in H.
    assert (Hins : <[x:=Store.PyList (items ++ [length mem])]>
                     (mem ++ [Store.PyDict turn]) !! x
                   = Some (Store.PyList (items ++ [length mem])))
      by (by apply list_lookup_insert_eq).
    rewrite Hins in H. injection H as H.
    rewrite <- (app_nil_r items) in H at 2.
    apply app_inv_head in H. discriminate H.
Qed.

End StoreFacts.

Section StoreClaims.

Context {S : Type} (api : GenAI S) (cfg : Config).

(** C10.  The function is handed a reference to the list of the session
    and a previous summary.  For the same model, list, discipline and
    state, any two previous summaries give the same context block, the
    same updated summary, the same trace, the same state of the oracle
    and the same memory: the body assigns the variable before it reads
    it, on every path.  The call returns what the manager returns on the
    turns of the list, and it changes no object that existed before it:
    what it adds to the memory are the lists it slices and creates, so
    the list of the caller holds the same turns after the call. *)
Theorem previous_summary_is_ignored
    (model : GenerativeModel) (prev1 prev2 : string)
    (chat_history : Store.ref) (log : list Turn) (discipline : string)
    (mem : Store.memory) (w : world S)
    (Hlog : holds mem chat_history log) :
  Store.manage_history_and_get_context api cfg model prev1 chat_history
                                       discipline mem w
  = Store.manage_history_and_get_context api cfg model prev2 chat_history
                                         discipline mem w /\
  exists ctx s mem' w',
    Store.manage_history_and_get_context api cfg model prev1 chat_history
                                         discipline mem w
    = (Ret (ctx, s), mem', w') /\
    manage_history_and_get_context api cfg model prev1 log discipline w
    = (Ret (ctx, s), w') /\
    (length mem <= length mem')%nat /\
    (forall x o, mem !! x = Some o -> mem' !! x = Some o) /\
    holds mem' chat_history log.
Proof.
  destruct (body_in_store api cfg model chat_history log discipline mem w Hlog)
    as (s & v & w' & more & Ef & Hbody).
  assert (Hrun : forall prev,
    Store.manage_history_and_get_context api cfg model prev chat_history
                                         discipline mem w
    = (Ret (format_history_for_prompt s v, s), mem ++ more, w')).
  { intros prev. unfold Store.manage_history_and_get_context.
    by rewrite Hbody. }
  split; [by rewrite !Hrun|].
  exists (format_history_for_prompt s v), s, (mem ++ more), w'.
  split; [apply Hrun|]. split; [by apply (manage_eq api cfg)|].
  split; [rewrite length_app; lia|].
  split; [intros x o Hx; by apply lookup_app_l_Some|].
  by apply holds_app.
Qed.

End StoreClaims.

(** ** The rest of the program at work *)

(** One turn, within the window of ten: kept whole. *)
Lemma short_log_is_kept_whole_witness :
  Z.of_nat (length log1) <= LAST_VERBATIM_TURNS default_config /\
  exists ctx s w' evs,
    manage_history_and_get_context (scripted count_len) default_config
      gemini "" log1 "Physics" (ready []) = (Ret (ctx, s), w') /\
    trace w' = trace (ready ([] : list (result response))) ++ evs /\
    prompts_sent evs = [].
Proof.
  assert (H : Z.of_nat (length log1) <= LAST_VERBATIM_TURNS default_config)
    by (simpl; lia).
  split; [exact H|].
  destruct (short_log_is_kept_whole (scripted count_len) default_config
              gemini "" log1 "Physics" (ready []) H)
    as (vt & w1 & ctx & s & w' & evs & _ & Em & Ht & Hp & _).
  exists ctx, s, w', evs. split; [exact Em|]. split; [exact Ht|exact Hp].
Defined.

(** Eleven turns, every text measuring 20000 tokens: the window fits the
    budget and is kept. *)
Lemma verbatim_choice_is_stable_witness :
  consistent (scripted count_heavy) (fun _ => 20000) /\
  (forall t : string, 0 <= (fun _ : string => 20000) t) /\
  model_instance (ready [reply "S one"; reply "S two"]) = Some gemini /\
  exists s w',
    fit_history (scripted count_heavy) default_config gemini log11 "Physics"
                (ready [reply "S one"; reply "S two"])
    = (Ret (s, verbatim_of default_config log11), w').
Proof.
  assert (H1 : consistent (scripted count_heavy) (fun _ => 20000))
    by apply scripted_consistent.
  assert (H2 : forall t : string, 0 <= (fun _ : string => 20000) t)
    by (intros t; simpl; lia).
  split; [exact H1|]. split; [exact H2|]. split; [reflexivity|].
  destruct (verbatim_choice_is_stable (scripted count_heavy) default_config
              (fun _ => 20000) gemini log11 "Physics"
              (ready [reply "S one"; reply "S two"]) gemini H1 H2 eq_refl)
    as (s & w' & E).
  exists s, w'. exact E.
Defined.

(** Start-up with the scripted client. *)
Lemma configure_gemini_installs_model_witness :
  configure_gemini (scripted count_len) default_config (fresh [])
  = (Ret gemini,
     snd (configure_gemini (scripted count_len) default_config (fresh []))) /\
  model_instance
    (snd (configure_gemini (scripted count_len) default_config (fresh [])))
  = Some gemini.
Proof.
  assert (H : configure_gemini (scripted count_len) default_config (fresh [])
              = (Ret gemini,
                 snd (configure_gemini (scripted count_len) default_config
                        (fresh [])))) by (vm_compute; reflexivity).
  split; [exact H|].
  exact (proj1 (proj2 (configure_gemini_installs_model (scripted count_len)
                         default_config (fresh []) gemini _ H))).
Defined.

(** A summary and two turns, the second of two lines. *)
Lemma block_headers_are_the_turns_witness :
  Forall (fun t => one_line (role t) = true) log2_multiline /\
  entry_headers (format_history_for_prompt "- Sold: out" log2_multiline)
  = ["- User:"; "- Assistant:"].
Proof.
  assert (H : Forall (fun t => one_line (role t) = true) log2_multiline).
  { repeat constructor. }
  split; [exact H|].
  rewrite (block_headers_are_the_turns "- Sold: out" log2_multiline H).
  reflexivity.
Defined.

(** Three lines of noise, then the number of Engineering. *)
Lemma discipline_prompt_skips_noise_witness :
  Forall (noise plain_runtime) ["abc"; "7"; ""] /\
  exists w',
    get_student_discipline plain_runtime (["abc"; "7"; ""] ++ " 2 " :: ["next"])
                           (fresh ([] : list (result response)))
    = (Ret ("Engineering", ["next"]), w').
Proof.
  assert (Hnoise : Forall (noise plain_runtime) ["abc"; "7"; ""]).
  { repeat constructor;
      try (intros Hq; vm_compute in Hq; discriminate Hq);
      intros d (n & Hn & Hr & _); vm_compute in Hn;
      try discriminate Hn; injection Hn as <-; simpl in Hr; lia. }
  split; [exact Hnoise|].
  apply (proj1 (discipline_prompt_skips_noise plain_runtime ["abc"; "7"; ""]
                  (fresh ([] : list (result response))) Hnoise)).
  exists 2. split; [reflexivity|]. split; [simpl; lia|reflexivity].
Defined.

(** A concept that is not a dictionary. *)
Lemma tutor_call_needs_dictionary_witness :
  (forall fields, JNull <> JObject fields) /\
  exists e,
    ask (scripted count_len) plain_runtime ForHint gemini JNull
        "What is scarce?" "Physics" "(No prior conversation history)"
        (ready [reply "Consider..."])
    = (Raise e, ready [reply "Consider..."]).
Proof.
  assert (H : forall fields, JNull <> JObject fields)
    by (intros fields Hf; discriminate Hf).
  split; [exact H|].
  exact (tutor_call_needs_dictionary (scripted count_len) plain_runtime ForHint
           gemini JNull "What is scarce?" "Physics"
           "(No prior conversation history)" (ready [reply "Consider..."]) H).
Defined.

Lemma scarcity_valid : valid_concept scarcity.
Proof.
  exists [ ("concept_name", JString "Scarcity");
           ("stem_misperception", JString "resources are fixed");
           ("socratic_questions",
            JArray (map JString ["What is scarce?"; "Why do prices move?"])) ],
    "Scarcity", "resources are fixed",
    (map JString ["What is scarce?"; "Why do prices move?"]).
  repeat split; repeat constructor; by eexists.
Qed.

(** A session on the first concept: a hint, an answer, then the menu. *)
Lemma session_history_is_exchanges_witness :
  valid_concept scarcity /\
  ((exists ss' rest w',
      concept_session (scripted count_len) default_config plain_runtime
        gemini "Physics" scarcity ["hint"; "prices rise"; "menu"]
        (ready [reply "Consider..."; reply "Yes."])
      = (Ret (ss', rest), w') /\
      exchanges (chat_history ss') /\
      rest `suffix_of` ["hint"; "prices rise"; "menu"]) \/
   (exists w',
      concept_session (scripted count_len) default_config plain_runtime
        gemini "Physics" scarcity ["hint"; "prices rise"; "menu"]
        (ready [reply "Consider..."; reply "Yes."])
      = (SystemExit 0, w'))).
Proof.
  split; [exact scarcity_valid|].
  exact (session_history_is_exchanges (scripted count_len) default_config
           plain_runtime gemini "Physics" scarcity
           ["hint"; "prices rise"; "menu"]
           (ready [reply "Consider..."; reply "Yes."]) scarcity_valid).
Defined.

(** The whole program on the small bank: discipline 3, concept 1, one
    answer, then the end of the input. *)
Lemma run_tutor_only_exits_witness :
  (length ["3"; "1"; "prices rise"] < 4)%nat /\
  exists code w',
    run_tutor (scripted count_len) default_config plain_runtime 4
              (Parsed small_bank) ["3"; "1"; "prices rise"]
              (fresh [reply "Yes."])
    = (SystemExit code, w') /\
    (code = 0 \/ code = 1).
Proof.
  assert (H : (length ["3"; "1"; "prices rise"] < 4)%nat) by (simpl; lia).
  split; [exact H|].
  destruct (run_tutor_only_exits (scripted count_len) default_config
              plain_runtime 4 (Parsed small_bank) ["3"; "1"; "prices rise"]
              (fresh [reply "Yes."]) H)
    as (code & w' & E & Hc & _).
  exists code, w'. split; [exact E|exact Hc].
Defined.

(** The small bank: two concepts loaded, one offered. *)
Lemma menu_offers_concepts_with_questions_witness :
  load_qa_bank plain_runtime QA_BANK_FILE (Parsed small_bank)
               (fresh ([] : list (result response)))
  = (Ret [scarcity; empty_concept],
     snd (load_qa_bank plain_runtime QA_BANK_FILE (Parsed small_bank)
            (fresh ([] : list (result response))))) /\
  valid_concepts_of plain_runtime [scarcity; empty_concept]
                    (fresh ([] : list (result response)))
  = (Ret [scarcity], fresh []).
Proof.
  assert (H : load_qa_bank plain_runtime QA_BANK_FILE (Parsed small_bank)
                (fresh ([] : list (result response)))
              = (Ret [scarcity; empty_concept],
                 snd (load_qa_bank plain_runtime QA_BANK_FILE
                        (Parsed small_bank)
                        (fresh ([] : list (result response))))))
    by (vm_compute; reflexivity).
  split; [exact H|].
  exact (menu_offers_concepts_with_questions plain_runtime QA_BANK_FILE
           (Parsed small_bank) [scarcity; empty_concept] _ _ H (fresh [])).
Defined.

(** An answer with blanks around it. *)
Lemma answer_gets_feedback_in_context_witness :
  is_answer "  prices rise " = true /\
  exists feedback s w',
    answer_loop (scripted count_len) default_config plain_runtime gemini
      scarcity (JString "What is scarce?") "Physics" (mkSession [] "")
      ("  prices rise " :: ["menu"]) (ready [reply "Yes."])
    = (Ret (false,
            mkSession [mkTurn "user" (strip "  prices rise ");
                       mkTurn "assistant" feedback] s,
            ["menu"]), w').
Proof.
  assert (H : is_answer "  prices rise " = true) by (vm_compute; reflexivity).
  split; [exact H|].
  destruct (answer_gets_feedback_in_context (scripted count_len)
              default_config plain_runtime gemini
              [ ("concept_name", JString "Scarcity");
                ("stem_misperception", JString "resources are fixed");
                ("socratic_questions",
                 JArray (map JString ["What is scarce?";
                                      "Why do prices move?"])) ]
              (JString "What is scarce?") "Physics" (mkSession [] "")
              "  prices rise " ["menu"] (ready [reply "Yes."]) H)
    as (h1 & s1 & w1 & h2 & s2 & w2 & feedback & w3 & evs & p & _ & _ & E & _).
  exists feedback, s2, w3. exact E.
Defined.

(** *** C3: where the specification fails, and a run of the statement above *)




(** With the usual limit [int] refuses a text of 4301 digits, so the
    line is skipped although its digits read 2. *)
Lemma padded_number_is_noise : noise plain_runtime padded_two.
Proof.
  split.
  - intros Hq. vm_compute in Hq. discriminate Hq.
  - intros d (n & Hn & _). vm_compute in Hn. discriminate Hn.
Qed.

(** *** C10: a run *)

(** The manager on the list at address 1, with a previous summary that
    is not empty: the block and the summary of a first call, and a memory
    that has grown by the two slices. *)
Example manager_in_store_run :
  fst (Store.manage_history_and_get_context (scripted count_len)
         default_config gemini "old summary" 1%nat "Physics" memory1
         (ready []))
  = (Ret (join nl ["Conversation History (Recent Turns Only):";
                   "- User:"; "  hello"], ""),
     memory1 ++ [Store.PyList [0%nat]; Store.PyList []]).
Proof. by vm_compute. Qed.

Lemma previous_summary_is_ignored_witness :
  holds memory1 1%nat log1 /\
  Store.manage_history_and_get_context (scripted count_len) default_config
    gemini "old summary" 1%nat "Physics" memory1 (ready [])
  = Store.manage_history_and_get_context (scripted count_len) default_config
      gemini "" 1%nat "Physics" memory1 (ready []).
Proof.
  assert (H : holds memory1 1%nat log1).
  { exists [0%nat]. split; [reflexivity|]. repeat constructor. }
  split; [exact H|].
  exact (proj1 (previous_summary_is_ignored (scripted count_len)
                  default_config gemini "old summary" "" 1%nat log1 "Physics"
                  memory1 (ready []) H)).
Defined.
